(** * tap-salesforce: the extraction governance layer

    A shallow embedding of [tap_salesforce/salesforce/__init__.py]: the schema
    mapper [field_to_property_schema], the quota governor
    [check_rest_quota_usage], the transport [_make_request] with its retry
    decorator, the query builder [_build_query_string] and the blacklist
    policy [get_blacklisted_objects] / [get_blacklisted_fields].

    Python values are modelled as the code uses them: [int] as [Z], [float] as
    an IEEE 754 binary64 number ([spec_float] with 53 bits of precision),
    [str] as [string], [set] literals as [gset string], the compiled metadata
    [dict] as a [gmap], schema [dict]s as association lists in insertion
    order, exceptions as the [Raise] branch of [result].  Calls that touch the
    client object, the logger or the network run in the state monad [M] over
    a [world].  The text of exception messages built with [format] is kept
    as the list of its arguments, and the pauses between retries are left
    out. *)

From Stdlib Require Import ZArith String Ascii List Bool Lia SpecFloat.
From stdpp Require Import base gmap strings list pretty.

Local Open Scope Z_scope.
#[local] Set Warnings "-register-all".

(** ** Python numbers *)

Inductive pynum :=
  | PInt (n : Z)
  | PFloat (x : spec_float).

(** What a quota-exceeded message reports: the arguments of its [format]
    call, in order.  The text of the message is fixed by the constructor. *)
Inductive quota_report :=
  | TotalQuota (remaining allotted : Z) (percent : spec_float) (ceiling : pynum)
  | RunQuota (attempted : Z) (percent : spec_float) (ceiling : pynum).

Inductive exn :=
  | TypeError (msg : string)
  | KeyError (key : string)
  | ZeroDivisionError
  | OverflowError
  | ValueError
  | ConnectionError
  | RequestException (msg : string)
  | HTTPError (status_code : Z) (msg : string)
  | SFDCCustomNotAcceptableError (msg : string)
  | TapSalesforceExceptionError (msg : string)
  | TapSalesforceQuotaExceededError (report : quota_report).

Inductive result (A : Type) :=
  | Ok (a : A)
  | Raise (e : exn).
Arguments Ok {A} a.
Arguments Raise {A} e.

Definition rbind {A B} (r : result A) (k : A -> result B) : result B :=
  match r with
  | Ok a => k a
  | Raise e => Raise e
  end.

Notation "'let?' x := r 'in' k" := (rbind r (fun x => k))
  (at level 10, x name, r at level 100, k at level 200).

Module PyNum.

Definition prec : Z := 53.
Definition emax : Z := 1024.

(** An [int] as an exact (not yet rounded) binary number. *)
Definition exact (n : Z) : spec_float :=
  match n with
  | 0 => S754_zero false
  | Zpos p => S754_finite false p 0
  | Zneg p => S754_finite true p 0
  end.

Definition finite_or_overflow (x : spec_float) : result spec_float :=
  match x with
  | S754_infinity _ => Raise OverflowError
  | _ => Ok x
  end.

(** [float(n)] for an int [n], as done implicitly when an int meets a
    float: round to nearest even, [OverflowError] beyond the largest
    double. *)
Definition of_int (n : Z) : result spec_float :=
  finite_or_overflow (binary_normalize prec emax n 0 false).

(** [a / b] on two ints: the correctly rounded quotient. *)
Definition int_truediv (a b : Z) : result spec_float :=
  if Z.eqb b 0 then Raise ZeroDivisionError
  else finite_or_overflow (SFdiv prec emax (exact a) (exact b)).

(** [x / y] on two floats. *)
Definition float_truediv (x y : spec_float) : result spec_float :=
  match y with
  | S754_zero _ => Raise ZeroDivisionError
  | _ => Ok (SFdiv prec emax x y)
  end.

(** [x * n] for a number [x] and an int [n]. *)
Definition mul_int (x : pynum) (n : Z) : result pynum :=
  match x with
  | PInt a => Ok (PInt (a * n))
  | PFloat f => let? g := of_int n in Ok (PFloat (SFmul prec emax f g))
  end.

(** [x / n] for a number [x] and an int [n]. *)
Definition div_int (x : pynum) (n : Z) : result spec_float :=
  match x with
  | PInt a => int_truediv a n
  | PFloat f => let? g := of_int n in float_truediv f g
  end.

(** [int(x)]: truncation towards zero. *)
Definition to_int (x : spec_float) : result Z :=
  match x with
  | S754_zero _ => Ok 0
  | S754_infinity _ => Raise OverflowError
  | S754_nan => Raise ValueError
  | S754_finite s m e =>
      let a := match e with
               | Zneg k => Z.shiftr (Zpos m) (Zpos k)
               | _ => Z.shiftl (Zpos m) e
               end in
      Ok (if s then - a else a)
  end.

(** The exact order between a float and an int (Python compares the two
    without rounding the int). *)
Definition compare_int (x : spec_float) (n : Z) : option comparison :=
  match x with
  | S754_nan => None
  | S754_infinity s => Some (if s then Lt else Gt)
  | S754_zero _ => Some (0 ?= n)
  | S754_finite s m e =>
      let v := if s then Zneg m else Zpos m in
      Some (match e with
            | Zneg k => v ?= Z.shiftl n (Zpos k)
            | _ => Z.shiftl v e ?= n
            end)
  end.

(** [x > y] for a float [x]. *)
Definition gt (x : spec_float) (y : pynum) : bool :=
  match y with
  | PFloat g => SFltb g x
  | PInt n => match compare_int x n with Some Gt => true | _ => false end
  end.

(** [x * n] for a float [x] and an int [n]. *)
Definition float_mul_int (x : spec_float) (n : Z) : result spec_float :=
  let? g := of_int n in Ok (SFmul prec emax x g).

(** [str(n)] for an int [n]. *)
Definition str_int (n : Z) : string := pretty n.

End PyNum.

(** ** The [Sforce-Limit-Info] pattern

    [re.search(r"^api-usage=(\d+)/(\d+)$", s)]: the literal prefix at the
    start of [s], a maximal run of digits, a slash, a maximal run of digits,
    and then the end of [s], where [$] also accepts one final line feed.
    [\d+] is greedy and what follows a run is never a digit, so the match
    needs no backtracking. *)
Module Re.

Fixpoint strip_prefix (p s : string) : option string :=
  match p, s with
  | EmptyString, _ => Some s
  | String a p', String b s' =>
      if Ascii.eqb a b then strip_prefix p' s' else None
  | String _ _, EmptyString => None
  end.

Definition is_digit (c : ascii) : bool :=
  (N.leb 48 (N_of_ascii c) && N.leb (N_of_ascii c) 57)%bool.

Fixpoint span_digits (s : string) : string * string :=
  match s with
  | String c s' =>
      if is_digit c
      then let '(d, r) := span_digits s' in (String c d, r)
      else (EmptyString, s)
  | EmptyString => (EmptyString, EmptyString)
  end.

Definition LF : ascii := ascii_of_N 10.

Definition at_dollar (s : string) : bool :=
  match s with
  | EmptyString => true
  | String c EmptyString => Ascii.eqb c LF
  | _ => false
  end.

Definition is_empty (s : string) : bool :=
  match s with EmptyString => true | _ => false end.

(** The two groups of a match, or [None]. *)
Definition search_api_usage (s : string) : option (string * string) :=
  match strip_prefix "api-usage=" s with
  | None => None
  | Some r0 =>
      let '(g1, r1) := span_digits r0 in
      if is_empty g1 then None
      else match r1 with
           | String c r2 =>
               if Ascii.eqb c "/"%char
               then let '(g2, r3) := span_digits r2 in
                    if is_empty g2 then None
                    else if at_dollar r3 then Some (g1, g2) else None
               else None
           | EmptyString => None
           end
  end.

Fixpoint int_acc (acc : Z) (s : string) : Z :=
  match s with
  | EmptyString => acc
  | String c s' => int_acc (10 * acc + (Z.of_N (N_of_ascii c) - 48)) s'
  end.

(** [int(g)] for a group [g] of decimal digits. *)
Definition int (s : string) : Z := int_acc 0 s.

(** Strings made of decimal digits only. *)
Fixpoint digits (s : string) : bool :=
  match s with
  | EmptyString => true
  | String c s' => (is_digit c && digits s')%bool
  end.

End Re.

(** ** Schema fragments and metadata *)

Inductive json :=
  | JStr (s : string)
  | JList (l : list json)
  | JDict (d : list (string * json)).

(** A schema [dict], its items in insertion order. *)
Module Dict.

Fixpoint get (d : list (string * json)) (k : string) : option json :=
  match d with
  | [] => None
  | (k', v) :: d' => if String.eqb k' k then Some v else get d' k
  end.

(** [d[k]] *)
Definition getitem (d : list (string * json)) (k : string) : result json :=
  match get d k with
  | Some v => Ok v
  | None => Raise (KeyError k)
  end.

(** [d[k] = v] *)
Fixpoint set (d : list (string * json)) (k : string) (v : json)
  : list (string * json) :=
  match d with
  | [] => [(k, v)]
  | (k', v') :: d' =>
      if String.eqb k' k then (k', v) :: d' else (k', v') :: set d' k v
  end.

End Dict.

(** Values stored in singer metadata: strings and booleans. *)
Inductive mvalue :=
  | MStr (s : string)
  | MBool (b : bool).

(** The compiled metadata map of singer: breadcrumb tuple to a dict. *)
Module metadata.

(** [singer.metadata.write], a call into the singer library (not part of the
    repository), modelled from the library's documented behaviour: it
    records one key under a breadcrumb and keeps the other keys. *)
Definition write (compiled : gmap (list string) (gmap string mvalue))
    (breadcrumb : list string) (k : string) (val : mvalue)
  : gmap (list string) (gmap string mvalue) :=
  match compiled !! breadcrumb with
  | Some d => <[breadcrumb := <[k := val]> d]> compiled
  | None => <[breadcrumb := {[k := val]}]> compiled
  end.

(** [singer.metadata.get], from the same library: the value of one key
    under a breadcrumb, [None] when either is missing. *)
Definition get (compiled : gmap (list string) (gmap string mvalue))
    (breadcrumb : list string) (k : string) : option mvalue :=
  match compiled !! breadcrumb with
  | Some d => d !! k
  | None => None
  end.

(** [singer.metadata.to_map], from the same library: the compiled map of the
    catalog's list of (breadcrumb, metadata) entries; a later entry replaces
    an earlier one with the same breadcrumb. *)
Definition to_map (raw : list (list string * gmap string mvalue))
  : gmap (list string) (gmap string mvalue) :=
  foldl (fun m entry => <[entry.1 := entry.2]> m) ∅ raw.

End metadata.

(** ** Module constants *)

Definition BULK_API_TYPE : string := "BULK".
Definition BULK2_API_TYPE : string := "BULK2".
Definition REST_API_TYPE : string := "REST".

Definition STRING_TYPES : gset string :=
  {[ "id"; "string"; "picklist"; "textarea"; "phone"; "url"; "reference";
     "multipicklist"; "combobox"; "encryptedstring"; "email"; "complexvalue";
     "masterrecord"; "datacategorygroupreference"; "base64" ]}.

Definition NUMBER_TYPES : gset string := {[ "double"; "currency"; "percent" ]}.

Definition DATE_TYPES : gset string := {[ "datetime"; "date" ]}.

Definition BINARY_TYPES : gset string := {[ "byte" ]}.

Definition LOOSE_TYPES : gset string := {[ "anyType"; "calculated" ]}.

Definition UNSUPPORTED_BULK_API_SALESFORCE_OBJECTS : gset string :=
  {[ "AssetTokenEvent"; "AttachedContentNote"; "EventWhoRelation";
     "QuoteTemplateRichTextData"; "TaskWhoRelation"; "SolutionStatus";
     "ContractStatus"; "RecentlyViewed"; "DeclinedEventRelation";
     "AcceptedEventRelation"; "TaskStatus"; "PartnerRole"; "TaskPriority";
     "CaseStatus"; "UndecidedEventRelation"; "OrderStatus" ]}.

Definition QUERY_RESTRICTED_SALESFORCE_OBJECTS : gset string :=
  {[ "Announcement"; "CollaborationGroupRecord"; "Vote"; "IdeaComment";
     "FieldDefinition"; "PlatformAction"; "UserEntityAccess";
     "RelationshipInfo"; "ContentFolderMember"; "ContentFolderItem";
     "SearchLayout"; "SiteDetail"; "EntityParticle"; "OwnerChangeOptionInfo";
     "DataStatistics"; "UserFieldAccess"; "PicklistValueInfo";
     "RelationshipDomain"; "FlexQueueItem"; "NetworkUserHistoryRecent";
     "FieldHistoryArchive"; "RecordActionHistory"; "FlowVersionView";
     "FlowVariableView"; "AppTabMember"; "ColorDefinition";
     "IconDefinition" ]}.

Definition QUERY_INCOMPATIBLE_SALESFORCE_OBJECTS : gset string :=
  {[ "DataType"; "ListViewChartInstance"; "FeedLike"; "OutgoingEmail";
     "OutgoingEmailRelation"; "FeedSignal"; "ActivityHistory"; "EmailStatus";
     "UserRecordAccess"; "Name"; "AggregateResult"; "OpenActivity";
     "ProcessInstanceHistory"; "OwnedContentDocument";
     "FolderedContentDocument"; "FeedTrackedChange"; "CombinedAttachment";
     "AttachedContentDocument"; "ContentBody"; "NoteAndAttachment";
     "LookedUpFromActivity"; "AttachedContentNote";
     "QuoteTemplateRichTextData" ]}.

(** ** Schema mapper *)

(** A remote field descriptor: [field["name"]] and [field["type"]]. *)
Record field_descriptor := mkField {
  field_name : string;
  sf_type : string
}.

(** How the type dispatch of [field_to_property_schema] leaves: by falling
    through to the nullability step, or by an early [return]. *)
Inductive dispatch :=
  | Fall (property_schema : list (string * json))
  | Return (property_schema : list (string * json))
           (mdata : gmap (list string) (gmap string mvalue)).

Definition nullable_string : json := JDict [("type", JList [JStr "null"; JStr "string"])].
Definition nullable_number : json := JDict [("type", JList [JStr "null"; JStr "number"])].

Definition field_to_property_schema (field : field_descriptor)
    (mdata : gmap (list string) (gmap string mvalue))
  : result (list (string * json) * gmap (list string) (gmap string mvalue)) :=
  let property_schema : list (string * json) := [] in
  let field_name := field_name field in
  let sf_type := sf_type field in
  let? d :=
    if bool_decide (sf_type ∈ STRING_TYPES) then
      Ok (Fall (Dict.set property_schema "type" (JStr "string")))
    else if bool_decide (sf_type ∈ DATE_TYPES) then
      let date_type := JDict [("type", JStr "string"); ("format", JStr "date-time")] in
      let string_type := JDict [("type", JList [JStr "string"; JStr "null"])] in
      Ok (Fall (Dict.set property_schema "anyOf" (JList [date_type; string_type])))
    else if String.eqb sf_type "boolean" then
      Ok (Fall (Dict.set property_schema "type" (JStr "boolean")))
    else if bool_decide (sf_type ∈ NUMBER_TYPES) then
      Ok (Fall (Dict.set property_schema "type" (JStr "number")))
    else if String.eqb sf_type "address" then
      let property_schema := Dict.set property_schema "type" (JStr "object") in
      Ok (Fall (Dict.set property_schema "properties"
                  (JDict [("street", nullable_string);
                          ("state", nullable_string);
                          ("postalCode", nullable_string);
                          ("city", nullable_string);
                          ("country", nullable_string);
                          ("longitude", nullable_number);
                          ("latitude", nullable_number);
                          ("geocodeAccuracy", nullable_string)])))
    else if bool_decide (sf_type ∈ ["int"; "long"]) then
      Ok (Fall (Dict.set property_schema "type" (JStr "integer")))
    else if String.eqb sf_type "time" then
      Ok (Fall (Dict.set property_schema "type" (JStr "string")))
    else if bool_decide (sf_type ∈ LOOSE_TYPES) then
      Ok (Return property_schema mdata)
    else if bool_decide (sf_type ∈ BINARY_TYPES) then
      let mdata := metadata.write mdata ["properties"; field_name]
                     "inclusion" (MStr "unsupported") in
      let mdata := metadata.write mdata ["properties"; field_name]
                     "unsupported-description" (MStr "binary data") in
      Ok (Return property_schema mdata)
    else if String.eqb sf_type "location" then
      let property_schema :=
        Dict.set property_schema "type"
          (JList [JStr "number"; JStr "object"; JStr "null"]) in
      Ok (Fall (Dict.set property_schema "properties"
                  (JDict [("longitude", nullable_number);
                          ("latitude", nullable_number)])))
    else if String.eqb sf_type "json" then
      Ok (Fall (Dict.set property_schema "type" (JStr "string")))
    else
      Raise (TapSalesforceExceptionError ("Found unsupported type: " +:+ sf_type))
  in
  match d with
  | Return property_schema mdata => Ok (property_schema, mdata)
  | Fall property_schema =>
      if negb (String.eqb field_name "Id")
         && negb (String.eqb sf_type "location")
         && negb (bool_decide (sf_type ∈ DATE_TYPES))
      then
        let? ty := Dict.getitem property_schema "type" in
        Ok (Dict.set property_schema "type" (JList [JStr "null"; ty]), mdata)
      else Ok (property_schema, mdata)
  end.

(** ** The client, the responses it sees and the effects of a call *)

Record Salesforce := mkSalesforce {
  api_type : option string;
  quota_percent_per_run : pynum;
  quota_percent_total : pynum;
  select_fields_by_default : bool;
  rest_requests_attempted : Z
}.

Record Response := mkResponse {
  status_code : Z;
  reason : string;
  url : string;
  headers : gmap string string
}.

Inductive log_record :=
  | LogInfo (msg : string) (args : list string)
  | LogWarning (msg : string).

(** What one call of [session.get] or [session.post] does. *)
Inductive sending :=
  | Answers (resp : Response)
  | Fails (e : exn).

(** The state a call runs in: the client object, the records written to
    [LOGGER] so far (oldest first), and the remote side as the outcome of the
    n-th request sent, with the number of requests sent so far. *)
Record world := mkWorld {
  self : Salesforce;
  LOGGER : list log_record;
  wire : nat -> sending;
  sent : nat
}.

Definition M (A : Type) : Type := world -> world * result A.

Definition ret {A} (a : A) : M A := fun w => (w, Ok a).

Definition raise {A} (e : exn) : M A := fun w => (w, Raise e).

Definition bind {A B} (m : M A) (k : A -> M B) : M B :=
  fun w =>
    match m w with
    | (w', Ok a) => k a w'
    | (w', Raise e) => (w', Raise e)
    end.

Definition lift {A} (r : result A) : M A := fun w => (w, r).

Notation "'let!' x := m 'in' k" := (bind m (fun x => k))
  (at level 10, x name, m at level 100, k at level 200).
Notation "m ;; k" := (bind m (fun _ => k))
  (at level 100, k at level 200, right associativity).

Definition log (r : log_record) : M unit :=
  fun w => (mkWorld (self w) (LOGGER w ++ [r]) (wire w) (sent w), Ok tt).

Definition get_self : M Salesforce := fun w => (w, Ok (self w)).

(** [self.rest_requests_attempted += 1] *)
Definition count_rest_request : M unit :=
  fun w =>
    let s := self w in
    (mkWorld (mkSalesforce (api_type s) (quota_percent_per_run s)
                (quota_percent_total s) (select_fields_by_default s)
                (rest_requests_attempted s + 1))
       (LOGGER w) (wire w) (sent w), Ok tt).

(** [self.session.get(...)] and [self.session.post(...)]: the next outcome
    of the wire. *)
Definition session_send : M Response :=
  fun w =>
    let w' := mkWorld (self w) (LOGGER w) (wire w) (S (sent w)) in
    match wire w (sent w) with
    | Answers resp => (w', Ok resp)
    | Fails e => (w', Raise e)
    end.

Definition str_opt (o : option string) : string :=
  match o with
  | Some s => s
  | None => "None"
  end.

(** [needle in hay] on two strings. *)
Fixpoint str_contains (needle hay : string) : bool :=
  String.prefix needle hay
  || match hay with
     | String _ hay' => str_contains needle hay'
     | EmptyString => false
     end.

(** ** Transport: status handling *)

Definition log_backoff_attempt (tries : nat) : M unit :=
  log (LogInfo "ConnectionError detected, triggering backoff: %d try"
         [PyNum.str_int (Z.of_nat tries)]).

(** [f"{resp.status_code} <kind> Error: {resp.reason} for url: {resp.url}"] *)
Definition http_error_msg (kind : string) (resp : Response) : string :=
  PyNum.str_int (status_code resp) +:+ " " +:+ kind +:+ " Error: "
  +:+ reason resp +:+ " for url: " +:+ url resp.

(** [requests.Response.raise_for_status], a call into the requests library
    (not part of the repository), modelled from the library's documented
    behaviour: it raises [HTTPError] for the client-error (4xx) and
    server-error (5xx) classes of status codes and returns otherwise. *)
Definition Response_raise_for_status (resp : Response) : M unit :=
  let code := status_code resp in
  if (400 <=? code) && (code <? 500) then
    raise (HTTPError code (http_error_msg "Client" resp))
  else if (500 <=? code) && (code <? 600) then
    raise (HTTPError code (http_error_msg "Server" resp))
  else ret tt.

Definition raise_for_status (resp : Response) : M unit :=
  let err_msg := http_error_msg "Client" resp in
  (if negb (status_code resp =? 200) then log (LogWarning err_msg) else ret tt) ;;
  if (status_code resp =? 406) && str_contains "CustomNotAcceptable" (reason resp)
  then raise (SFDCCustomNotAcceptableError err_msg)
  else Response_raise_for_status resp.

(** ** Quota governor *)

(** [(a / b) * 100] on two ints. *)
Definition percent_of (a b : Z) : result spec_float :=
  let? ratio := PyNum.int_truediv a b in
  PyNum.float_mul_int ratio 100.

(** [int((self.quota_percent_per_run * allotted) / 100)] *)
Definition max_requests_for_run (this : Salesforce) (allotted : Z) : result Z :=
  let? product := PyNum.mul_int (quota_percent_per_run this) allotted in
  let? quotient := PyNum.div_int product 100 in
  PyNum.to_int quotient.

Definition check_rest_quota_usage (headers : gmap string string) : M unit :=
  match headers !! "Sforce-Limit-Info" with
  | None => raise (TypeError "expected string or bytes-like object")
  | Some info =>
      match Re.search_api_usage info with
      | None => ret tt
      | Some (g1, g2) =>
          let remaining := Re.int g1 in
          let allotted := Re.int g2 in
          log (LogInfo "Used %s of %s daily REST API quota"
                 [PyNum.str_int remaining; PyNum.str_int allotted]) ;;
          let! this := get_self in
          let! percent_used_from_total := lift (percent_of remaining allotted) in
          let! max_requests := lift (max_requests_for_run this allotted) in
          if PyNum.gt percent_used_from_total (quota_percent_total this) then
            raise (TapSalesforceQuotaExceededError
                     (TotalQuota remaining allotted percent_used_from_total
                        (quota_percent_total this)))
          else if rest_requests_attempted this >? max_requests then
            let! run_percent :=
              lift (percent_of (rest_requests_attempted this) allotted) in
            raise (TapSalesforceQuotaExceededError
                     (RunQuota (rest_requests_attempted this) run_percent
                        (quota_percent_per_run this)))
          else ret tt
      end
  end.

(** ** Transport: one attempt and the retry loop *)

(** The body of [_make_request], one attempt. *)
Definition make_request_attempt (http_method url : string)
    (req_headers : option (gmap string string)) (body : option string)
    (stream : bool) (params : option string) : M Response :=
  let! resp :=
    if String.eqb http_method "GET" then
      log (LogInfo "Making %s request to %s with params: %s"
             [http_method; url; str_opt params]) ;;
      session_send
    else if String.eqb http_method "POST" then
      log (LogInfo "Making %s request to %s with body %s"
             [http_method; url; str_opt body]) ;;
      session_send
    else raise (TapSalesforceExceptionError "Unsupported HTTP method")
  in
  raise_for_status resp ;;
  (match headers resp !! "Sforce-Limit-Info" with
   | Some _ => count_rest_request ;; check_rest_quota_usage (headers resp)
   | None => ret tt
   end) ;;
  ret resp.

(** Modelled from the spec: the retry decorator [backoff.on_exception] with
    [max_tries], library code that section 4.1 describes: the target is
    called again while it raises one of the listed exceptions, the handler
    [on_backoff] running before each new try; at the last allowed try, or on
    any other exception, the exception propagates.  [tries] counts the calls
    made, [more] the calls still allowed after this one.  The sleeping
    between tries is not modelled. *)
Fixpoint retry_exception {A} (retried : exn -> bool)
    (on_backoff : nat -> M unit) (more tries : nat) (target : M A) : M A :=
  fun w =>
    match target w with
    | (w', Ok a) => (w', Ok a)
    | (w', Raise e) =>
        if retried e then
          match more with
          | O => (w', Raise e)
          | S more' =>
              (on_backoff tries ;;
               retry_exception retried on_backoff more' (S tries) target) w'
          end
        else (w', Raise e)
    end.

Definition backoff_on_exception {A} (retried : exn -> bool) (max_tries : nat)
    (on_backoff : nat -> M unit) (target : M A) : M A :=
  retry_exception retried on_backoff (Nat.pred max_tries) 1%nat target.

(** [(requests.exceptions.ConnectionError, SFDCCustomNotAcceptableError)] *)
Definition retried_exceptions (e : exn) : bool :=
  match e with
  | ConnectionError | SFDCCustomNotAcceptableError _ => true
  | _ => false
  end.

Definition _make_request (http_method url : string)
    (req_headers : option (gmap string string)) (body : option string)
    (stream : bool) (params : option string) : M Response :=
  backoff_on_exception retried_exceptions 10 log_backoff_attempt
    (make_request_attempt http_method url req_headers body stream params).

(** ** Query builder *)

(** A catalog entry: [catalog_entry["stream"]], the value of
    [catalog_entry["schema"].get("properties")] with its keys in order, and
    the raw list [catalog_entry["metadata"]]. *)
Record catalog_entry := mkCatalogEntry {
  stream : string;
  schema_properties : option (list (string * json));
  raw_metadata : list (list string * gmap string mvalue)
}.

(** Truth value of a metadata value that may be missing. *)
Definition truthy (v : option mvalue) : bool :=
  match v with
  | None => false
  | Some (MStr s) => negb (Re.is_empty s)
  | Some (MBool b) => b
  end.

(** How a metadata value prints inside an f-string. *)
Definition str_mvalue (v : option mvalue) : string :=
  match v with
  | None => "None"
  | Some (MStr s) => s
  | Some (MBool true) => "True"
  | Some (MBool false) => "False"
  end.

Section QueryBuilder.

(** [singer.should_sync_field(inclusion, selected, default)], the
    selection predicate of the surrounding pipeline. *)
Variable should_sync_field : option mvalue -> option mvalue -> bool -> bool.

Definition _get_selected_properties (this : Salesforce)
    (entry : catalog_entry) : list string :=
  let mdata := metadata.to_map (raw_metadata entry) in
  let properties := default [] (schema_properties entry) in
  filter
    (fun k =>
       should_sync_field
         (metadata.get mdata ["properties"; k] "inclusion")
         (metadata.get mdata ["properties"; k] "selected")
         (select_fields_by_default this) = true)
    (map fst properties).

Definition _build_query_string (this : Salesforce) (entry : catalog_entry)
    (start_date : string) (end_date : option string)
    (order_by_clause : bool) : string :=
  let selected_properties := _get_selected_properties this entry in
  let query := "SELECT " +:+ String.concat "," selected_properties
               +:+ " FROM " +:+ stream entry in
  let catalog_metadata := metadata.to_map (raw_metadata entry) in
  let replication_key := metadata.get catalog_metadata [] "replication-key" in
  if truthy replication_key then
    let where_clause :=
      " WHERE " +:+ str_mvalue replication_key +:+ " >= " +:+ start_date +:+ " " in
    let end_date_clause :=
      match end_date with
      | Some e =>
          if Re.is_empty e then ""
          else " AND " +:+ str_mvalue replication_key +:+ " < " +:+ e
      | None => ""
      end in
    let order_by := " ORDER BY " +:+ str_mvalue replication_key +:+ " ASC" in
    if order_by_clause
    then query +:+ where_clause +:+ end_date_clause +:+ order_by
    else query +:+ where_clause +:+ end_date_clause
  else query.

End QueryBuilder.

(** ** Blacklist policy *)

Definition api_type_error (this : Salesforce) : exn :=
  TapSalesforceExceptionError
    ("api_type should be REST or BULK was: " +:+ str_opt (api_type this)).

Definition get_blacklisted_objects (this : Salesforce) : result (gset string) :=
  if bool_decide (api_type this ∈ [Some BULK_API_TYPE; Some BULK2_API_TYPE]) then
    Ok (UNSUPPORTED_BULK_API_SALESFORCE_OBJECTS
          ∪ QUERY_RESTRICTED_SALESFORCE_OBJECTS
          ∪ QUERY_INCOMPATIBLE_SALESFORCE_OBJECTS)
  else if bool_decide (api_type this = Some REST_API_TYPE) then
    Ok (QUERY_RESTRICTED_SALESFORCE_OBJECTS
          ∪ QUERY_INCOMPATIBLE_SALESFORCE_OBJECTS)
  else Raise (api_type_error this).

Definition get_blacklisted_fields (this : Salesforce)
  : result (gmap (string * string) string) :=
  if bool_decide (api_type this = Some BULK_API_TYPE)
     || bool_decide (api_type this = Some BULK2_API_TYPE) then
    Ok {[ ("EntityDefinition", "RecordTypesSupported")
            := "this field is unsupported by the Bulk API." ]}
  else if bool_decide (api_type this = Some REST_API_TYPE) then
    Ok ∅
  else Raise (api_type_error this).

(** ** The mapping table of the specification (section 4.3)

    The second definition of the schema mapper, written from the table and
    the general nullability rule, to be compared with
    [field_to_property_schema]. *)
Module Spec.

Inductive entry :=
  | Fragment (d : list (string * json))
  | EmptyFragment
  | EmptyUnsupported (why : string).

Definition nullable (ty : string) : json :=
  JDict [("type", JList [JStr "null"; JStr ty])].

Definition type_table : list (list string * entry) :=
  [ (["id"; "string"; "picklist"; "textarea"; "phone"; "url"; "reference";
      "multipicklist"; "combobox"; "encryptedstring"; "email";
      "complexvalue"; "masterrecord"; "datacategorygroupreference";
      "base64"],
     Fragment [("type", JStr "string")]);
    (["datetime"; "date"],
     Fragment [("anyOf",
                JList [JDict [("type", JStr "string");
                              ("format", JStr "date-time")];
                       JDict [("type", JList [JStr "string"; JStr "null"])]])]);
    (["boolean"], Fragment [("type", JStr "boolean")]);
    (["double"; "currency"; "percent"], Fragment [("type", JStr "number")]);
    (["int"; "long"], Fragment [("type", JStr "integer")]);
    (["time"; "json"], Fragment [("type", JStr "string")]);
    (["address"],
     Fragment [("type", JStr "object");
               ("properties",
                JDict [("street", nullable "string");
                       ("state", nullable "string");
                       ("postalCode", nullable "string");
                       ("city", nullable "string");
                       ("country", nullable "string");
                       ("longitude", nullable "number");
                       ("latitude", nullable "number");
                       ("geocodeAccuracy", nullable "string")])]);
    (["location"],
     Fragment [("type", JList [JStr "number"; JStr "object"; JStr "null"]);
               ("properties",
                JDict [("longitude", nullable "number");
                       ("latitude", nullable "number")])]);
    (["anyType"; "calculated"], EmptyFragment);
    (["byte"], EmptyUnsupported "binary data") ].

(** The supported vocabulary: every tag of the table. *)
Definition vocabulary : list string := concat (map fst type_table).

Definition lookup (tag : string) : option entry :=
  snd <$> List.find (fun row => bool_decide (tag ∈ row.1)) type_table.

Definition primary_key : string := "Id".

Definition date_time_tags : list string := ["datetime"; "date"].

(** The union of a null marker with the fragment's type. *)
Definition wrap_null (d : list (string * json)) : list (string * json) :=
  match Dict.get d "type" with
  | Some ty => Dict.set d "type" (JList [JStr "null"; ty])
  | None => d
  end.

(** The general nullability rule. *)
Definition nullability (name tag : string) (d : list (string * json))
  : list (string * json) :=
  if bool_decide (name ≠ primary_key ∧ tag ≠ "location" ∧ tag ∉ date_time_tags)
  then wrap_null d
  else d.

Definition mark_unsupported (name why : string)
    (mdata : gmap (list string) (gmap string mvalue))
  : gmap (list string) (gmap string mvalue) :=
  metadata.write
    (metadata.write mdata ["properties"; name] "inclusion" (MStr "unsupported"))
    ["properties"; name] "unsupported-description" (MStr why).

Definition mapField (field : field_descriptor)
    (mdata : gmap (list string) (gmap string mvalue))
  : result (list (string * json) * gmap (list string) (gmap string mvalue)) :=
  match lookup (sf_type field) with
  | Some (Fragment d) =>
      Ok (nullability (field_name field) (sf_type field) d, mdata)
  | Some EmptyFragment => Ok ([], mdata)
  | Some (EmptyUnsupported why) =>
      Ok ([], mark_unsupported (field_name field) why mdata)
  | None =>
      Raise (TapSalesforceExceptionError
               ("Found unsupported type: " +:+ sf_type field))
  end.

End Spec.

(** ** Reading a fragment *)

Definition is_null_marker (j : json) : bool :=
  match j with
  | JStr s => String.eqb s "null"
  | _ => false
  end.

(** The fragment has a type set, and the set has a null marker. *)
Definition type_includes_null (frag : list (string * json)) : bool :=
  match Dict.get frag "type" with
  | Some (JList tys) => existsb is_null_marker tys
  | _ => false
  end.

(** One alternative of the fragment's [anyOf] has a null marker. *)
Definition alternative_includes_null (frag : list (string * json)) : bool :=
  match Dict.get frag "anyOf" with
  | Some (JList alts) =>
      existsb (fun a => match a with
                        | JDict d => type_includes_null d
                        | _ => false
                        end) alts
  | _ => false
  end.

(** How many null markers the fragment's type set holds, at any depth. *)
Fixpoint null_markers (j : json) : nat :=
  match j with
  | JStr s => if String.eqb s "null" then 1%nat else 0%nat
  | JList l => fold_right (fun x n => (null_markers x + n)%nat) 0%nat l
  | JDict _ => 0%nat
  end.

(** ** Well-formed quota headers, stated apart from the matcher *)

(** A non-empty run of decimal digits. *)
Definition number (s : string) : Prop := Re.digits s = true /\ s <> "".

(** [api-usage=<used>/<allotted>], where the pattern's [$] lets one final
    line feed follow. *)
Definition api_usage_form (info : string) : Prop :=
  exists used allotted tail,
    number used /\ number allotted
    /\ (tail = "" \/ tail = String Re.LF "")
    /\ info = "api-usage=" +:+ used +:+ "/" +:+ allotted +:+ tail.

(** ** A fresh client *)

(** [api_type.upper()] on the letters a to z. *)
Definition upper_ascii (c : ascii) : ascii :=
  let n := N_of_ascii c in
  if (N.leb 97 n && N.leb n 122)%bool then ascii_of_N (n - 32) else c.

Fixpoint str_upper (s : string) : string :=
  match s with
  | EmptyString => EmptyString
  | String c s' => String (upper_ascii c) (str_upper s')
  end.

(** [Salesforce.__init__], for the attributes modelled here; the two quota
    arguments are [None] or already a float. *)
Definition init (quota_percent_per_run quota_percent_total : option spec_float)
    (select_fields_by_default : bool) (api_type : option string) : Salesforce :=
  mkSalesforce
    (match api_type with
     | Some s => if Re.is_empty s then None else Some (str_upper s)
     | None => None
     end)
    (match quota_percent_per_run with Some x => PFloat x | None => PInt 25 end)
    (match quota_percent_total with Some x => PFloat x | None => PInt 80 end)
    select_fields_by_default
    0.

(** A run of [n] calls of [_make_request], stopping at the first exception. *)
Fixpoint requests (n : nat) (http_method url : string) : M unit :=
  match n with
  | O => ret tt
  | S k =>
      requests k http_method url ;;
      _make_request http_method url None None false None ;;
      ret tt
  end.

(** ** The query the specification words describe *)
Module SpecQuery.

Definition base (fields : list string) (stream_name : string) : string :=
  "SELECT " +:+ String.concat "," fields +:+ " FROM " +:+ stream_name.

(** The base query, [ WHERE <key> >= <startDate>], then
    [ AND <key> < <endDate>] when an end date is given, then
    [ ORDER BY <key> ASC] when ordering is asked for. *)
Definition build (fields : list string) (stream_name key start_date : string)
    (end_date : option string) (include_order_by : bool) : string :=
  base fields stream_name
  +:+ " WHERE " +:+ key +:+ " >= " +:+ start_date
  +:+ match end_date with
      | Some e => " AND " +:+ key +:+ " < " +:+ e
      | None => ""
      end
  +:+ (if include_order_by then " ORDER BY " +:+ key +:+ " ASC" else "").

End SpecQuery.

(** ** The decision of the quota check, once the header has matched

    What [check_rest_quota_usage] computes after its log line, read off the
    client; [check_matched] below relates the two. *)
Definition quota_verdict (this : Salesforce) (remaining allotted : Z)
  : result unit :=
  let? percent_used_from_total := percent_of remaining allotted in
  let? max_requests := max_requests_for_run this allotted in
  if PyNum.gt percent_used_from_total (quota_percent_total this) then
    Raise (TapSalesforceQuotaExceededError
             (TotalQuota remaining allotted percent_used_from_total
                (quota_percent_total this)))
  else if rest_requests_attempted this >? max_requests then
    let? run_percent := percent_of (rest_requests_attempted this) allotted in
    Raise (TapSalesforceQuotaExceededError
             (RunQuota (rest_requests_attempted this) run_percent
                (quota_percent_per_run this)))
  else Ok tt.

Definition is_total_quota (r : result unit) : bool :=
  match r with
  | Raise (TapSalesforceQuotaExceededError (TotalQuota _ _ _ _)) => true
  | _ => false
  end.

Definition is_run_quota (r : result unit) : bool :=
  match r with
  | Raise (TapSalesforceQuotaExceededError (RunQuota _ _ _)) => true
  | _ => false
  end.

(** The name of the quota header. *)
Definition LIMIT_INFO : string := "Sforce-Limit-Info".

(** The client [this] with [n] REST requests counted. *)
Definition counting (this : Salesforce) (n : Z) : Salesforce :=
  mkSalesforce (api_type this) (quota_percent_per_run this)
    (quota_percent_total this) (select_fields_by_default this) n.

(** ** Sample configurations and responses *)

(** The number [n] as the client may hold it: the int default, or the float
    made from a configured value. *)
Definition holds (n : Z) (x : pynum) : Prop :=
  x = PInt n \/ x = PFloat (binary_normalize PyNum.prec PyNum.emax n 0 false).

(** A good response whose quota header reports [used] of 1000 requests,
    with [used] at most 800. *)
Definition calm (o : sending) : Prop :=
  exists resp used,
    o = Answers resp /\ status_code resp = 200
    /\ headers resp !! LIMIT_INFO = Some ("api-usage=" +:+ used +:+ "/1000")
    /\ number used /\ Re.int used <= 800.

Definition quota_response (info : string) : Response :=
  mkResponse 200 "OK" "https://example.my.salesforce.com/services/data/v60.0/sobjects"
    {[ LIMIT_INFO := info ]}.

(** A client with the default quotas that has counted [n] requests, facing
    a remote side that answers every request with [resp]. *)
Definition sample_world (n : Z) (resp : Response) : world :=
  mkWorld (counting (init None None false (Some "rest")) n) []
    (fun _ => Answers resp) 0.

(** ** What one attempt does with the outcome of its request *)

(** The line logged before the request is sent. *)
Definition request_line (http_method url : string) (body params : option string)
  : log_record :=
  if String.eqb http_method "GET"
  then LogInfo "Making %s request to %s with params: %s"
         [http_method; url; str_opt params]
  else LogInfo "Making %s request to %s with body %s"
         [http_method; url; str_opt body].

(** The world once [line] is logged and the request sent. *)
Definition sent_world (w : world) (line : log_record) : world :=
  mkWorld (self w) (LOGGER w ++ [line]) (wire w) (S (sent w)).

(** The world once [line] is logged, the request sent and the response
    counted. *)
Definition sent_and_counted (w : world) (line : log_record) : world :=
  mkWorld (counting (self w) (rest_requests_attempted (self w) + 1))
    (LOGGER w ++ [line]) (wire w) (S (sent w)).

(** The exception an attempt ends with before it reaches the quota check,
    read off the outcome of its request. *)
Definition failure (o : sending) : option exn :=
  match o with
  | Fails e => Some e
  | Answers resp =>
      let code := status_code resp in
      if (code =? 406) && str_contains "CustomNotAcceptable" (reason resp)
      then Some (SFDCCustomNotAcceptableError (http_error_msg "Client" resp))
      else if (400 <=? code) && (code <? 500)
      then Some (HTTPError code (http_error_msg "Client" resp))
      else if (500 <=? code) && (code <? 600)
      then Some (HTTPError code (http_error_msg "Server" resp))
      else None
  end.

(** The two transient conditions: a connection-level failure, and the 406
    response whose reason phrase holds [CustomNotAcceptable]. *)
Definition transient (o : sending) : bool :=
  match o with
  | Fails e => retried_exceptions e
  | Answers resp =>
      (status_code resp =? 406)
      && str_contains "CustomNotAcceptable" (reason resp)
  end.

(** No digit starts the string. *)
Definition stops (r : string) : Prop :=
  match r with
  | String c _ => Re.is_digit c = false
  | EmptyString => True
  end.

(** With 1000 requests allotted, is the computed percentage over 80 exactly
    when more than 800 requests are used, whether 80 is held as an int or as
    a float? *)
Definition percent_is_exact (u : Z) : bool :=
  match percent_of u 1000 with
  | Ok p =>
      Bool.eqb (PyNum.gt p (PInt 80)) (800 <? u)
      && Bool.eqb
           (PyNum.gt p (PFloat (binary_normalize PyNum.prec PyNum.emax 80 0 false)))
           (800 <? u)
  | Raise _ => false
  end.

(** Modelled from the spec: the selection predicate, "unsupported fields
    are always excluded; otherwise explicit selection wins, falling back to
    the default policy when unset". *)
Definition spec_should_sync_field (inclusion selected : option mvalue)
    (default_policy : bool) : bool :=
  match inclusion with
  | Some (MStr "unsupported") => false
  | _ => match selected with
         | Some (MBool b) => b
         | _ => default_policy
         end
  end.

(** A catalog entry for the examples: the stream [Account] with two
    properties and [SystemModstamp] as its replication key. *)
Definition sample_entry : catalog_entry :=
  mkCatalogEntry "Account"
    (Some [("Id", JDict [("type", JStr "string")]);
           ("Name", JDict [("type", JList [JStr "null"; JStr "string"])])])
    [([], {[ "replication-key" := MStr "SystemModstamp" ]});
     (["properties"; "Id"], {[ "inclusion" := MStr "automatic" ]});
     (["properties"; "Name"], {[ "selected" := MBool true ]})].

(** What follows the request in an attempt. *)
Definition after_request (resp : Response) : M Response :=
  raise_for_status resp ;;
  (match headers resp !! "Sforce-Limit-Info" with
   | Some _ => count_rest_request ;; check_rest_quota_usage (headers resp)
   | None => ret tt
   end) ;;
  ret resp.

(** A computation that sends nothing and leaves the remote side as it is. *)
Definition quiet {A} (m : M A) : Prop :=
  forall w, sent (fst (m w)) = sent w /\ wire (fst (m w)) = wire w.

(** The world once the backoff handler has logged the try. *)
Definition backed_off (w : world) (tries : nat) : world :=
  mkWorld (self w)
    (LOGGER w ++ [LogInfo "ConnectionError detected, triggering backoff: %d try"
                    [PyNum.str_int (Z.of_nat tries)]])
    (wire w) (sent w).

(** A remote side that drops the first [n] connections and then answers
    every request with [resp]. *)
Definition flaky (n : nat) (resp : Response) : nat -> sending :=
  fun i => if (i <? n)%nat then Fails ConnectionError else Answers resp.

Definition plain_response (code : Z) (phrase : string) : Response :=
  mkResponse code phrase "https://example.my.salesforce.com/services/data/v60.0/sobjects" ∅.

(** The warning [raise_for_status] logs for a response: one line unless the
    status is 200. *)
Definition status_warning (resp : Response) : list log_record :=
  if status_code resp =? 200 then []
  else [LogWarning (http_error_msg "Client" resp)].

(** The line the quota check logs for the header value [info]: one line
    when the pattern matches, none otherwise. *)
Definition quota_line (info : string) : list log_record :=
  match Re.search_api_usage info with
  | Some (g1, g2) =>
      [LogInfo "Used %s of %s daily REST API quota"
         [PyNum.str_int (Re.int g1); PyNum.str_int (Re.int g2)]]
  | None => []
  end.

(** ** Extraction dispatcher *)

Section Dispatcher.

(** The three strategy collaborators, [Bulk(self).query], [Bulk2(self).query]
    and [Rest(self).query]: they live outside this file and are taken as
    given, each a computation over the same world. *)
Variables State Records : Type.
Variables Bulk_query Bulk2_query Rest_query : catalog_entry -> State -> M Records.

Definition query (entry : catalog_entry) (state : State) : M Records :=
  let! this := get_self in
  if bool_decide (api_type this = Some BULK_API_TYPE) then
    Bulk_query entry state
  else if bool_decide (api_type this = Some BULK2_API_TYPE) then
    Bulk2_query entry state
  else if bool_decide (api_type this = Some REST_API_TYPE) then
    Rest_query entry state
  else raise (api_type_error this).

End Dispatcher.

(** ** Start date of a stream *)

(** [singer.get_bookmark(state, tap_stream_id, key)], a call into the singer
    library, modelled from the library's documented behaviour:
    [state["bookmarks"][tap_stream_id][key]], [None] when a level is missing.
    [bookmarks] is the value of [state.get("bookmarks", {})], a JSON object,
    so a key that is not a string is never found. *)
Definition get_bookmark (bookmarks : gmap string (gmap string mvalue))
    (tap_stream_id : string) (key : option mvalue) : option mvalue :=
  match key with
  | Some (MStr k) =>
      match bookmarks !! tap_stream_id with
      | Some marks => marks !! k
      | None => None
      end
  | _ => None
  end.

(** [get_start_date], with [self.default_start_date] and
    [catalog_entry["tap_stream_id"]] as arguments: the bookmark when it is
    truthy, else the default start date. *)
Definition get_start_date (default_start_date : string)
    (bookmarks : gmap string (gmap string mvalue)) (tap_stream_id : string)
    (entry : catalog_entry) : mvalue :=
  let catalog_metadata := metadata.to_map (raw_metadata entry) in
  let replication_key := metadata.get catalog_metadata [] "replication-key" in
  let bookmark := get_bookmark bookmarks tap_stream_id replication_key in
  if truthy bookmark
  then match bookmark with Some v => v | None => MStr default_start_date end
  else MStr default_start_date.

(** ** Reading results and logs *)

(** The fragment of a mapping, or its exception. *)
Definition fragment_of
    (r : result (list (string * json) * gmap (list string) (gmap string mvalue)))
  : result (list (string * json)) :=
  match r with
  | Ok (frag, _) => Ok frag
  | Raise e => Raise e
  end.

(** The try numbers of the backoff lines of a log, oldest first. *)
Definition backoff_tries (l : list log_record) : list string :=
  omap (fun r => match r with
                 | LogInfo msg [tries] =>
                     if String.eqb msg
                          "ConnectionError detected, triggering backoff: %d try"
                     then Some tries else None
                 | _ => None
                 end) l.

(** Strings of 7-bit characters, on which [str_upper] is [str.upper]. *)
Fixpoint ascii_only (s : string) : bool :=
  match s with
  | EmptyString => true
  | String c s' => N.ltb (N_of_ascii c) 128 && ascii_only s'
  end.

(** The names of the schema's properties, in order. *)
Definition property_names (entry : catalog_entry) : list string :=
  map fst (default [] (schema_properties entry)).

(** A computation that logs no backoff line. *)
Definition no_backoff_line {A} (m : M A) : Prop :=
  forall w, backoff_tries (LOGGER (fst (m w))) = backoff_tries (LOGGER w).

(** * The header pattern *)

Lemma append_nil (t : string) : "" +:+ t = t.
Proof. reflexivity. Qed.

Lemma append_cons (c : ascii) (s t : string) :
  String c s +:+ t = String c (s +:+ t).
Proof. reflexivity. Qed.

Ltac push_append := rewrite ?append_cons, ?append_nil.

Lemma append_assoc (a b c : string) : (a +:+ b) +:+ c = a +:+ b +:+ c.
Proof. induction a as [|x a IH]; push_append; congruence. Qed.

Lemma append_empty_r (a : string) : a +:+ "" = a.
Proof. induction a as [|x a IH]; push_append; congruence. Qed.

Lemma strip_prefix_Some (p s r : string) :
  Re.strip_prefix p s = Some r -> s = p +:+ r.
Proof.
  revert s. induction p as [|a p IH]; intros s H; simpl in H; push_append.
  - by inversion H.
  - destruct s as [|b s]; [discriminate|].
    destruct (Ascii.eqb_spec a b) as [->|]; [|discriminate].
    by rewrite (IH _ H).
Qed.

Lemma strip_prefix_app (p r : string) : Re.strip_prefix p (p +:+ r) = Some r.
Proof.
  induction p as [|a p IH]; push_append; simpl; [reflexivity|].
  by rewrite Ascii.eqb_refl.
Qed.

Lemma span_digits_spec (s d r : string) :
  Re.span_digits s = (d, r) -> s = d +:+ r /\ Re.digits d = true /\ stops r.
Proof.
  revert d r. induction s as [|c s IH]; intros d r H; simpl in H.
  - inversion H; subst. by repeat split.
  - destruct (Re.is_digit c) eqn:Hc.
    + destruct (Re.span_digits s) as [d' r'] eqn:Hs. inversion H; subst.
      destruct (IH _ _ eq_refl) as (-> & Hd & Hr).
      repeat split; [|assumption]. simpl. by rewrite Hc, Hd.
    + inversion H; subst. by repeat split.
Qed.

Lemma span_digits_app (d r : string) :
  Re.digits d = true -> stops r -> Re.span_digits (d +:+ r) = (d, r).
Proof.
  intros Hd Hr. induction d as [|c d IH]; push_append; simpl in *.
  - destruct r as [|c r]; [reflexivity|]. simpl in *. by rewrite Hr.
  - apply andb_true_iff in Hd as [Hc Hd]. by rewrite Hc, (IH Hd).
Qed.

Lemma is_empty_true (s : string) : Re.is_empty s = true <-> s = "".
Proof. destruct s; simpl; split; congruence. Qed.

Lemma is_empty_false (s : string) : Re.is_empty s = false <-> s <> "".
Proof. destruct s; simpl; split; congruence. Qed.

Lemma at_dollar_spec (s : string) :
  Re.at_dollar s = true <-> s = "" \/ s = String Re.LF "".
Proof.
  destruct s as [|c [|c' s]]; simpl.
  - by intuition.
  - destruct (Ascii.eqb_spec c Re.LF) as [->|Hne]; split; try by intuition.
    intros [?|[= ?]]; congruence.
  - split; [discriminate|]. intros [?|?]; discriminate.
Qed.

Lemma search_api_usage_form (used allotted tail : string) :
  number used -> number allotted -> tail = "" \/ tail = String Re.LF "" ->
  Re.search_api_usage ("api-usage=" +:+ used +:+ "/" +:+ allotted +:+ tail)
  = Some (used, allotted).
Proof.
  intros [Hu Hu0] [Ha Ha0] Ht. unfold Re.search_api_usage.
  rewrite strip_prefix_app.
  rewrite (span_digits_app used) by (assumption || reflexivity).
  rewrite (proj2 (is_empty_false used) Hu0). push_append.
  change (Ascii.eqb "/" "/") with true. cbv iota.
  rewrite (span_digits_app allotted)
    by (assumption || by destruct Ht as [->| ->]).
  rewrite (proj2 (is_empty_false allotted) Ha0).
  by rewrite (proj2 (at_dollar_spec tail) Ht).
Qed.

Lemma search_api_usage_Some (info g1 g2 : string) :
  Re.search_api_usage info = Some (g1, g2) ->
  number g1 /\ number g2
  /\ exists tail, (tail = "" \/ tail = String Re.LF "")
                  /\ info = "api-usage=" +:+ g1 +:+ "/" +:+ g2 +:+ tail.
Proof.
  unfold Re.search_api_usage. intros H.
  destruct (Re.strip_prefix "api-usage=" info) as [r0|] eqn:H0; [|discriminate].
  apply strip_prefix_Some in H0 as ->.
  destruct (Re.span_digits r0) as [d1 r1] eqn:H1.
  apply span_digits_spec in H1 as (-> & Hd1 & _).
  destruct (Re.is_empty d1) eqn:He1; [discriminate|].
  destruct r1 as [|c r2]; [discriminate|].
  destruct (Ascii.eqb_spec c "/") as [->|]; [|discriminate].
  destruct (Re.span_digits r2) as [d2 r3] eqn:H2.
  apply span_digits_spec in H2 as (-> & Hd2 & _).
  destruct (Re.is_empty d2) eqn:He2; [discriminate|].
  destruct (Re.at_dollar r3) eqn:He3; [|discriminate].
  inversion H; subst.
  apply is_empty_false in He1, He2. apply at_dollar_spec in He3.
  repeat split; try assumption. by exists r3.
Qed.

Lemma search_api_usage_None (info : string) :
  ~ api_usage_form info -> Re.search_api_usage info = None.
Proof.
  intros Hno. destruct (Re.search_api_usage info) as [[g1 g2]|] eqn:H; [|reflexivity].
  destruct Hno. apply search_api_usage_Some in H as (H1 & H2 & tail & Ht & ->).
  by exists g1, g2, tail.
Qed.

(** * Schema mapper *)

(** Decide the membership and equality tests that mention no variable. *)
Ltac eval_closed_tests :=
  repeat match goal with
         | |- context [bool_decide ?P] =>
             let b := eval vm_compute in (bool_decide P) in
             match b with
             | true => idtac
             | false => idtac
             end;
             replace (bool_decide P) with b by (vm_compute; reflexivity)
         | |- context [String.eqb ?a ?b] =>
             let r := eval vm_compute in (String.eqb a b) in
             match r with
             | true => idtac
             | false => idtac
             end;
             replace (String.eqb a b) with r by (vm_compute; reflexivity)
         end.

Lemma vocabulary_tags (t : string) :
  t ∈ Spec.vocabulary ->
  t = "id" \/ t = "string" \/ t = "picklist" \/ t = "textarea" \/ t = "phone"
  \/ t = "url" \/ t = "reference" \/ t = "multipicklist" \/ t = "combobox"
  \/ t = "encryptedstring" \/ t = "email" \/ t = "complexvalue"
  \/ t = "masterrecord" \/ t = "datacategorygroupreference" \/ t = "base64"
  \/ t = "datetime" \/ t = "date" \/ t = "boolean" \/ t = "double"
  \/ t = "currency" \/ t = "percent" \/ t = "int" \/ t = "long" \/ t = "time"
  \/ t = "json" \/ t = "address" \/ t = "location" \/ t = "anyType"
  \/ t = "calculated" \/ t = "byte".
Proof.
  unfold Spec.vocabulary. cbn [concat map fst Spec.type_table app].
  rewrite !elem_of_cons, elem_of_nil. tauto.
Qed.

Lemma outside_vocabulary (t : string) :
  t ∉ Spec.vocabulary ->
  (t ∉ STRING_TYPES) /\ (t ∉ DATE_TYPES) /\ (t ∉ NUMBER_TYPES)
  /\ (t ∉ LOOSE_TYPES) /\ (t ∉ BINARY_TYPES) /\ (t ∉ ["int"; "long"])
  /\ t <> "boolean" /\ t <> "address" /\ t <> "time" /\ t <> "location"
  /\ t <> "json".
Proof.
  unfold Spec.vocabulary. cbn [concat map fst Spec.type_table app].
  rewrite !not_elem_of_cons. intros H.
  unfold STRING_TYPES, DATE_TYPES, NUMBER_TYPES, LOOSE_TYPES, BINARY_TYPES.
  repeat split; set_unfold; intuition congruence.
Qed.

Lemma outside_table (t : string) :
  t ∉ Spec.vocabulary -> Spec.lookup t = None.
Proof.
  unfold Spec.vocabulary, Spec.lookup.
  induction Spec.type_table as [|[tags e] rows IH]; [reflexivity|].
  cbn [concat map fst List.find]. rewrite not_elem_of_app. intros [Hrow Hrest].
  cbn [fst]. rewrite (bool_decide_eq_false_2 _ Hrow). auto.
Qed.

Lemma mapField_outside (name t : string) mdata :
  t ∉ Spec.vocabulary ->
  field_to_property_schema (mkField name t) mdata
  = Raise (TapSalesforceExceptionError ("Found unsupported type: " +:+ t)).
Proof.
  intros Hout. destruct (outside_vocabulary t Hout)
    as (Hs & Hd & Hn & Hl & Hb & Hi & ? & ? & ? & ? & ?).
  unfold field_to_property_schema. cbn [field_name sf_type].
  rewrite !bool_decide_eq_false_2 by assumption.
  rewrite !(proj2 (String.eqb_neq t _)) by assumption.
  reflexivity.
Qed.

(** Split on the thirty tags of the vocabulary. *)
Ltac each_tag H :=
  apply vocabulary_tags in H;
  repeat (destruct H as [H|H]; [subst|]); [..|subst].

Lemma mapField_refines (field : field_descriptor)
    (mdata : gmap (list string) (gmap string mvalue)) :
  field_to_property_schema field mdata = Spec.mapField field mdata.
Proof.
  destruct field as [name t].
  destruct (decide (t ∈ Spec.vocabulary)) as [Hin|Hout].
  - unfold field_to_property_schema, Spec.mapField, Spec.nullability,
      Spec.mark_unsupported.
    cbn [field_name sf_type].
    rewrite !bool_decide_and. unfold Spec.primary_key.
    destruct (decide (name = "Id")) as [Hid|Hid].
    + rewrite (bool_decide_eq_false_2 (name ≠ "Id")) by (intros H; by apply H).
      rewrite (proj2 (String.eqb_eq name "Id") Hid).
      each_tag Hin; eval_closed_tests; reflexivity.
    + rewrite (bool_decide_eq_true_2 (name ≠ "Id") Hid).
      rewrite (proj2 (String.eqb_neq name "Id") Hid).
      each_tag Hin; eval_closed_tests; reflexivity.
  - rewrite (mapField_outside _ _ _ Hout). unfold Spec.mapField.
    cbn [sf_type]. by rewrite (outside_table _ Hout).
Qed.

Lemma lookup_vocabulary (t : string) :
  is_Some (Spec.lookup t) <-> t ∈ Spec.vocabulary.
Proof.
  split.
  - intros Hs. destruct (decide (t ∈ Spec.vocabulary)) as [|Hout]; [assumption|].
    rewrite (outside_table _ Hout) in Hs. by destruct Hs.
  - intros Hin. each_tag Hin; by eexists.
Qed.

(** C1. On every field descriptor the mapper returns what the table of
    section 4.3 gives for the type tag, with the general nullability rule
    applied to a typed fragment, the empty fragment and no metadata patch
    for [anyType] and [calculated], the empty fragment and the
    unsupported / binary data patch for [byte]; the table answers exactly
    the tags of the vocabulary, and on any other tag the mapper fails with
    the unsupported-type error. *)
Theorem mapField_table (field : field_descriptor)
    (mdata : gmap (list string) (gmap string mvalue)) :
  field_to_property_schema field mdata
  = match Spec.lookup (sf_type field) with
    | Some (Spec.Fragment d) =>
        Ok (Spec.nullability (field_name field) (sf_type field) d, mdata)
    | Some Spec.EmptyFragment => Ok ([], mdata)
    | Some (Spec.EmptyUnsupported why) =>
        Ok ([], Spec.mark_unsupported (field_name field) why mdata)
    | None =>
        Raise (TapSalesforceExceptionError
                 ("Found unsupported type: " +:+ sf_type field))
    end
  /\ (is_Some (Spec.lookup (sf_type field)) <-> sf_type field ∈ Spec.vocabulary).
Proof.
  split; [apply mapField_refines | apply lookup_vocabulary].
Qed.

(** A successful mapping has a tag of the vocabulary. *)
Lemma mapped_in_vocabulary (name t : string) mdata r :
  field_to_property_schema (mkField name t) mdata = Ok r -> t ∈ Spec.vocabulary.
Proof.
  intros H. destruct (decide (t ∈ Spec.vocabulary)) as [|Hout]; [assumption|].
  by rewrite (mapField_outside _ _ _ Hout) in H.
Qed.

Ltac absurd_tag :=
  match goal with
  | H : ?t ∉ ?S |- _ =>
      exfalso; apply H; apply (bool_decide_unpack _); vm_compute; exact I
  | H : ?t <> ?t |- _ => exfalso; apply H; reflexivity
  end.

(** Outside the date, location, loose and binary types the fragment has one
    plain type, wrapped with the null marker unless the field is [Id]. *)
Lemma plain_type (name t : string) mdata frag mdata' :
  field_to_property_schema (mkField name t) mdata = Ok (frag, mdata') ->
  t ∉ DATE_TYPES -> t <> "location" -> t ∉ LOOSE_TYPES -> t ∉ BINARY_TYPES ->
  exists base,
    Dict.get frag "type"
    = Some (if String.eqb name "Id" then JStr base
            else JList [JStr "null"; JStr base]).
Proof.
  intros Hr Hd Hl Ho Hb. pose proof (mapped_in_vocabulary _ _ _ _ Hr) as Hin.
  rewrite mapField_refines in Hr. revert Hr.
  unfold Spec.mapField, Spec.nullability. cbn [field_name sf_type].
  rewrite !bool_decide_and. unfold Spec.primary_key.
  rewrite (bool_decide_eq_true_2 (t ≠ "location") Hl).
  destruct (String.eqb_spec name "Id") as [Hid|Hid].
  - rewrite (bool_decide_eq_false_2 (name ≠ "Id")) by (intros H; by apply H).
    each_tag Hin; try absurd_tag; intros [= <- _]; eexists; reflexivity.
  - rewrite (bool_decide_eq_true_2 (name ≠ "Id") Hid).
    each_tag Hin; try absurd_tag; eval_closed_tests; intros [= <- _];
      eexists; reflexivity.
Qed.

(** C2 (as amended). For an accepted field: outside the primary key and
    the date, location, loose and binary types, the fragment's type is the
    union of the null marker and the mapped type; a date or datetime
    fragment is the two alternatives of [anyOf], one of them nullable, with
    no type of its own that the wrapper could have touched; a location
    fragment keeps its union of number, object and null, with one null
    marker; a loose or binary field has the empty fragment, which has no
    type set at all. *)
Theorem fragment_nullability (field : field_descriptor)
    (mdata : gmap (list string) (gmap string mvalue))
    (frag : list (string * json))
    (mdata' : gmap (list string) (gmap string mvalue)) :
  field_to_property_schema field mdata = Ok (frag, mdata') ->
  (field_name field <> "Id" -> sf_type field ∉ DATE_TYPES ->
   sf_type field <> "location" -> sf_type field ∉ LOOSE_TYPES ->
   sf_type field ∉ BINARY_TYPES ->
   type_includes_null frag = true
   /\ exists base, Dict.get frag "type" = Some (JList [JStr "null"; JStr base]))
  /\ (sf_type field ∈ DATE_TYPES ->
      alternative_includes_null frag = true
      /\ frag = [("anyOf",
                  JList [JDict [("type", JStr "string");
                                ("format", JStr "date-time")];
                         JDict [("type", JList [JStr "string"; JStr "null"])]])])
  /\ (sf_type field = "location" ->
      type_includes_null frag = true
      /\ Dict.get frag "type"
         = Some (JList [JStr "number"; JStr "object"; JStr "null"])
      /\ null_markers (JList [JStr "number"; JStr "object"; JStr "null"]) = 1%nat)
  /\ (sf_type field ∈ LOOSE_TYPES ∪ BINARY_TYPES ->
      frag = [] /\ type_includes_null frag = false).
Proof.
  destruct field as [name t]. cbn [field_name sf_type]. intros Hr.
  split; [|split; [|split]].
  - intros Hid Hd Hl Ho Hb.
    destruct (plain_type _ _ _ _ _ Hr Hd Hl Ho Hb) as [base Hty].
    rewrite (proj2 (String.eqb_neq name "Id") Hid) in Hty.
    split; [|by exists base]. unfold type_includes_null. by rewrite Hty.
  - intros Hd. revert Hr. unfold DATE_TYPES in Hd.
    apply elem_of_union in Hd as [Hd|Hd]; apply elem_of_singleton in Hd as ->;
      unfold field_to_property_schema; cbn [field_name sf_type];
      eval_closed_tests; rewrite !andb_false_r; cbn; by intros [= <- _].
  - intros ->. revert Hr.
    unfold field_to_property_schema; cbn [field_name sf_type];
      eval_closed_tests; rewrite andb_false_r; cbn; by intros [= <- _].
  - intros Hlb. revert Hr. unfold LOOSE_TYPES, BINARY_TYPES in Hlb.
    rewrite !elem_of_union, !elem_of_singleton in Hlb.
    destruct Hlb as [[-> | ->] | ->];
      unfold field_to_property_schema; cbn [field_name sf_type];
      eval_closed_tests; cbn; by intros [= <- _].
Qed.

Lemma fragment_nullability_witness :
  type_includes_null [("type", JList [JStr "null"; JStr "number"])] = true
  /\ exists base,
       Dict.get [("type", JList [JStr "null"; JStr "number"])] "type"
       = Some (JList [JStr "null"; JStr base]).
Proof.
  refine (proj1 (fragment_nullability (mkField "Amount" "currency") ∅
                   [("type", JList [JStr "null"; JStr "number"])] ∅ _)
            _ _ _ _ _).
  - vm_compute. reflexivity.
  - discriminate.
  - apply (bool_decide_unpack _). vm_compute. exact I.
  - discriminate.
  - apply (bool_decide_unpack _). vm_compute. exact I.
  - apply (bool_decide_unpack _). vm_compute. exact I.
Defined.

(** C2, the claim as written fails: a field that is not the primary key,
    of a type that is neither a date type nor [location], is accepted with
    a fragment that has no type set, hence no null marker. *)
Lemma loose_fragment_has_no_null_marker :
  field_to_property_schema (mkField "Formula__c" "anyType") ∅ = Ok ([], ∅)
  /\ "Formula__c" <> "Id" /\ ("anyType" ∉ DATE_TYPES) /\ "anyType" <> "location"
  /\ type_includes_null [] = false.
Proof.
  split; [vm_compute; reflexivity|]. split; [discriminate|].
  split; [apply (bool_decide_unpack _); vm_compute; exact I|].
  split; [discriminate | reflexivity].
Qed.

(** C10. The null wrapper is skipped exactly for the field named [Id],
    compared as a case-sensitive string and whatever the field's type: of a
    type outside the date, location, loose and binary types, an accepted
    field named [Id] keeps its plain type and any other name gets the union
    with the null marker; so [Id] of type string maps to [string], and [id]
    and [ID] of type string to the union of null and string. *)
Theorem primary_key_exemption (name t : string)
    (mdata : gmap (list string) (gmap string mvalue))
    (frag : list (string * json))
    (mdata' : gmap (list string) (gmap string mvalue)) :
  field_to_property_schema (mkField name t) mdata = Ok (frag, mdata') ->
  t ∉ DATE_TYPES -> t <> "location" -> t ∉ LOOSE_TYPES -> t ∉ BINARY_TYPES ->
  (exists base,
     (name = "Id" -> Dict.get frag "type" = Some (JStr base))
     /\ (name <> "Id" ->
         Dict.get frag "type" = Some (JList [JStr "null"; JStr base])))
  /\ (name = "Id" -> type_includes_null frag = false)
  /\ (name <> "Id" -> type_includes_null frag = true)
  /\ field_to_property_schema (mkField "Id" "string") mdata
     = Ok ([("type", JStr "string")], mdata)
  /\ field_to_property_schema (mkField "id" "string") mdata
     = Ok ([("type", JList [JStr "null"; JStr "string"])], mdata)
  /\ field_to_property_schema (mkField "ID" "string") mdata
     = Ok ([("type", JList [JStr "null"; JStr "string"])], mdata).
Proof.
  intros Hr Hd Hl Ho Hb.
  destruct (plain_type _ _ _ _ _ Hr Hd Hl Ho Hb) as [base Hty].
  split; [|split; [|split]].
  - exists base. split; intros Hid.
    + by rewrite (proj2 (String.eqb_eq name "Id") Hid) in Hty.
    + by rewrite (proj2 (String.eqb_neq name "Id") Hid) in Hty.
  - intros Hid. rewrite (proj2 (String.eqb_eq name "Id") Hid) in Hty.
    unfold type_includes_null. by rewrite Hty.
  - intros Hid. rewrite (proj2 (String.eqb_neq name "Id") Hid) in Hty.
    unfold type_includes_null. by rewrite Hty.
  - repeat split; unfold field_to_property_schema; cbn [field_name sf_type];
      eval_closed_tests; reflexivity.
Qed.

Lemma primary_key_exemption_witness :
  type_includes_null [("type", JStr "integer")] = false.
Proof.
  refine (proj1 (proj2 (primary_key_exemption "Id" "int" ∅
                          [("type", JStr "integer")] ∅ _ _ _ _ _)) eq_refl).
  - vm_compute. reflexivity.
  - apply (bool_decide_unpack _). vm_compute. exact I.
  - discriminate.
  - apply (bool_decide_unpack _). vm_compute. exact I.
  - apply (bool_decide_unpack _). vm_compute. exact I.
Defined.

Example date_field_named_Id :
  field_to_property_schema (mkField "Id" "date") ∅
  = field_to_property_schema (mkField "CloseDate" "date") ∅.
Proof. vm_compute. reflexivity. Qed.

Example byte_field :
  field_to_property_schema (mkField "Body" "byte") ∅
  = Ok ([], {[ ["properties"; "Body"]
                 := {[ "inclusion" := MStr "unsupported";
                       "unsupported-description" := MStr "binary data" ]} ]}).
Proof. vm_compute. reflexivity. Qed.

(** * Quota governor *)

Lemma check_matched (hs : gmap string string) (info g1 g2 : string) (w : world) :
  hs !! LIMIT_INFO = Some info ->
  Re.search_api_usage info = Some (g1, g2) ->
  check_rest_quota_usage hs w
  = (mkWorld (self w)
       (LOGGER w ++ [LogInfo "Used %s of %s daily REST API quota"
                       [PyNum.str_int (Re.int g1); PyNum.str_int (Re.int g2)]])
       (wire w) (sent w),
     quota_verdict (self w) (Re.int g1) (Re.int g2)).
Proof.
  intros Hh Hs. unfold check_rest_quota_usage, LIMIT_INFO in *. rewrite Hh, Hs.
  unfold quota_verdict, bind, log, get_self, lift, raise, ret, rbind.
  cbn [self LOGGER wire sent].
  destruct (percent_of _ _) as [p|e]; [|reflexivity].
  destruct (max_requests_for_run _ _) as [mx|e]; [|reflexivity].
  destruct (PyNum.gt _ _); [reflexivity|].
  destruct (_ >? _); [|reflexivity].
  destruct (percent_of _ _); reflexivity.
Qed.

Lemma check_unmatched (hs : gmap string string) (info : string) (w : world) :
  hs !! LIMIT_INFO = Some info ->
  Re.search_api_usage info = None ->
  check_rest_quota_usage hs w = (w, Ok tt).
Proof.
  intros Hh Hs. unfold check_rest_quota_usage, LIMIT_INFO in *. by rewrite Hh, Hs.
Qed.

(** All of 0 to 1000 used requests are tried. *)
Lemma percent_table :
  forallb percent_is_exact (map Z.of_nat (seq 0 1001)) = true.
Proof. vm_compute. reflexivity. Qed.

Lemma percent_of_1000 (u : Z) (ceiling : pynum) :
  0 <= u <= 1000 -> holds 80 ceiling ->
  exists p, percent_of u 1000 = Ok p /\ PyNum.gt p ceiling = (800 <? u).
Proof.
  intros Hu Hc. pose proof percent_table as H.
  rewrite forallb_forall in H. specialize (H u).
  assert (Hin : In u (map Z.of_nat (seq 0 1001))).
  { apply in_map_iff. exists (Z.to_nat u). split; [lia|]. apply in_seq. lia. }
  specialize (H Hin). unfold percent_is_exact in H.
  destruct (percent_of u 1000) as [p|e]; [|discriminate].
  apply andb_true_iff in H as [H1 H2]. apply Bool.eqb_prop in H1, H2.
  exists p. split; [reflexivity|]. by destruct Hc as [-> | ->].
Qed.

Lemma max_requests_default (this : Salesforce) :
  holds 25 (quota_percent_per_run this) ->
  max_requests_for_run this 1000 = Ok 250.
Proof.
  intros [H|H]; unfold max_requests_for_run; rewrite H; vm_compute; reflexivity.
Qed.

Lemma verdict_default (this : Salesforce) (u : Z) :
  holds 25 (quota_percent_per_run this) ->
  holds 80 (quota_percent_total this) ->
  0 <= u <= 800 ->
  rest_requests_attempted this <= 250 ->
  quota_verdict this u 1000 = Ok tt.
Proof.
  intros Hr Ht Hu Hc. unfold quota_verdict.
  destruct (percent_of_1000 u _ ltac:(lia) Ht) as (p & -> & Hp).
  rewrite (max_requests_default this Hr). cbn [rbind]. rewrite Hp.
  replace (800 <? u) with false by lia.
  by replace (rest_requests_attempted this >? 250) with false by lia.
Qed.

Lemma percent_of_251 :
  exists p, percent_of 251 1000 = Ok p.
Proof. eexists. vm_compute. reflexivity. Qed.

Lemma verdict_default_251 (this : Salesforce) (u : Z) :
  holds 25 (quota_percent_per_run this) ->
  holds 80 (quota_percent_total this) ->
  0 <= u <= 800 ->
  rest_requests_attempted this = 251 ->
  exists p,
    quota_verdict this u 1000
    = Raise (TapSalesforceQuotaExceededError
               (RunQuota 251 p (quota_percent_per_run this))).
Proof.
  intros Hr Ht Hu Hc. unfold quota_verdict.
  destruct (percent_of_1000 u _ ltac:(lia) Ht) as (p & -> & Hp).
  rewrite (max_requests_default this Hr). cbn [rbind]. rewrite Hp, Hc.
  replace (800 <? u) with false by lia.
  change (251 >? 250) with true. cbv iota.
  destruct percent_of_251 as [q ->]. by exists q.
Qed.

Lemma int_acc_nonneg (s : string) (acc : Z) :
  Re.digits s = true -> 0 <= acc -> 0 <= Re.int_acc acc s.
Proof.
  revert acc. induction s as [|c s IH]; intros acc Hd Hacc; simpl in *.
  - assumption.
  - apply andb_true_iff in Hd as [Hc Hd]. apply IH; [assumption|].
    unfold Re.is_digit in Hc. apply andb_true_iff in Hc as [H1 H2].
    apply N.leb_le in H1, H2. lia.
Qed.

Lemma int_nonneg (s : string) : number s -> 0 <= Re.int s.
Proof. intros [Hd _]. by apply int_acc_nonneg. Qed.

Lemma number_1000 : number "1000".
Proof. split; [reflexivity | discriminate]. Qed.

Lemma search_plain (used allotted : string) :
  number used -> number allotted ->
  Re.search_api_usage ("api-usage=" +:+ used +:+ "/" +:+ allotted)
  = Some (used, allotted).
Proof.
  intros Hu Ha.
  rewrite <- (append_empty_r allotted) at 1.
  apply search_api_usage_form; auto.
Qed.

(** * Transport: what one attempt does *)

Lemma attempt_sends (w : world) (http_method url : string) hs body stream params :
  http_method = "GET" \/ http_method = "POST" ->
  make_request_attempt http_method url hs body stream params w
  = match wire w (sent w) with
    | Fails e => (sent_world w (request_line http_method url body params), Raise e)
    | Answers resp =>
        after_request resp (sent_world w (request_line http_method url body params))
    end.
Proof.
  intros [-> | ->]; unfold make_request_attempt, request_line, after_request.
  - change (String.eqb "GET" "GET") with true. cbv iota.
    unfold bind at 1. unfold bind at 1. unfold log at 1, session_send.
    cbn [self LOGGER wire sent]. unfold sent_world.
    destruct (wire w (sent w)); reflexivity.
  - change (String.eqb "POST" "GET") with false.
    change (String.eqb "POST" "POST") with true. cbv iota.
    unfold bind at 1. unfold bind at 1. unfold log at 1, session_send.
    cbn [self LOGGER wire sent]. unfold sent_world.
    destruct (wire w (sent w)); reflexivity.
Qed.

Lemma raise_for_status_200 (resp : Response) (w : world) :
  status_code resp = 200 -> raise_for_status resp w = (w, Ok tt).
Proof.
  intros H. unfold raise_for_status, Response_raise_for_status, bind, ret.
  rewrite H. reflexivity.
Qed.

(** A response that is an error for [raise_for_status]: the warning is
    logged and the exception of [failure] raised. *)
Lemma raise_for_status_failure (resp : Response) (e : exn) (w : world) :
  failure (Answers resp) = Some e ->
  raise_for_status resp w
  = (mkWorld (self w) (LOGGER w ++ [LogWarning (http_error_msg "Client" resp)])
       (wire w) (sent w),
     Raise e).
Proof.
  unfold failure, raise_for_status, Response_raise_for_status.
  intros H. unfold bind at 1.
  assert (Hne : negb (status_code resp =? 200) = true).
  { destruct (status_code resp =? 200) eqn:E; [|reflexivity].
    apply Z.eqb_eq in E. rewrite E in H. cbn in H. discriminate. }
  rewrite Hne. unfold log. cbn [self LOGGER wire sent].
  destruct (_ && str_contains _ _); [by injection H as <-|].
  destruct ((400 <=? _) && _); [by injection H as <-|].
  destruct ((500 <=? _) && _); [by injection H as <-|].
  discriminate.
Qed.

Lemma attempt_failure (w : world) (http_method url : string) hs body stream params
    (e : exn) :
  http_method = "GET" \/ http_method = "POST" ->
  failure (wire w (sent w)) = Some e ->
  exists w',
    make_request_attempt http_method url hs body stream params w = (w', Raise e)
    /\ self w' = self w /\ wire w' = wire w /\ sent w' = S (sent w)
    /\ (forall resp, wire w (sent w) = Answers resp ->
        LOGGER w' = LOGGER w ++ [request_line http_method url body params;
                                 LogWarning (http_error_msg "Client" resp)]).
Proof.
  intros Hm Hf. rewrite (attempt_sends _ _ _ _ _ _ _ Hm).
  destruct (wire w (sent w)) as [resp|e'] eqn:Ho.
  - unfold after_request, bind at 1.
    rewrite (raise_for_status_failure resp e _ Hf).
    eexists. split; [reflexivity|]. cbn. repeat split.
    intros resp' [= <-]. by rewrite <- app_assoc.
  - injection Hf as ->. eexists. split; [reflexivity|]. cbn. repeat split.
    intros resp' [=].
Qed.

Lemma attempt_counted (w : world) (resp : Response) (info : string)
    (http_method url : string) hs body stream params :
  http_method = "GET" \/ http_method = "POST" ->
  wire w (sent w) = Answers resp ->
  status_code resp = 200 ->
  headers resp !! LIMIT_INFO = Some info ->
  make_request_attempt http_method url hs body stream params w
  = match check_rest_quota_usage (headers resp)
            (sent_and_counted w (request_line http_method url body params)) with
    | (w', Ok _) => (w', Ok resp)
    | (w', Raise e) => (w', Raise e)
    end.
Proof.
  intros Hm Hw Hs Hh. rewrite (attempt_sends _ _ _ _ _ _ _ Hm), Hw.
  unfold after_request, LIMIT_INFO in *.
  unfold bind at 1. rewrite (raise_for_status_200 resp _ Hs).
  unfold bind at 1. rewrite Hh. unfold bind at 1.
  unfold count_rest_request, sent_world. cbn [self LOGGER wire sent].
  unfold sent_and_counted, counting.
  destruct (check_rest_quota_usage _ _) as [w' [[]|e]]; reflexivity.
Qed.

Lemma attempt_uncounted (w : world) (resp : Response)
    (http_method url : string) hs body stream params :
  http_method = "GET" \/ http_method = "POST" ->
  wire w (sent w) = Answers resp ->
  status_code resp = 200 ->
  headers resp !! LIMIT_INFO = None ->
  make_request_attempt http_method url hs body stream params w
  = (sent_world w (request_line http_method url body params), Ok resp).
Proof.
  intros Hm Hw Hs Hh. rewrite (attempt_sends _ _ _ _ _ _ _ Hm), Hw.
  unfold after_request, LIMIT_INFO in *.
  unfold bind at 1. rewrite (raise_for_status_200 resp _ Hs).
  unfold bind at 1. rewrite Hh. reflexivity.
Qed.

Lemma request_of_attempt (w w' : world) (r : result Response)
    (http_method url : string) hs body stream params :
  make_request_attempt http_method url hs body stream params w = (w', r) ->
  match r with Ok _ => True | Raise e => retried_exceptions e = false end ->
  _make_request http_method url hs body stream params w = (w', r).
Proof.
  intros Ha Hr. unfold _make_request, backoff_on_exception.
  cbn [Nat.pred retry_exception]. rewrite Ha.
  destruct r as [resp|e]; [reflexivity|]. by rewrite Hr.
Qed.

Lemma request_counted (w : world) (resp : Response) (info g1 g2 : string)
    (url : string) hs body stream params :
  wire w (sent w) = Answers resp ->
  status_code resp = 200 ->
  headers resp !! LIMIT_INFO = Some info ->
  Re.search_api_usage info = Some (g1, g2) ->
  let w1 := sent_and_counted w (request_line "GET" url body params) in
  let w2 := mkWorld (self w1)
              (LOGGER w1 ++ [LogInfo "Used %s of %s daily REST API quota"
                               [PyNum.str_int (Re.int g1);
                                PyNum.str_int (Re.int g2)]])
              (wire w1) (sent w1) in
  forall v, quota_verdict (self w1) (Re.int g1) (Re.int g2) = v ->
  (v = Ok tt \/ is_total_quota v = true \/ is_run_quota v = true) ->
  _make_request "GET" url hs body stream params w
  = (w2, match v with Ok _ => Ok resp | Raise e => Raise e end).
Proof.
  intros Hw Hs Hh Hm w1 w2 v Hv Hcase.
  apply request_of_attempt.
  - rewrite (attempt_counted w resp info "GET" url hs body stream params
               (or_introl eq_refl) Hw Hs Hh).
    fold w1. rewrite (check_matched _ info g1 g2 w1 Hh Hm). fold w2. rewrite Hv.
    by destruct v as [[]|e].
  - destruct v as [[]|e]; [exact I|].
    destruct Hcase as [?|[H|H]]; [discriminate| |];
      destruct e; try discriminate H; reflexivity.
Qed.

(** * Transport: the retry loop *)

Lemma quiet_ret {A} (a : A) : quiet (ret a).
Proof. by intros w. Qed.

Lemma quiet_raise {A} (e : exn) : quiet (raise (A := A) e).
Proof. by intros w. Qed.

Lemma quiet_lift {A} (r : result A) : quiet (lift r).
Proof. by intros w. Qed.

Lemma quiet_log (r : log_record) : quiet (log r).
Proof. by intros w. Qed.

Lemma quiet_get_self : quiet get_self.
Proof. by intros w. Qed.

Lemma quiet_count : quiet count_rest_request.
Proof. by intros w. Qed.

Lemma quiet_bind {A B} (m : M A) (k : A -> M B) :
  quiet m -> (forall a, quiet (k a)) -> quiet (bind m k).
Proof.
  intros Hm Hk w. unfold bind. specialize (Hm w).
  destruct (m w) as [w' [a|e]]; cbn [fst] in *.
  - specialize (Hk a w'). destruct (k a w') as [w'' r]. cbn [fst] in *.
    destruct Hm as [H1 H2], Hk as [H3 H4]. split; congruence.
  - assumption.
Qed.

Create HintDb quiet.
#[local] Hint Resolve quiet_ret quiet_raise quiet_lift quiet_log quiet_get_self
  quiet_count : quiet.

Ltac quiet_steps :=
  repeat first
    [ solve [auto with quiet]
    | apply quiet_bind; [|intros ?]
    | match goal with
      | |- quiet (if ?b then _ else _) => destruct b
      | |- quiet (match ?o with Some _ => _ | None => _ end) => destruct o
      | |- quiet (let '(_, _) := ?p in _) => destruct p
      end ].

Lemma quiet_raise_for_status (resp : Response) : quiet (raise_for_status resp).
Proof. unfold raise_for_status, Response_raise_for_status. quiet_steps. Qed.

Lemma quiet_check (hs : gmap string string) : quiet (check_rest_quota_usage hs).
Proof. unfold check_rest_quota_usage. quiet_steps. Qed.

#[local] Hint Resolve quiet_raise_for_status quiet_check : quiet.

Lemma quiet_after_request (resp : Response) : quiet (after_request resp).
Proof. unfold after_request. quiet_steps. Qed.

Lemma quiet_backoff (tries : nat) : quiet (log_backoff_attempt tries).
Proof. unfold log_backoff_attempt. quiet_steps. Qed.

(** One attempt sends at most one request. *)
Lemma attempt_sent (w : world) (http_method url : string) hs body stream params :
  (sent (fst (make_request_attempt http_method url hs body stream params w))
   <= S (sent w))%nat
  /\ wire (fst (make_request_attempt http_method url hs body stream params w))
     = wire w.
Proof.
  destruct (decide (http_method = "GET")) as [Hg|Hg];
    [|destruct (decide (http_method = "POST")) as [Hp|Hp]].
  1, 2: rewrite attempt_sends by auto;
    destruct (wire w (sent w)) as [resp|e]; [|cbn; split; [lia|reflexivity]];
    destruct (quiet_after_request resp
                (sent_world w (request_line http_method url body params)))
      as [-> ->]; cbn; split; [lia|reflexivity].
  unfold make_request_attempt.
  rewrite (proj2 (String.eqb_neq _ _) Hg), (proj2 (String.eqb_neq _ _) Hp).
  cbn. split; [lia|reflexivity].
Qed.

Lemma retry_sent (more tries : nat) (w : world) (http_method url : string)
    hs body stream params :
  (sent (fst (retry_exception retried_exceptions log_backoff_attempt more tries
                (make_request_attempt http_method url hs body stream params) w))
   <= sent w + S more)%nat.
Proof.
  revert tries w. induction more as [|more IH]; intros tries w;
    cbn [retry_exception];
    pose proof (attempt_sent w http_method url hs body stream params) as [Hs Hw];
    destruct (make_request_attempt _ _ _ _ _ _ w) as [w' [resp|e]];
    cbn [fst] in *; try lia.
  - destruct (retried_exceptions e); cbn [fst]; lia.
  - destruct (retried_exceptions e); cbn [fst]; [|lia].
    unfold bind at 1. unfold log_backoff_attempt at 1. unfold log at 1.
    cbn [self LOGGER wire sent].
    match goal with
    | |- (sent (fst (retry_exception _ _ _ _ _ ?w1)) <= _)%nat =>
        specialize (IH (S tries) w1)
    end.
    cbn [sent] in IH. lia.
Qed.


Lemma failure_retried (o : sending) (e : exn) :
  failure o = Some e -> retried_exceptions e = transient o.
Proof.
  destruct o as [resp|e']; cbn [failure transient].
  - destruct (_ && str_contains _ _); [by intros [= <-]|].
    destruct ((400 <=? _) && _); [by intros [= <-]|].
    destruct ((500 <=? _) && _); [by intros [= <-]|]. discriminate.
  - by intros [= <-].
Qed.

Lemma transient_failure (o : sending) :
  transient o = true -> exists e, failure o = Some e /\ retried_exceptions e = true.
Proof.
  destruct o as [resp|e]; cbn [failure transient]; intros H.
  - rewrite H. eexists. split; reflexivity.
  - by exists e.
Qed.

(** [k] transient outcomes in a row use up [k] tries. *)
Lemma retry_transients (k more tries : nat) (w : world) (http_method url : string)
    hs body stream params :
  http_method = "GET" \/ http_method = "POST" ->
  (forall i, (i < k)%nat -> transient (wire w (sent w + i)%nat) = true) ->
  exists w1,
    self w1 = self w /\ wire w1 = wire w /\ sent w1 = (sent w + k)%nat
    /\ retry_exception retried_exceptions log_backoff_attempt (k + more) tries
         (make_request_attempt http_method url hs body stream params) w
       = retry_exception retried_exceptions log_backoff_attempt more (tries + k)
           (make_request_attempt http_method url hs body stream params) w1.
Proof.
  intros Hm. revert tries w. induction k as [|k IH]; intros tries w Ht.
  - exists w. repeat split; try lia. by rewrite Nat.add_0_r.
  - destruct (transient_failure (wire w (sent w))) as (e & Hf & Hr).
    { rewrite <- (Nat.add_0_r (sent w)). apply Ht. lia. }
    destruct (attempt_failure w http_method url hs body stream params e Hm Hf)
      as (w' & Ha & Hself & Hwire & Hsent & _).
    destruct (IH (S tries) (backed_off w' tries)) as (w1 & H1 & H2 & H3 & H4).
    { intros i Hi. cbn [backed_off wire sent]. rewrite Hwire, Hsent.
      replace (S (sent w) + i)%nat with (sent w + S i)%nat by lia.
      apply Ht. lia. }
    exists w1. cbn [backed_off self wire sent] in *.
    repeat split; try congruence; try lia.
    change (S k + more)%nat with (S (k + more)). cbn [retry_exception].
    rewrite Ha, Hr. unfold bind at 1. unfold log_backoff_attempt at 1.
    unfold log at 1. fold (backed_off w' tries). rewrite H4.
    by replace (tries + S k)%nat with (S tries + k)%nat by lia.
Qed.

(** The last allowed try fails with a retried exception: it propagates. *)
Lemma retry_gives_up (tries : nat) (w : world) (http_method url : string)
    hs body stream params :
  http_method = "GET" \/ http_method = "POST" ->
  transient (wire w (sent w)) = true ->
  exists w' e,
    failure (wire w (sent w)) = Some e
    /\ retry_exception retried_exceptions log_backoff_attempt 0 tries
         (make_request_attempt http_method url hs body stream params) w
       = (w', Raise e)
    /\ sent w' = S (sent w).
Proof.
  intros Hm Ht. destruct (transient_failure _ Ht) as (e & Hf & Hr).
  destruct (attempt_failure w http_method url hs body stream params e Hm Hf)
    as (w' & Ha & _ & _ & Hsent & _).
  exists w', e. repeat split; try assumption.
  cbn [retry_exception]. by rewrite Ha, Hr.
Qed.

(** C6, the claim as written fails: a response outside the 2xx class that
    is not of the 4xx or 5xx class, here 304, is logged and then returned to
    the caller; no HTTP error is raised. *)
Lemma not_modified_is_returned :
  _make_request "GET" "sobjects" None None false None
    (mkWorld (init None None false (Some "REST")) []
       (flaky 0 (plain_response 304 "Not Modified")) 0)
  = (mkWorld (init None None false (Some "REST"))
       [LogInfo "Making %s request to %s with params: %s" ["GET"; "sobjects"; "None"];
        LogWarning "304 Client Error: Not Modified for url: https://example.my.salesforce.com/services/data/v60.0/sobjects"]
       (flaky 0 (plain_response 304 "Not Modified")) 1,
     Ok (plain_response 304 "Not Modified")).
Proof. vm_compute. reflexivity. Qed.

Example ten_dropped_connections :
  snd (_make_request "POST" "sobjects" None (Some "{}") false None
         (mkWorld (init None None false (Some "REST")) []
            (flaky 10 (plain_response 200 "OK")) 0))
  = Raise ConnectionError
  /\ sent (fst (_make_request "POST" "sobjects" None (Some "{}") false None
                  (mkWorld (init None None false (Some "REST")) []
                     (flaky 10 (plain_response 200 "OK")) 0)))
     = 10%nat.
Proof. split; vm_compute; reflexivity. Qed.

Example not_acceptable_is_retried :
  transient (Answers (plain_response 406 "CustomNotAcceptable")) = true
  /\ transient (Answers (plain_response 406 "Not Acceptable")) = false
  /\ failure (Answers (plain_response 406 "Not Acceptable"))
     = Some (HTTPError 406 "406 Client Error: Not Acceptable for url: https://example.my.salesforce.com/services/data/v60.0/sobjects").
Proof. repeat split; vm_compute; reflexivity. Qed.

Example unsupported_method_sends_nothing :
  _make_request "PUT" "sobjects" None None false None
    (mkWorld (init None None false (Some "REST")) []
       (flaky 0 (plain_response 200 "OK")) 0)
  = (mkWorld (init None None false (Some "REST")) []
       (flaky 0 (plain_response 200 "OK")) 0,
     Raise (TapSalesforceExceptionError "Unsupported HTTP method")).
Proof. vm_compute. reflexivity. Qed.

(** * A run of requests against the per-run bound *)

Lemma counting_self (this : Salesforce) :
  counting this (rest_requests_attempted this) = this.
Proof. by destruct this. Qed.

Lemma requests_within (w : world) (url : string) (n : nat) :
  holds 25 (quota_percent_per_run (self w)) ->
  holds 80 (quota_percent_total (self w)) ->
  rest_requests_attempted (self w) = 0 ->
  (forall i, calm (wire w i)) ->
  (n <= 250)%nat ->
  exists w',
    requests n "GET" url w = (w', Ok tt)
    /\ self w' = counting (self w) (Z.of_nat n)
    /\ wire w' = wire w.
Proof.
  intros Hr Ht H0 Hcalm. induction n as [|n IH]; intros Hn.
  - exists w. repeat split. change (Z.of_nat 0) with 0.
    by rewrite <- H0, counting_self.
  - destruct IH as (w' & Hrun & Hself & Hwire); [lia|].
    destruct (Hcalm (sent w')) as (resp & used & Ho & Hs & Hh & Hu & Hle).
    rewrite <- Hwire in Ho.
    pose proof (search_plain used "1000" Hu number_1000) as Hm.
    pose proof (int_nonneg used Hu) as Hpos.
    eexists. split; [|split].
    + cbn [requests]. unfold bind at 1. rewrite Hrun. unfold bind at 1.
      erewrite (request_counted w' resp _ used "1000" url None None false None
                  Ho Hs Hh Hm (Ok tt)); [reflexivity| |by left].
      change (Re.int "1000") with 1000.
      apply verdict_default; cbn [sent_and_counted self counting
        quota_percent_per_run quota_percent_total rest_requests_attempted];
        rewrite ?Hself; cbn [counting quota_percent_per_run
        quota_percent_total rest_requests_attempted]; try assumption; lia.
    + cbn [self sent_and_counted counting]. rewrite Hself.
      unfold counting. cbn. f_equal. lia.
    + cbn [wire sent_and_counted]. assumption.
Qed.

Lemma requests_S (n : nat) (http_method url : string) :
  requests (S n) http_method url
  = (requests n http_method url ;;
     _make_request http_method url None None false None ;;
     ret tt).
Proof. reflexivity. Qed.

Lemma requests_251 (w : world) (url : string) :
  holds 25 (quota_percent_per_run (self w)) ->
  holds 80 (quota_percent_total (self w)) ->
  rest_requests_attempted (self w) = 0 ->
  (forall i, calm (wire w i)) ->
  exists w' p,
    requests 251 "GET" url w
    = (w', Raise (TapSalesforceQuotaExceededError
                    (RunQuota 251 p (quota_percent_per_run (self w)))))
    /\ rest_requests_attempted (self w') = 251.
Proof.
  intros Hr Ht H0 Hcalm.
  destruct (requests_within w url 250 Hr Ht H0 Hcalm) as (w' & Hrun & Hself & Hwire);
    [lia|].
  destruct (Hcalm (sent w')) as (resp & used & Ho & Hs & Hh & Hu & Hle).
  rewrite <- Hwire in Ho.
  pose proof (search_plain used "1000" Hu number_1000) as Hm.
  pose proof (int_nonneg used Hu) as Hpos.
  destruct (verdict_default_251
              (self (sent_and_counted w' (request_line "GET" url None None))) (Re.int used))
    as (p & Hv).
  { cbn [self sent_and_counted counting quota_percent_per_run].
    by rewrite Hself. }
  { cbn [self sent_and_counted counting quota_percent_total].
    by rewrite Hself. }
  { lia. }
  { cbn [self sent_and_counted counting rest_requests_attempted].
    rewrite Hself. cbn. reflexivity. }
  assert (Hq : quota_percent_per_run
                 (self (sent_and_counted w' (request_line "GET" url None None)))
               = quota_percent_per_run (self w)).
  { cbn [self sent_and_counted counting quota_percent_per_run].
    by rewrite Hself. }
  rewrite Hq in Hv.
  eexists. exists p. split.
  - rewrite (requests_S 250). unfold bind at 1. rewrite Hrun. unfold bind at 1.
    erewrite (request_counted w' resp _ used "1000" url None None false None
                Ho Hs Hh Hm _ Hv); [|right; right; reflexivity].
    reflexivity.
  - cbn. rewrite Hself. reflexivity.
Qed.

(** C3. With [quota_percent_per_run] 25 and responses that report 1000
    allotted requests (and a total usage of at most 80 percent), the bound
    of a run is 250 requests; the counter is incremented before the check:
    a fresh client completes 250 requests, the 251st raises the per-run
    quota error with 251 requests counted, and the check itself passes on a
    counter of 250 and raises on a counter of 251. *)
Theorem per_run_quota_bound (w : world) (url : string) :
  holds 25 (quota_percent_per_run (self w)) ->
  holds 80 (quota_percent_total (self w)) ->
  rest_requests_attempted (self w) = 0 ->
  (forall i, calm (wire w i)) ->
  max_requests_for_run (self w) 1000 = Ok 250
  /\ (forall n, (n <= 250)%nat ->
        exists w', requests n "GET" url w = (w', Ok tt)
                   /\ rest_requests_attempted (self w') = Z.of_nat n)
  /\ (exists w' p,
        requests 251 "GET" url w
        = (w', Raise (TapSalesforceQuotaExceededError
                        (RunQuota 251 p (quota_percent_per_run (self w)))))
        /\ rest_requests_attempted (self w') = 251)
  /\ (forall i resp, wire w i = Answers resp ->
        snd (check_rest_quota_usage (headers resp)
               (mkWorld (counting (self w) 250) (LOGGER w) (wire w) (sent w)))
        = Ok tt
        /\ is_run_quota
             (snd (check_rest_quota_usage (headers resp)
                     (mkWorld (counting (self w) 251) (LOGGER w) (wire w) (sent w))))
           = true).
Proof.
  intros Hr Ht H0 Hcalm. split; [|split; [|split]].
  - by apply max_requests_default.
  - intros n Hn.
    destruct (requests_within w url n Hr Ht H0 Hcalm Hn) as (w' & Hrun & Hself & _).
    exists w'. split; [assumption|]. by rewrite Hself.
  - by apply requests_251.
  - intros i resp Hi. destruct (Hcalm i) as (resp' & used & Ho & Hs & Hh & Hu & Hle).
    rewrite Hi in Ho. injection Ho as <-.
    pose proof (search_plain used "1000" Hu number_1000) as Hm.
    pose proof (int_nonneg used Hu) as Hpos.
    rewrite !(check_matched _ _ _ _ _ Hh Hm). cbn [snd self].
    split.
    + apply verdict_default; cbn; try assumption; lia.
    + change (Re.int "1000") with 1000.
      destruct (verdict_default_251 (counting (self w) 251) (Re.int used))
        as (p & ->); [assumption | assumption | lia | reflexivity | reflexivity].
Qed.

Lemma calm_sample (used : string) :
  number used -> Re.int used <= 800 ->
  calm (Answers (quota_response ("api-usage=" +:+ used +:+ "/1000"))).
Proof.
  intros Hu Hle. exists (quota_response ("api-usage=" +:+ used +:+ "/1000")), used.
  repeat split; try assumption; apply Hu.
Qed.

Lemma per_run_quota_bound_witness :
  exists w' p,
    requests 251 "GET" "https://example.my.salesforce.com/services/data/v60.0/sobjects"
      (sample_world 0 (quota_response "api-usage=150/1000"))
    = (w', Raise (TapSalesforceQuotaExceededError (RunQuota 251 p (PInt 25))))
    /\ rest_requests_attempted (self w') = 251.
Proof.
  refine (proj1 (proj2 (proj2
    (per_run_quota_bound (sample_world 0 (quota_response "api-usage=150/1000"))
       _ _ _ _ _)))).
  - left. reflexivity.
  - left. reflexivity.
  - reflexivity.
  - intros i. apply (calm_sample "150").
    + split; [reflexivity | discriminate].
    + vm_compute. discriminate.
Defined.

(** * The total ceiling *)

Lemma percent_of_raises (a b : Z) (e : exn) :
  percent_of a b = Raise e -> e = ZeroDivisionError \/ e = OverflowError.
Proof.
  unfold percent_of, PyNum.int_truediv, PyNum.float_mul_int.
  change (PyNum.of_int 100)
    with (Ok (A := spec_float) (S754_finite false 7036874417766400 (-46))).
  unfold PyNum.finite_or_overflow.
  destruct (b =? 0); [intros [= <-]; by left|].
  destruct (SFdiv _ _ _ _); cbn [rbind]; intros [= <-]; by right.
Qed.

(** C4 (as amended). Once the header is matched, the check computes
    [percent_used_from_total = (used / allotted) * 100] in binary64 and
    raises the total-quota error, with the two counts, the percentage and
    the ceiling, exactly when that percentage is greater than
    [quota_percent_total]; below the ceiling and within the per-run bound it
    returns.  With 1000 allotted and a ceiling of 80 the error is raised
    exactly from 801 used requests on: 850 of 1000 (85 percent) raises it,
    150 of 1000 (15 percent) and 750 of 1000 (75 percent) do not. *)
Theorem total_quota_ceiling (hs : gmap string string) (used allotted : string)
    (w : world) (p : spec_float) (mx : Z) :
  hs !! LIMIT_INFO = Some ("api-usage=" +:+ used +:+ "/" +:+ allotted) ->
  number used -> number allotted ->
  percent_of (Re.int used) (Re.int allotted) = Ok p ->
  max_requests_for_run (self w) (Re.int allotted) = Ok mx ->
  let out := snd (check_rest_quota_usage hs w) in
  let ceiling := quota_percent_total (self w) in
  (PyNum.gt p ceiling = true ->
   out = Raise (TapSalesforceQuotaExceededError
                  (TotalQuota (Re.int used) (Re.int allotted) p ceiling)))
  /\ (PyNum.gt p ceiling = false -> is_total_quota out = false)
  /\ (PyNum.gt p ceiling = false -> rest_requests_attempted (self w) <= mx ->
      out = Ok tt)
  /\ (allotted = "1000" -> holds 80 ceiling -> Re.int used <= 1000 ->
      (is_total_quota out = true <-> 800 < Re.int used)).
Proof.
  intros Hh Hu Ha Hp Hmx out ceiling.
  pose proof (search_plain used allotted Hu Ha) as Hm.
  assert (Hout : out = quota_verdict (self w) (Re.int used) (Re.int allotted)).
  { unfold out. by rewrite (check_matched _ _ _ _ _ Hh Hm). }
  clearbody out. subst out. unfold quota_verdict. rewrite Hp, Hmx.
  cbn [rbind]. fold ceiling.
  assert (Hlow : PyNum.gt p ceiling = false ->
                 is_total_quota
                   (if rest_requests_attempted (self w) >? mx
                    then let? run_percent :=
                           percent_of (rest_requests_attempted (self w))
                             (Re.int allotted) in
                         Raise (TapSalesforceQuotaExceededError
                                  (RunQuota (rest_requests_attempted (self w))
                                     run_percent
                                     (quota_percent_per_run (self w))))
                    else Ok tt) = false).
  { intros _. clear. destruct (_ >? _); [|reflexivity].
    destruct (percent_of _ _) as [q|e] eqn:Hq; [reflexivity|].
    by destruct (percent_of_raises _ _ _ Hq) as [-> | ->]. }
  repeat split.
  - by intros ->.
  - intros Hg. rewrite Hg. by apply Hlow.
  - intros Hg Hc. rewrite Hg.
    by replace (rest_requests_attempted (self w) >? mx) with false by lia.
  - intros Hraised. destruct (PyNum.gt p ceiling) eqn:Hg.
    + subst allotted. change (Re.int "1000") with 1000 in Hp.
      destruct (percent_of_1000 (Re.int used) ceiling) as (p' & Hp' & Hgt);
        [pose proof (int_nonneg used Hu); lia | assumption |].
      rewrite Hp in Hp'. injection Hp' as <-. rewrite Hg in Hgt. lia.
    + rewrite (Hlow eq_refl) in Hraised. discriminate.
  - intros Hover. subst allotted. change (Re.int "1000") with 1000 in Hp.
    destruct (percent_of_1000 (Re.int used) ceiling) as (p' & Hp' & Hgt);
      [pose proof (int_nonneg used Hu); lia | assumption |].
    rewrite Hp in Hp'. injection Hp' as <-.
    replace (800 <? Re.int used) with true in Hgt by lia.
    by rewrite Hgt.
Qed.

Lemma total_quota_ceiling_witness :
  is_total_quota
    (snd (check_rest_quota_usage {[ LIMIT_INFO := "api-usage=850/1000" ]}
            (sample_world 1 (quota_response "api-usage=850/1000"))))
  = true.
Proof.
  assert (H850 : number "850") by (split; [reflexivity | discriminate]).
  assert (H1000 : number "1000") by (split; [reflexivity | discriminate]).
  assert (Hp : percent_of (Re.int "850") (Re.int "1000")
               = Ok (S754_finite false 5981343255101440 (-46)))
    by (vm_compute; reflexivity).
  assert (Hmx : max_requests_for_run
                  (self (sample_world 1 (quota_response "api-usage=850/1000")))
                  (Re.int "1000") = Ok 250)
    by (vm_compute; reflexivity).
  assert (Hh : ({[ LIMIT_INFO := "api-usage=850/1000" ]} : gmap string string)
                 !! LIMIT_INFO
               = Some ("api-usage=" +:+ "850" +:+ "/" +:+ "1000"))
    by (vm_compute; reflexivity).
  apply (proj2 (proj2 (proj2
    (total_quota_ceiling {[ LIMIT_INFO := "api-usage=850/1000" ]} "850" "1000"
       (sample_world 1 (quota_response "api-usage=850/1000")) _ 250
       Hh H850 H1000 Hp Hmx)))).
  - reflexivity.
  - left. reflexivity.
  - vm_compute. discriminate.
  - vm_compute. reflexivity.
Defined.

(** C4, the claim as written fails: 150 used of 1000 allotted is 15 percent,
    not 85, and the check returns without raising. *)
Lemma used_150_of_1000_returns :
  percent_of 150 1000 = PyNum.of_int 15
  /\ check_rest_quota_usage {[ LIMIT_INFO := "api-usage=150/1000" ]}
       (sample_world 1 (quota_response "api-usage=150/1000"))
     = (mkWorld (counting (init None None false (Some "rest")) 1)
          [LogInfo "Used %s of %s daily REST API quota" ["150"; "1000"]]
          (fun _ => Answers (quota_response "api-usage=150/1000")) 0,
        Ok tt).
Proof. split; vm_compute; reflexivity. Qed.

Example used_750_of_1000_returns :
  percent_of 750 1000 = PyNum.of_int 75
  /\ snd (check_rest_quota_usage {[ LIMIT_INFO := "api-usage=750/1000" ]}
            (sample_world 250 (quota_response "api-usage=750/1000")))
     = Ok tt.
Proof. split; vm_compute; reflexivity. Qed.

Example used_850_of_1000_raises :
  exists p,
    percent_of 850 1000 = Ok p /\ PyNum.of_int 85 = Ok p
    /\ snd (check_rest_quota_usage {[ LIMIT_INFO := "api-usage=850/1000" ]}
              (sample_world 1 (quota_response "api-usage=850/1000")))
       = Raise (TapSalesforceQuotaExceededError (TotalQuota 850 1000 p (PInt 80))).
Proof. eexists. repeat split; vm_compute; reflexivity. Qed.

(** * Absent and malformed quota headers *)

Lemma api_usage_form_matches (info : string) :
  api_usage_form info -> Re.search_api_usage info <> None.
Proof.
  intros (used & allotted & tail & Hu & Ha & Ht & ->).
  by rewrite (search_api_usage_form used allotted tail Hu Ha Ht).
Qed.

(** C7 (as amended). When the quota header is present but does not match
    the pattern, the check returns at once: no exception, no log line, the
    world unchanged; the transport has counted the request before.  When
    the header is absent the transport never runs the check, and counts and
    logs nothing for the quota; the check itself, called on headers without
    the entry, fails with a type error. *)
Theorem quota_header_unusable (hs : gmap string string) (w : world)
    (resp : Response) (url : string) :
  ~ (exists info, hs !! LIMIT_INFO = Some info /\ api_usage_form info) ->
  headers resp = hs ->
  status_code resp = 200 ->
  wire w (sent w) = Answers resp ->
  match hs !! LIMIT_INFO with
  | Some _ =>
      check_rest_quota_usage hs w = (w, Ok tt)
      /\ _make_request "GET" url None None false None w
         = (sent_and_counted w (request_line "GET" url None None), Ok resp)
  | None =>
      check_rest_quota_usage hs w
      = (w, Raise (TypeError "expected string or bytes-like object"))
      /\ _make_request "GET" url None None false None w
         = (sent_world w (request_line "GET" url None None), Ok resp)
  end.
Proof.
  intros Hno Hhs Hs Hw. destruct (hs !! LIMIT_INFO) as [info|] eqn:Hh.
  - assert (Hm : Re.search_api_usage info = None).
    { apply search_api_usage_None. intros Hf. apply Hno. by exists info. }
    split; [by apply (check_unmatched hs info)|].
    apply request_of_attempt; [|exact I]. subst hs.
    rewrite (attempt_counted w resp info "GET" url None None false None
               (or_introl eq_refl) Hw Hs Hh).
    by rewrite (check_unmatched _ info _ Hh Hm).
  - split.
    + unfold check_rest_quota_usage, LIMIT_INFO in *. by rewrite Hh.
    + apply request_of_attempt; [|exact I]. subst hs.
      by apply attempt_uncounted; [left| | |].
Qed.

Lemma quota_header_unusable_witness :
  check_rest_quota_usage {[ LIMIT_INFO := "api-usage=many/1000" ]}
    (sample_world 7 (quota_response "api-usage=many/1000"))
  = (sample_world 7 (quota_response "api-usage=many/1000"), Ok tt).
Proof.
  refine (proj1 (quota_header_unusable {[ LIMIT_INFO := "api-usage=many/1000" ]}
            (sample_world 7 (quota_response "api-usage=many/1000"))
            (quota_response "api-usage=many/1000") "sobjects" _ _ _ _)).
  - intros (info & Hi & Hf). vm_compute in Hi. injection Hi as <-.
    apply api_usage_form_matches in Hf. apply Hf. vm_compute. reflexivity.
  - reflexivity.
  - reflexivity.
  - reflexivity.
Defined.

(** C7, the claim as written fails: on headers without the quota entry the
    check raises. *)
Lemma absent_header_raises :
  (∅ : gmap string string) !! LIMIT_INFO = None
  /\ check_rest_quota_usage ∅ (sample_world 7 (mkResponse 200 "OK" "sobjects" ∅))
     = (sample_world 7 (mkResponse 200 "OK" "sobjects" ∅),
        Raise (TypeError "expected string or bytes-like object")).
Proof. split; reflexivity. Qed.

(** The pattern's [$]: one final line feed does not make the header
    malformed. *)
Example trailing_line_feed_matches :
  Re.search_api_usage ("api-usage=900/1000" +:+ String Re.LF "")
  = Some ("900", "1000").
Proof. vm_compute. reflexivity. Qed.

(** * Query builder *)

(** C5 (as amended). For a catalog entry whose replication key is a
    non-empty string, the query is the base query
    [SELECT <comma-joined selected fields> FROM <stream>], then
    [ WHERE <key> >= <start> ] with one space after the start date, then
    [ AND <key> < <end>] when a non-empty end date is given, then
    [ ORDER BY <key> ASC] when ordering is asked for; so two spaces stand
    before [AND] and before an [ORDER BY] that follows the start date.  For
    an entry without a replication key the query is the base query. *)
Theorem build_query_string
    (should_sync_field : option mvalue -> option mvalue -> bool -> bool)
    (this : Salesforce) (entry : catalog_entry) (start_date : string)
    (end_date : option string) (order_by_clause : bool) (key : string) :
  let fields := _get_selected_properties should_sync_field this entry in
  let replication_key :=
    metadata.get (metadata.to_map (raw_metadata entry)) [] "replication-key" in
  let query := _build_query_string should_sync_field this entry start_date
                 end_date order_by_clause in
  (replication_key = Some (MStr key) -> key <> "" ->
   query = SpecQuery.base fields (stream entry)
           +:+ " WHERE " +:+ key +:+ " >= " +:+ start_date +:+ " "
           +:+ match end_date with
               | Some e => if Re.is_empty e then ""
                           else " AND " +:+ key +:+ " < " +:+ e
               | None => ""
               end
           +:+ (if order_by_clause then " ORDER BY " +:+ key +:+ " ASC" else ""))
  /\ (replication_key = Some (MStr "SystemModstamp") ->
      start_date = "2024-01-01T00:00:00Z" -> end_date = None ->
      order_by_clause = true ->
      query = SpecQuery.base fields (stream entry)
              +:+ " WHERE SystemModstamp >= 2024-01-01T00:00:00Z  ORDER BY SystemModstamp ASC")
  /\ (truthy replication_key = false ->
      query = SpecQuery.base fields (stream entry)).
Proof.
  intros fields replication_key query.
  assert (Hkey : forall k, replication_key = Some (MStr k) -> k <> "" ->
    query = SpecQuery.base fields (stream entry)
            +:+ " WHERE " +:+ k +:+ " >= " +:+ start_date +:+ " "
            +:+ match end_date with
                | Some e => if Re.is_empty e then ""
                            else " AND " +:+ k +:+ " < " +:+ e
                | None => ""
                end
            +:+ (if order_by_clause then " ORDER BY " +:+ k +:+ " ASC" else "")).
  { intros k Hk Hne. unfold query, _build_query_string.
    fold fields. fold replication_key. rewrite Hk. cbn [truthy str_mvalue].
    rewrite (proj2 (is_empty_false k) Hne). cbn [negb].
    unfold SpecQuery.base.
    destruct order_by_clause, end_date as [e|]; try destruct (Re.is_empty e);
      rewrite ?append_assoc, ?append_empty_r, ?append_nil; reflexivity. }
  repeat split.
  - apply Hkey.
  - intros Hk -> -> ->. rewrite (Hkey _ Hk) by discriminate.
    rewrite ?append_assoc, ?append_nil. reflexivity.
  - intros Hf. unfold query, _build_query_string. fold replication_key.
    by rewrite Hf.
Qed.

Lemma build_query_string_witness :
  _build_query_string spec_should_sync_field (init None None true (Some "REST"))
    sample_entry "2024-01-01T00:00:00Z" None true
  = "SELECT Id,Name FROM Account WHERE SystemModstamp >= 2024-01-01T00:00:00Z  ORDER BY SystemModstamp ASC".
Proof.
  refine (proj1 (proj2 (build_query_string spec_should_sync_field
                          (init None None true (Some "REST")) sample_entry
                          "2024-01-01T00:00:00Z" None true "SystemModstamp"))
            _ eq_refl eq_refl eq_refl).
  vm_compute. reflexivity.
Defined.

(** C5, the claim as written fails: with an end date the query of the code
    has two spaces before [AND], the query described has one. *)
Lemma query_with_end_date_has_two_spaces :
  _build_query_string spec_should_sync_field (init None None true (Some "REST"))
    sample_entry "2024-01-01T00:00:00Z" (Some "2024-02-01T00:00:00Z") true
  = "SELECT Id,Name FROM Account WHERE SystemModstamp >= 2024-01-01T00:00:00Z  AND SystemModstamp < 2024-02-01T00:00:00Z ORDER BY SystemModstamp ASC"
  /\ SpecQuery.build ["Id"; "Name"] "Account" "SystemModstamp"
       "2024-01-01T00:00:00Z" (Some "2024-02-01T00:00:00Z") true
     = "SELECT Id,Name FROM Account WHERE SystemModstamp >= 2024-01-01T00:00:00Z AND SystemModstamp < 2024-02-01T00:00:00Z ORDER BY SystemModstamp ASC"
  /\ _build_query_string spec_should_sync_field (init None None true (Some "REST"))
       sample_entry "2024-01-01T00:00:00Z" (Some "2024-02-01T00:00:00Z") true
     <> SpecQuery.build ["Id"; "Name"] "Account" "SystemModstamp"
          "2024-01-01T00:00:00Z" (Some "2024-02-01T00:00:00Z") true.
Proof.
  repeat split; try (vm_compute; reflexivity).
  apply String.eqb_neq. vm_compute. reflexivity.
Qed.

Example query_without_replication_key :
  _build_query_string spec_should_sync_field (init None None true (Some "REST"))
    (mkCatalogEntry "Account" (schema_properties sample_entry) [])
    "2024-01-01T00:00:00Z" None true
  = "SELECT Id,Name FROM Account".
Proof. vm_compute. reflexivity. Qed.

(** * Blacklist policy *)

(** C8 (as amended). The query-restricted table is disjoint from the two
    other tables; the bulk-unsupported and the query-incompatible tables
    share exactly [AttachedContentNote] and [QuoteTemplateRichTextData]. *)
Theorem blacklist_tables_overlap :
  QUERY_RESTRICTED_SALESFORCE_OBJECTS ## UNSUPPORTED_BULK_API_SALESFORCE_OBJECTS
  /\ QUERY_RESTRICTED_SALESFORCE_OBJECTS ## QUERY_INCOMPATIBLE_SALESFORCE_OBJECTS
  /\ UNSUPPORTED_BULK_API_SALESFORCE_OBJECTS ∩ QUERY_INCOMPATIBLE_SALESFORCE_OBJECTS
     = {[ "AttachedContentNote"; "QuoteTemplateRichTextData" ]}.
Proof.
  repeat split; apply (bool_decide_unpack _); vm_compute; exact I.
Qed.

(** C8, the claim as written fails: one name stands in two of the tables. *)
Lemma blacklist_tables_not_disjoint :
  "AttachedContentNote" ∈ UNSUPPORTED_BULK_API_SALESFORCE_OBJECTS
  /\ "AttachedContentNote" ∈ QUERY_INCOMPATIBLE_SALESFORCE_OBJECTS
  /\ ~ (UNSUPPORTED_BULK_API_SALESFORCE_OBJECTS
          ## QUERY_INCOMPATIBLE_SALESFORCE_OBJECTS).
Proof.
  assert (H1 : "AttachedContentNote" ∈ UNSUPPORTED_BULK_API_SALESFORCE_OBJECTS)
    by (apply (bool_decide_unpack _); vm_compute; exact I).
  assert (H2 : "AttachedContentNote" ∈ QUERY_INCOMPATIBLE_SALESFORCE_OBJECTS)
    by (apply (bool_decide_unpack _); vm_compute; exact I).
  repeat split; try assumption. intros Hd. exact (Hd _ H1 H2).
Qed.

Lemma rest_within_bulk :
  QUERY_RESTRICTED_SALESFORCE_OBJECTS ∪ QUERY_INCOMPATIBLE_SALESFORCE_OBJECTS
  ⊂ UNSUPPORTED_BULK_API_SALESFORCE_OBJECTS
    ∪ QUERY_RESTRICTED_SALESFORCE_OBJECTS
    ∪ QUERY_INCOMPATIBLE_SALESFORCE_OBJECTS.
Proof.
  split.
  { intros x [Hx|Hx]%elem_of_union; apply elem_of_union;
      [left; apply elem_of_union; right; exact Hx | right; exact Hx]. }
  intros Hsub.
  assert (H1 : "AssetTokenEvent" ∈ UNSUPPORTED_BULK_API_SALESFORCE_OBJECTS)
    by (apply (bool_decide_unpack _); vm_compute; exact I).
  assert (H2 : "AssetTokenEvent" ∉ QUERY_RESTRICTED_SALESFORCE_OBJECTS
                                   ∪ QUERY_INCOMPATIBLE_SALESFORCE_OBJECTS)
    by (apply (bool_decide_unpack _); vm_compute; exact I).
  apply H2, Hsub. apply elem_of_union. left. apply elem_of_union. left. exact H1.
Qed.

(** C9. The objects blacklisted for the BULK strategy are the union of the
    three tables, those for REST the union of the query-restricted and the
    query-incompatible tables, and the first set strictly includes the
    second; for an [api_type] other than REST, BULK and BULK2 both
    [get_blacklisted_objects] and [get_blacklisted_fields] raise the
    configuration error. *)
Theorem blacklist_by_strategy (bulk rest other : Salesforce) :
  api_type bulk = Some BULK_API_TYPE ->
  api_type rest = Some REST_API_TYPE ->
  api_type other ∉ [Some REST_API_TYPE; Some BULK_API_TYPE; Some BULK2_API_TYPE] ->
  exists for_bulk for_rest : gset string,
    get_blacklisted_objects bulk = Ok for_bulk
    /\ get_blacklisted_objects rest = Ok for_rest
    /\ for_bulk = UNSUPPORTED_BULK_API_SALESFORCE_OBJECTS
                  ∪ QUERY_RESTRICTED_SALESFORCE_OBJECTS
                  ∪ QUERY_INCOMPATIBLE_SALESFORCE_OBJECTS
    /\ for_rest = QUERY_RESTRICTED_SALESFORCE_OBJECTS
                  ∪ QUERY_INCOMPATIBLE_SALESFORCE_OBJECTS
    /\ for_rest ⊂ for_bulk
    /\ get_blacklisted_objects other
       = Raise (TapSalesforceExceptionError
                  ("api_type should be REST or BULK was: "
                   +:+ str_opt (api_type other)))
    /\ get_blacklisted_fields other
       = Raise (TapSalesforceExceptionError
                  ("api_type should be REST or BULK was: "
                   +:+ str_opt (api_type other))).
Proof.
  intros Hb Hr Ho. eexists _, _.
  rewrite !not_elem_of_cons in Ho. destruct Ho as (Hnr & Hnb & Hnb2 & _).
  unfold get_blacklisted_objects, get_blacklisted_fields, api_type_error.
  rewrite Hb, Hr.
  split; [reflexivity|]. split; [reflexivity|].
  split; [reflexivity|]. split; [reflexivity|].
  split; [apply rest_within_bulk|]. split.
  - rewrite (bool_decide_eq_false_2 (_ ∈ _)).
    + by rewrite (bool_decide_eq_false_2 _ Hnr).
    + rewrite !elem_of_cons, elem_of_nil. tauto.
  - by rewrite (bool_decide_eq_false_2 _ Hnb), (bool_decide_eq_false_2 _ Hnb2),
       (bool_decide_eq_false_2 _ Hnr).
Qed.

Lemma blacklist_by_strategy_witness :
  get_blacklisted_objects (init None None false (Some "soap"))
  = Raise (TapSalesforceExceptionError "api_type should be REST or BULK was: SOAP").
Proof.
  destruct (blacklist_by_strategy (init None None false (Some "bulk"))
              (init None None false (Some "rest"))
              (init None None false (Some "soap")))
    as (B & R & _ & _ & _ & _ & _ & H & _).
  - reflexivity.
  - reflexivity.
  - apply (bool_decide_unpack _). vm_compute. exact I.
  - exact H.
Defined.

Example blacklisted_fields_for_bulk2 :
  get_blacklisted_fields (init None None false (Some "bulk2"))
  = Ok {[ ("EntityDefinition", "RecordTypesSupported")
            := "this field is unsupported by the Bulk API." ]}.
Proof. reflexivity. Qed.

(** * Further properties of the header pattern *)

(** X1. The pattern of [check_rest_quota_usage] matches a header value
    exactly when it reads [api-usage=], a non-empty run of digits, a slash
    and a non-empty run of digits, with at most one final line feed; the
    two groups are then the two runs, and the counts read from them are
    never negative. *)
Theorem limit_info_pattern (info g1 g2 : string) :
  Re.search_api_usage info = Some (g1, g2)
  <-> (number g1 /\ number g2
       /\ (info = "api-usage=" +:+ g1 +:+ "/" +:+ g2
           \/ info = "api-usage=" +:+ g1 +:+ "/" +:+ g2 +:+ String Re.LF "")
       /\ 0 <= Re.int g1 /\ 0 <= Re.int g2).
Proof.
  split.
  - intros H. apply search_api_usage_Some in H as (H1 & H2 & tail & Ht & ->).
    repeat split; try apply H1; try apply H2; try by apply int_nonneg.
    destruct Ht as [-> | ->]; [left | right]; [|reflexivity].
    by rewrite append_empty_r.
  - intros (H1 & H2 & [-> | ->] & _).
    + by apply search_plain.
    + apply search_api_usage_form; auto.
Qed.

(** * Further properties of the schema mapper *)

Lemma lookup_unsupported (t why : string) :
  Spec.lookup t = Some (Spec.EmptyUnsupported why) ->
  t = "byte" /\ why = "binary data".
Proof.
  intros H. assert (Hin : t ∈ Spec.vocabulary).
  { apply lookup_vocabulary. by eexists. }
  each_tag Hin; vm_compute in H; try discriminate H.
  injection H as <-. by split.
Qed.

Lemma get_write_same (m : gmap (list string) (gmap string mvalue))
    (bc : list string) (k : string) (v : mvalue) :
  metadata.get (metadata.write m bc k v) bc k = Some v.
Proof.
  unfold metadata.get, metadata.write.
  destruct (m !! bc); rewrite lookup_insert_eq.
  - apply lookup_insert_eq.
  - apply lookup_singleton_eq.
Qed.

Lemma get_write_other (m : gmap (list string) (gmap string mvalue))
    (bc bc' : list string) (k k' : string) (v : mvalue) :
  (bc', k') <> (bc, k) ->
  metadata.get (metadata.write m bc k v) bc' k' = metadata.get m bc' k'.
Proof.
  intros Hne. unfold metadata.get, metadata.write.
  destruct (decide (bc' = bc)) as [->|Hbc].
  - assert (Hk : k <> k') by congruence.
    destruct (m !! bc) as [d|]; rewrite lookup_insert_eq.
    + by apply lookup_insert_ne.
    + by apply lookup_singleton_ne.
  - destruct (m !! bc); by rewrite lookup_insert_ne.
Qed.

(** X2. The mapper touches the metadata only for a [byte] field: for any
    other accepted field the metadata map comes back as it was given; for a
    [byte] field of name [n] the result reads [unsupported] under
    [inclusion] and [binary data] under [unsupported-description] at the
    breadcrumb [("properties", n)], and every other key of every breadcrumb
    reads as before, other keys of that breadcrumb included. *)
Theorem mapper_metadata_frame (field : field_descriptor)
    (mdata : gmap (list string) (gmap string mvalue))
    (frag : list (string * json))
    (mdata' : gmap (list string) (gmap string mvalue)) :
  field_to_property_schema field mdata = Ok (frag, mdata') ->
  (sf_type field <> "byte" -> mdata' = mdata)
  /\ (sf_type field = "byte" ->
      metadata.get mdata' ["properties"; field_name field] "inclusion"
      = Some (MStr "unsupported")
      /\ metadata.get mdata' ["properties"; field_name field]
           "unsupported-description"
         = Some (MStr "binary data")
      /\ forall bc k,
           (bc, k) <> (["properties"; field_name field], "inclusion") ->
           (bc, k) <> (["properties"; field_name field], "unsupported-description") ->
           metadata.get mdata' bc k = metadata.get mdata bc k).
Proof.
  rewrite mapField_refines. unfold Spec.mapField.
  destruct (Spec.lookup (sf_type field)) as [[d| |why]|] eqn:Hl;
    intros [= <- <-].
  - split; [reflexivity|]. intros Hb. rewrite Hb in Hl. vm_compute in Hl.
    discriminate.
  - split; [reflexivity|]. intros Hb. rewrite Hb in Hl. vm_compute in Hl.
    discriminate.
  - apply lookup_unsupported in Hl as [Hb ->]. split; [by intros []|].
    intros _. unfold Spec.mark_unsupported. split; [|split].
    + rewrite get_write_other by (intros [=]). apply get_write_same.
    + apply get_write_same.
    + intros bc k H1 H2. by rewrite !get_write_other.
Qed.

Lemma mapper_metadata_frame_witness :
  metadata.get
    (<[ ["properties"; "Body"] :=
          {[ "inclusion" := MStr "unsupported";
             "unsupported-description" := MStr "binary data";
             "selected" := MBool true ]} ]> ∅)
    ["properties"; "Body"] "selected"
  = metadata.get
      ({[ ["properties"; "Body"] := {[ "selected" := MBool true ]} ]}
         : gmap (list string) (gmap string mvalue))
      ["properties"; "Body"] "selected".
Proof.
  refine (proj2 (proj2 (proj2
    (mapper_metadata_frame (mkField "Body" "byte")
       {[ ["properties"; "Body"] := {[ "selected" := MBool true ]} ]}
       []
       (<[ ["properties"; "Body"] :=
             {[ "inclusion" := MStr "unsupported";
                "unsupported-description" := MStr "binary data";
                "selected" := MBool true ]} ]> ∅)
       _) eq_refl))
    ["properties"; "Body"] "selected" _ _).
  - vm_compute. reflexivity.
  - intros [=].
  - intros [=].
Defined.

(** X3. Mapping a [byte] field again on the metadata it produced changes
    nothing: the patch is idempotent. *)
Theorem byte_patch_idempotent (name : string)
    (mdata : gmap (list string) (gmap string mvalue)) :
  exists mdata',
    field_to_property_schema (mkField name "byte") mdata = Ok ([], mdata')
    /\ field_to_property_schema (mkField name "byte") mdata' = Ok ([], mdata').
Proof.
  exists (Spec.mark_unsupported name "binary data" mdata).
  rewrite !mapField_refines. unfold Spec.mapField. cbn [sf_type field_name].
  change (Spec.lookup "byte") with (Some (Spec.EmptyUnsupported "binary data")).
  split; [reflexivity|]. do 2 f_equal.
  unfold Spec.mark_unsupported, metadata.write.
  set (bc := ["properties"; name]).
  destruct (mdata !! bc) as [d|];
    rewrite ?lookup_insert_eq, ?insert_insert_eq; f_equal.
  all: apply map_eq; intros k; rewrite !lookup_insert;
    repeat case_decide; congruence.
Qed.

(** X4. The fragment depends on the field only through its type and
    through whether its name is [Id]: two descriptors of the same type
    whose names are both [Id] or both different from [Id] get the same
    fragment, or fail alike, whatever metadata maps they are given. *)
Theorem fragment_depends_on_type (n1 n2 t : string)
    (m1 m2 : gmap (list string) (gmap string mvalue)) :
  (n1 = "Id" <-> n2 = "Id") ->
  fragment_of (field_to_property_schema (mkField n1 t) m1)
  = fragment_of (field_to_property_schema (mkField n2 t) m2).
Proof.
  intros Hid. rewrite !mapField_refines. unfold Spec.mapField.
  cbn [sf_type field_name].
  destruct (Spec.lookup t) as [[d| |why]|]; try reflexivity.
  cbn [fragment_of]. f_equal. unfold Spec.nullability, Spec.primary_key.
  rewrite !bool_decide_and.
  destruct (decide (n1 = "Id")) as [H1|H1].
  - pose proof (proj1 Hid H1) as H2.
    by rewrite (bool_decide_eq_false_2 (n1 ≠ "Id")),
       (bool_decide_eq_false_2 (n2 ≠ "Id")) by (intros H; by apply H).
  - assert (H2 : n2 <> "Id") by (intros H; by apply H1, Hid).
    by rewrite (bool_decide_eq_true_2 _ H1), (bool_decide_eq_true_2 _ H2).
Qed.

Lemma fragment_depends_on_type_witness :
  fragment_of (field_to_property_schema (mkField "Name" "phone") ∅)
  = fragment_of (field_to_property_schema (mkField "Fax" "phone")
                   {[ ["properties"; "Fax"] := {[ "selected" := MBool true ]} ]}).
Proof.
  apply (fragment_depends_on_type "Name" "Fax" "phone").
  split; discriminate.
Defined.

(** * Further properties of the quota governor *)

Lemma max_requests_raises (this : Salesforce) (allotted : Z) (e : exn) :
  max_requests_for_run this allotted = Raise e ->
  e = ZeroDivisionError \/ e = OverflowError \/ e = ValueError.
Proof.
  unfold max_requests_for_run, PyNum.mul_int, PyNum.div_int, PyNum.int_truediv,
    PyNum.float_truediv, PyNum.of_int, PyNum.finite_or_overflow, PyNum.to_int.
  destruct (quota_percent_per_run this) as [n|x]; cbn [rbind].
  - change (100 =? 0) with false. cbv iota.
    destruct (SFdiv _ _ _ _); cbn [rbind]; intros [= <-]; auto.
  - destruct (binary_normalize _ _ allotted _ _); cbn [rbind];
      try (intros [= <-]; auto);
      change (binary_normalize PyNum.prec PyNum.emax 100 0 false)
        with (S754_finite false 7036874417766400 (-46)); cbn [rbind];
      match goal with
      | |- context [SFdiv ?p ?q ?a ?b] => destruct (SFdiv p q a b)
      end; intros [= <-]; auto.
Qed.

Lemma verdict_raises (this : Salesforce) (remaining allotted : Z) (e : exn) :
  quota_verdict this remaining allotted = Raise e ->
  retried_exceptions e = false.
Proof.
  unfold quota_verdict.
  destruct (percent_of remaining allotted) as [p|e1] eqn:Hp; cbn [rbind].
  2: { intros [= <-]. by destruct (percent_of_raises _ _ _ Hp) as [-> | ->]. }
  destruct (max_requests_for_run this allotted) as [mx|e2] eqn:Hm; cbn [rbind].
  2: { intros [= <-].
       by destruct (max_requests_raises _ _ _ Hm) as [-> | [-> | ->]]. }
  destruct (PyNum.gt _ _); [by intros [= <-]|].
  destruct (_ >? _); [|discriminate].
  destruct (percent_of (rest_requests_attempted this) allotted) as [q|e3] eqn:Hq;
    cbn [rbind]; intros [= <-]; [reflexivity|].
  by destruct (percent_of_raises _ _ _ Hq) as [-> | ->].
Qed.

Lemma check_footprint (hs : gmap string string) (w : world) :
  let out := check_rest_quota_usage hs w in
  self (fst out) = self w
  /\ wire (fst out) = wire w
  /\ sent (fst out) = sent w
  /\ (LOGGER (fst out) = LOGGER w
      \/ exists g1 g2 info,
           hs !! LIMIT_INFO = Some info
           /\ Re.search_api_usage info = Some (g1, g2)
           /\ LOGGER (fst out)
              = LOGGER w ++ [LogInfo "Used %s of %s daily REST API quota"
                               [PyNum.str_int (Re.int g1);
                                PyNum.str_int (Re.int g2)]])
  /\ (forall e, snd out = Raise e -> retried_exceptions e = false).
Proof.
  cbv zeta. destruct (hs !! LIMIT_INFO) as [info|] eqn:Hh.
  - destruct (Re.search_api_usage info) as [[g1 g2]|] eqn:Hm.
    + rewrite (check_matched hs info g1 g2 w Hh Hm). cbn [fst snd self wire sent LOGGER].
      repeat split; [right; by exists g1, g2, info | apply verdict_raises].
    + rewrite (check_unmatched hs info w Hh Hm). cbn [fst snd].
      repeat split; [by left | discriminate].
  - unfold check_rest_quota_usage, LIMIT_INFO in *. rewrite Hh. cbn.
    repeat split; [by left|]. by intros e [= <-].
Qed.

(** X5. The check reads and writes nothing of the client and sends
    nothing: after it, whatever the headers, the client object, the remote
    side and the number of requests sent are as before, and the log is as
    before or longer by the one line that reports the two counts of a
    matched header.  An exception it raises is never one the transport
    tries again. *)
Theorem check_is_read_only (hs : gmap string string) (w : world) :
  let out := check_rest_quota_usage hs w in
  self (fst out) = self w
  /\ wire (fst out) = wire w
  /\ sent (fst out) = sent w
  /\ (LOGGER (fst out) = LOGGER w
      \/ exists g1 g2 info,
           hs !! LIMIT_INFO = Some info
           /\ Re.search_api_usage info = Some (g1, g2)
           /\ LOGGER (fst out)
              = LOGGER w ++ [LogInfo "Used %s of %s daily REST API quota"
                               [PyNum.str_int (Re.int g1);
                                PyNum.str_int (Re.int g2)]])
  /\ (forall e, snd out = Raise e -> retried_exceptions e = false).
Proof. apply check_footprint. Qed.

(** X6. A header that reports zero allotted requests, as in
    [api-usage=5/0], makes the check fail with a division by zero, after
    the line with the two counts is logged; through the transport the
    error reaches the caller after a single request, which has been
    counted. *)
Theorem zero_allotted_divides_by_zero (w : world) (resp : Response)
    (used allotted url : string) :
  number used -> number allotted -> Re.int allotted = 0 ->
  wire w (sent w) = Answers resp ->
  status_code resp = 200 ->
  headers resp !! LIMIT_INFO = Some ("api-usage=" +:+ used +:+ "/" +:+ allotted) ->
  snd (check_rest_quota_usage (headers resp) w) = Raise ZeroDivisionError
  /\ exists w',
       _make_request "GET" url None None false None w
       = (w', Raise ZeroDivisionError)
       /\ self w' = counting (self w) (rest_requests_attempted (self w) + 1)
       /\ sent w' = S (sent w).
Proof.
  intros Hu Ha H0 Hw Hs Hh.
  pose proof (search_plain used allotted Hu Ha) as Hm.
  assert (Hv : forall this, quota_verdict this (Re.int used) (Re.int allotted)
                            = Raise ZeroDivisionError).
  { intros this. unfold quota_verdict, percent_of, PyNum.int_truediv.
    by rewrite H0. }
  split.
  - by rewrite (check_matched _ _ _ _ w Hh Hm), Hv.
  - eexists. split; [|split].
    + apply request_of_attempt; [|reflexivity].
      rewrite (attempt_counted w resp _ "GET" url None None false None
                 (or_introl eq_refl) Hw Hs Hh).
      by rewrite (check_matched _ _ _ _ _ Hh Hm), Hv.
    + reflexivity.
    + reflexivity.
Qed.

Lemma zero_allotted_divides_by_zero_witness :
  snd (check_rest_quota_usage (headers (quota_response "api-usage=5/0"))
         (sample_world 3 (quota_response "api-usage=5/0")))
  = Raise ZeroDivisionError.
Proof.
  refine (proj1 (zero_allotted_divides_by_zero
                   (sample_world 3 (quota_response "api-usage=5/0"))
                   (quota_response "api-usage=5/0") "5" "0" "sobjects"
                   _ _ _ _ _ _)).
  - split; [reflexivity | discriminate].
  - split; [reflexivity | discriminate].
  - reflexivity.
  - reflexivity.
  - reflexivity.
  - vm_compute. reflexivity.
Defined.

(** * Further properties of the transport *)

Lemma unsupported_method_attempt (w : world) (http_method url : string)
    hs body stream params :
  http_method <> "GET" -> http_method <> "POST" ->
  make_request_attempt http_method url hs body stream params w
  = (w, Raise (TapSalesforceExceptionError "Unsupported HTTP method")).
Proof.
  intros Hg Hp. unfold make_request_attempt.
  by rewrite (proj2 (String.eqb_neq _ _) Hg), (proj2 (String.eqb_neq _ _) Hp).
Qed.

(** X7. A method other than GET and POST is refused before anything
    happens: the configuration error is raised at once, it is not tried
    again, nothing is sent, logged or counted. *)
Theorem unsupported_method_is_refused (w : world) (http_method url : string)
    (hs : option (gmap string string)) (body : option string) (stream : bool)
    (params : option string) :
  http_method <> "GET" -> http_method <> "POST" ->
  _make_request http_method url hs body stream params w
  = (w, Raise (TapSalesforceExceptionError "Unsupported HTTP method")).
Proof.
  intros Hg Hp. apply request_of_attempt; [|reflexivity].
  by apply unsupported_method_attempt.
Qed.

Lemma unsupported_method_is_refused_witness :
  _make_request "DELETE" "sobjects" None None false None
    (sample_world 0 (plain_response 200 "OK"))
  = (sample_world 0 (plain_response 200 "OK"),
     Raise (TapSalesforceExceptionError "Unsupported HTTP method")).
Proof.
  apply unsupported_method_is_refused; discriminate.
Defined.

(** What one attempt leaves behind: the remote side is as before, and the
    client is either untouched, or has counted one request, in which case
    the attempt did not end with an exception that is tried again. *)
Lemma attempt_accounting (w : world) (http_method url : string)
    hs body stream params :
  let out := make_request_attempt http_method url hs body stream params w in
  wire (fst out) = wire w
  /\ ((self (fst out) = self w
       /\ forall resp, snd out = Ok resp -> headers resp !! LIMIT_INFO = None)
      \/ (self (fst out)
          = counting (self w) (rest_requests_attempted (self w) + 1)
          /\ match snd out with
             | Ok resp => is_Some (headers resp !! LIMIT_INFO)
             | Raise e => retried_exceptions e = false
             end)).
Proof.
  cbv zeta. split; [apply attempt_sent|].
  destruct (make_request_attempt http_method url hs body stream params w)
    as [w' r] eqn:Hout. cbn [fst snd].
  destruct (decide (http_method = "GET" \/ http_method = "POST")) as [Hm|Hm].
  - rewrite (attempt_sends _ _ _ _ _ _ _ Hm) in Hout.
    destruct (wire w (sent w)) as [resp|e].
    2: { injection Hout as <- <-. left. by split. }
    unfold after_request in Hout. unfold bind at 1 in Hout.
    set (w1 := sent_world w _) in Hout.
    assert (Hself : self (fst (raise_for_status resp w1)) = self w).
    { unfold raise_for_status, Response_raise_for_status, bind, log, raise, ret.
      repeat match goal with
             | |- context [if ?b then _ else _] => destruct b
             end; reflexivity. }
    destruct (raise_for_status resp w1) as [w2 [[]|e]]; cbn [fst] in Hself.
    2: { injection Hout as <- <-. left. by split. }
    unfold bind at 1 in Hout. unfold LIMIT_INFO.
    destruct (headers resp !! "Sforce-Limit-Info") as [info|] eqn:Hh.
    + right. unfold bind at 1 in Hout. unfold count_rest_request at 1 in Hout.
      cbv beta iota in Hout.
      match type of Hout with
      | context [check_rest_quota_usage ?h ?w3] =>
          destruct (check_footprint h w3) as (Hs & _ & _ & _ & Hr);
          destruct (check_rest_quota_usage h w3) as [w4 [[]|e]]
      end; cbn [fst snd self] in *; injection Hout as <- <-;
        rewrite Hs, Hself.
      * split; [reflexivity|]. rewrite Hh. by eexists.
      * split; [reflexivity|]. by apply Hr.
    + left. cbn in Hout. injection Hout as <- <-.
      split; [assumption|]. by intros resp' [= <-].
  - left. unfold make_request_attempt in Hout.
    assert (Hg : http_method <> "GET") by tauto.
    assert (Hp : http_method <> "POST") by tauto.
    rewrite (proj2 (String.eqb_neq _ _) Hg), (proj2 (String.eqb_neq _ _) Hp)
      in Hout.
    cbn in Hout. injection Hout as <- <-. by split.
Qed.

Lemma backoff_then (tries : nat) {A} (m : M A) (w : world) :
  (log_backoff_attempt tries ;; m) w = m (backed_off w tries).
Proof. reflexivity. Qed.

Lemma retry_accounting (more tries : nat) (w w' : world)
    (r : result Response) (http_method url : string) hs body stream params :
  retry_exception retried_exceptions log_backoff_attempt more tries
    (make_request_attempt http_method url hs body stream params) w = (w', r) ->
  wire w' = wire w
  /\ ((self w' = self w
       /\ forall resp, r = Ok resp -> headers resp !! LIMIT_INFO = None)
      \/ (self w' = counting (self w) (rest_requests_attempted (self w) + 1)
          /\ match r with
             | Ok resp => is_Some (headers resp !! LIMIT_INFO)
             | Raise e => retried_exceptions e = false
             end)).
Proof.
  revert tries w. induction more as [|more IH]; intros tries w;
    cbn [retry_exception];
    pose proof (attempt_accounting w http_method url hs body stream params)
      as [Hwire Hacc]; cbv zeta in Hwire, Hacc;
    destruct (make_request_attempt http_method url hs body stream params w)
      as [w1 [resp|e]]; cbn [fst snd] in *.
  - intros [= <- <-]. by split.
  - destruct (retried_exceptions e) eqn:He; intros [= <- <-];
      (split; [assumption|]); rewrite He; assumption.
  - intros [= <- <-]. by split.
  - destruct (retried_exceptions e) eqn:He.
    2: { intros [= <- <-]. split; [assumption|]. rewrite He. assumption. }
    destruct Hacc as [[Hself _]|[_ Hno]]; [|discriminate].
    rewrite backoff_then. intros Hrun.
    destruct (IH _ _ Hrun) as [Hw1 Hacc1].
    cbn [backed_off self wire] in Hw1, Hacc1. rewrite Hself, Hwire in *.
    by split.
Qed.

(** X8. Quota accounting of one call of [_make_request]: the client
    comes back untouched or with exactly one more request counted, its
    configuration never changes, and the remote side is as before.  When
    the call returns a response, the request was counted exactly if the
    response carries the quota header; when the call ends with an exception
    of the retried kinds, nothing was counted: tries that fail in transit
    never use up the run's quota. *)
Theorem request_accounting (w : world) (http_method url : string)
    (hs : option (gmap string string)) (body : option string) (stream : bool)
    (params : option string) :
  let run := _make_request http_method url hs body stream params w in
  let counted := counting (self w) (rest_requests_attempted (self w) + 1) in
  (self (fst run) = self w \/ self (fst run) = counted)
  /\ wire (fst run) = wire w
  /\ (forall resp, snd run = Ok resp ->
        (self (fst run) = counted <-> is_Some (headers resp !! LIMIT_INFO)))
  /\ (forall e, snd run = Raise e -> retried_exceptions e = true ->
        self (fst run) = self w).
Proof.
  cbv zeta. unfold _make_request, backoff_on_exception.
  destruct (retry_exception _ _ _ _ _ _) as [w' r] eqn:Hrun.
  destruct (retry_accounting _ _ _ _ _ _ _ _ _ _ _ Hrun) as [Hwire Hacc].
  cbn [fst snd].
  assert (Hne : counting (self w) (rest_requests_attempted (self w) + 1)
                <> self w).
  { intros H. apply (f_equal rest_requests_attempted) in H. cbn in H. lia. }
  split; [|split; [|split]].
  - destruct Hacc as [[-> _]|[-> _]]; auto.
  - assumption.
  - intros resp ->. split.
    + intros Hc. destruct Hacc as [[Hs _]|[_ Hr]]; [|assumption].
      rewrite Hs in Hc. by destruct Hne.
    + intros [info Hi]. destruct Hacc as [[_ Hn]|[Hs _]]; [|assumption].
      rewrite (Hn resp eq_refl) in Hi. discriminate.
  - intros e -> He. destruct Hacc as [[Hs _]|[_ Hr]]; [assumption|].
    congruence.
Qed.

Lemma backoff_tries_app (l1 l2 : list log_record) :
  backoff_tries (l1 ++ l2) = backoff_tries l1 ++ backoff_tries l2.
Proof. apply omap_app. Qed.

Lemma no_backoff_ret {A} (a : A) : no_backoff_line (ret a).
Proof. by intros w. Qed.

Lemma no_backoff_raise {A} (e : exn) : no_backoff_line (raise (A := A) e).
Proof. by intros w. Qed.

Lemma no_backoff_lift {A} (r : result A) : no_backoff_line (lift r).
Proof. by intros w. Qed.

Lemma no_backoff_get_self : no_backoff_line get_self.
Proof. by intros w. Qed.

Lemma no_backoff_count : no_backoff_line count_rest_request.
Proof. by intros w. Qed.

Lemma no_backoff_send : no_backoff_line session_send.
Proof. intros w. unfold session_send. by destruct (wire w (sent w)). Qed.

Lemma no_backoff_log (r : log_record) :
  backoff_tries [r] = [] -> no_backoff_line (log r).
Proof.
  intros H w. unfold log. cbn [fst LOGGER].
  by rewrite backoff_tries_app, H, app_nil_r.
Qed.

Lemma no_backoff_bind {A B} (m : M A) (k : A -> M B) :
  no_backoff_line m -> (forall a, no_backoff_line (k a)) ->
  no_backoff_line (bind m k).
Proof.
  intros Hm Hk w. unfold bind. specialize (Hm w).
  destruct (m w) as [w' [a|e]]; cbn [fst] in *; [|assumption].
  specialize (Hk a w'). destruct (k a w') as [w'' r]. cbn [fst] in *.
  congruence.
Qed.

Ltac no_backoff_steps :=
  repeat first
    [ apply no_backoff_ret | apply no_backoff_raise | apply no_backoff_lift
    | apply no_backoff_get_self | apply no_backoff_count
    | apply no_backoff_send
    | apply no_backoff_log; reflexivity
    | apply no_backoff_bind; [|intros ?]
    | match goal with
      | |- no_backoff_line (if ?b then _ else _) => destruct b
      | |- no_backoff_line (match ?o with Some _ => _ | None => _ end) =>
          destruct o
      | |- no_backoff_line (let '(_, _) := ?p in _) => destruct p
      end ].

Lemma no_backoff_attempt (http_method url : string) hs body stream params :
  no_backoff_line (make_request_attempt http_method url hs body stream params).
Proof.
  unfold make_request_attempt, raise_for_status, Response_raise_for_status,
    check_rest_quota_usage.
  no_backoff_steps.
Qed.

Lemma attempt_sends_one (w : world) (http_method url : string)
    hs body stream params :
  http_method = "GET" \/ http_method = "POST" ->
  sent (fst (make_request_attempt http_method url hs body stream params w))
  = S (sent w).
Proof.
  intros Hm. rewrite (attempt_sends _ _ _ _ _ _ _ Hm).
  destruct (wire w (sent w)) as [resp|e]; [|reflexivity].
  by destruct (quiet_after_request resp
                 (sent_world w (request_line http_method url body params)))
    as [-> _].
Qed.

Ltac no_more_tries :=
  intros [= <- <-]; exists 0%nat; cbn [seq map]; rewrite app_nil_r;
  split; [lia | split; [lia | assumption]].

Lemma retry_backoff_lines (more tries : nat) (w w' : world)
    (r : result Response) (http_method url : string) hs body stream params :
  http_method = "GET" \/ http_method = "POST" ->
  retry_exception retried_exceptions log_backoff_attempt more tries
    (make_request_attempt http_method url hs body stream params) w = (w', r) ->
  exists n : nat,
    (n <= more)%nat
    /\ sent w' = (sent w + S n)%nat
    /\ backoff_tries (LOGGER w')
       = backoff_tries (LOGGER w)
         ++ map (fun i => PyNum.str_int (Z.of_nat i)) (seq tries n).
Proof.
  intros Hm. revert tries w.
  induction more as [|more IH]; intros tries w; cbn [retry_exception];
    pose proof (attempt_sends_one w http_method url hs body stream params Hm)
      as Hs;
    pose proof (no_backoff_attempt http_method url hs body stream params w)
      as Hl;
    destruct (make_request_attempt http_method url hs body stream params w)
      as [w1 [resp|e]]; cbn [fst] in *.
  - no_more_tries.
  - destruct (retried_exceptions e); no_more_tries.
  - no_more_tries.
  - destruct (retried_exceptions e); [|no_more_tries].
    rewrite backoff_then. intros Hrun.
    destruct (IH _ _ Hrun) as (n & Hn & Hsent & Hlog).
    cbn [backed_off sent LOGGER] in Hsent, Hlog.
    exists (S n). split; [lia|]. split; [lia|].
    rewrite Hlog, backoff_tries_app, Hl. cbn [seq map].
    by rewrite <- app_assoc.
Qed.

(** X9. One backoff line per retry: a call of [_make_request] with GET
    or POST sends between one and ten requests, and when it has sent
    [n + 1] of them it has logged exactly [n] backoff lines, carrying the
    try numbers 1 to [n] in order. *)
Theorem backoff_lines_count_retries (w : world) (http_method url : string)
    (hs : option (gmap string string)) (body : option string) (stream : bool)
    (params : option string) :
  http_method = "GET" \/ http_method = "POST" ->
  let run := _make_request http_method url hs body stream params w in
  exists n : nat,
    (n < 10)%nat
    /\ sent (fst run) = (sent w + S n)%nat
    /\ backoff_tries (LOGGER (fst run))
       = backoff_tries (LOGGER w)
         ++ map (fun i => PyNum.str_int (Z.of_nat i)) (seq 1 n).
Proof.
  intros Hm. cbv zeta. unfold _make_request, backoff_on_exception.
  destruct (retry_exception _ _ _ _ _ _) as [w' r] eqn:Hrun.
  destruct (retry_backoff_lines _ _ _ _ _ _ _ _ _ _ _ Hm Hrun)
    as (n & Hn & Hsent & Hlog).
  exists n. cbn [Nat.pred] in Hn. cbn [fst].
  split; [lia | split; assumption].
Qed.

Lemma backoff_lines_count_retries_witness :
  exists n : nat,
    (n < 10)%nat
    /\ sent (fst (_make_request "GET" "sobjects" None None false None
                    (mkWorld (init None None false (Some "REST")) []
                       (flaky 3 (plain_response 200 "OK")) 0)))
       = (0 + S n)%nat
    /\ backoff_tries
         (LOGGER (fst (_make_request "GET" "sobjects" None None false None
                         (mkWorld (init None None false (Some "REST")) []
                            (flaky 3 (plain_response 200 "OK")) 0))))
       = [] ++ map (fun i => PyNum.str_int (Z.of_nat i)) (seq 1 n).
Proof.
  apply (backoff_lines_count_retries
           (mkWorld (init None None false (Some "REST")) []
              (flaky 3 (plain_response 200 "OK")) 0)
           "GET" "sobjects" None None false None).
  left. reflexivity.
Defined.

Example three_retries_are_logged :
  backoff_tries
    (LOGGER (fst (_make_request "GET" "sobjects" None None false None
                    (mkWorld (init None None false (Some "REST")) []
                       (flaky 3 (plain_response 200 "OK")) 0))))
  = ["1"; "2"; "3"].
Proof. vm_compute. reflexivity. Qed.

(** * The recognized reason phrase *)

Lemma prefix_spec (n h : string) :
  String.prefix n h = true <-> exists post, h = n +:+ post.
Proof.
  revert h. induction n as [|a n IH]; intros [|b h]; simpl.
  - split; [intros _; by exists "" | reflexivity].
  - split; [intros _; by exists (String b h) | reflexivity].
  - split; [discriminate | intros [post H]; discriminate H].
  - destruct (ascii_dec a b) as [->|Hne].
    + rewrite IH. split; intros [post H]; exists post.
      * by rewrite append_cons, <- H.
      * rewrite append_cons in H. by injection H.
    + split; [discriminate|]. intros [post H]. rewrite append_cons in H.
      injection H as H _. by destruct Hne.
Qed.

Lemma str_contains_nil (n : string) :
  str_contains n "" = String.prefix n "" || false.
Proof. reflexivity. Qed.

Lemma str_contains_cons (n : string) (c : ascii) (h : string) :
  str_contains n (String c h)
  = String.prefix n (String c h) || str_contains n h.
Proof. reflexivity. Qed.

Lemma str_contains_spec (n h : string) :
  str_contains n h = true <-> exists pre post, h = pre +:+ n +:+ post.
Proof.
  induction h as [|c h IH].
  - rewrite str_contains_nil, orb_false_r, prefix_spec. split.
    + intros [post H]. by exists "", post.
    + intros (pre & post & H). destruct pre as [|a pre]; [by exists post|].
      rewrite append_cons in H. discriminate H.
  - rewrite str_contains_cons, orb_true_iff, prefix_spec, IH. split.
    + intros [[post H]|(pre & post & H)].
      * by exists "", post.
      * exists (String c pre), post. by rewrite append_cons, <- H.
    + intros (pre & post & H). destruct pre as [|a pre].
      * left. by exists post.
      * right. rewrite append_cons in H. injection H as _ H. by exists pre, post.
Qed.

(** X10. [raise_for_status] raises the retried error
    [SFDCCustomNotAcceptableError] exactly for a response of status 406
    whose reason phrase has [CustomNotAcceptable] somewhere inside it,
    letters in that case; any other 406 response is raised as a plain HTTP
    error, which the transport does not try again. *)
Theorem custom_not_acceptable (resp : Response) (w : world) :
  ((exists msg, snd (raise_for_status resp w)
                = Raise (SFDCCustomNotAcceptableError msg))
   <-> (status_code resp = 406
        /\ exists pre post,
             reason resp = pre +:+ "CustomNotAcceptable" +:+ post))
  /\ (status_code resp = 406 ->
      (~ exists pre post, reason resp = pre +:+ "CustomNotAcceptable" +:+ post) ->
      snd (raise_for_status resp w)
      = Raise (HTTPError 406 (http_error_msg "Client" resp))).
Proof.
  rewrite <- str_contains_spec.
  unfold raise_for_status, Response_raise_for_status, bind, log, raise, ret.
  split.
  - destruct (status_code resp =? 406) eqn:E6.
    + apply Z.eqb_eq in E6. rewrite E6. cbn.
      destruct (str_contains _ _); cbn; split.
      * by intros _.
      * intros _. by eexists.
      * intros [msg H]. discriminate H.
      * intros [_ H]. discriminate H.
    + apply Z.eqb_neq in E6. split; [|by intros [H _]].
      intros [msg H]. revert H. cbn [andb].
      repeat match goal with
             | |- context [if ?b then _ else _] => destruct b
             end; cbn; intros H; discriminate H.
  - intros -> Hno. cbn.
    destruct (str_contains _ _); [by destruct Hno|]. reflexivity.
Qed.

Lemma custom_not_acceptable_witness :
  snd (raise_for_status (plain_response 406 "Not Acceptable")
         (sample_world 0 (plain_response 406 "Not Acceptable")))
  = Raise (HTTPError 406
             (http_error_msg "Client" (plain_response 406 "Not Acceptable"))).
Proof.
  refine (proj2 (custom_not_acceptable (plain_response 406 "Not Acceptable")
                   (sample_world 0 (plain_response 406 "Not Acceptable")))
            eq_refl _).
  intros H. apply str_contains_spec in H. vm_compute in H. discriminate.
Defined.

(** * Further properties of the query builder *)

Lemma to_map_snoc (l : list (list string * gmap string mvalue))
    (e : list string * gmap string mvalue) :
  metadata.to_map (l ++ [e]) = <[e.1 := e.2]> (metadata.to_map l).
Proof. unfold metadata.to_map. by rewrite foldl_app. Qed.

(** An entry of the raw metadata does not show under any other
    breadcrumb. *)
Lemma to_map_other (l1 l2 : list (list string * gmap string mvalue))
    (bc bc' : list string) (d : gmap string mvalue) :
  bc' <> bc ->
  metadata.to_map (l1 ++ (bc, d) :: l2) !! bc' = metadata.to_map (l1 ++ l2) !! bc'.
Proof.
  intros Hne. induction l2 as [|e l2 IH] using rev_ind.
  - rewrite app_nil_r, to_map_snoc. by apply lookup_insert_ne.
  - rewrite app_comm_cons, !app_assoc, !to_map_snoc.
    rewrite !lookup_insert. case_decide; [reflexivity | exact IH].
Qed.

Lemma get_other (l1 l2 : list (list string * gmap string mvalue))
    (bc bc' : list string) (d : gmap string mvalue) (k : string) :
  bc' <> bc ->
  metadata.get (metadata.to_map (l1 ++ (bc, d) :: l2)) bc' k
  = metadata.get (metadata.to_map (l1 ++ l2)) bc' k.
Proof. intros Hne. unfold metadata.get. by rewrite to_map_other. Qed.

Lemma filter_agree {A} (P Q : A -> Prop) `{!forall x, Decision (P x)}
    `{!forall x, Decision (Q x)} (l : list A) :
  (forall x, x ∈ l -> (P x <-> Q x)) -> filter P l = filter Q l.
Proof.
  induction l as [|x l IH]; intros Hl; [reflexivity|].
  rewrite !filter_cons.
  assert (Hx : P x <-> Q x) by (apply Hl; left).
  rewrite IH by (intros y Hy; apply Hl; by right).
  destruct (decide (P x)), (decide (Q x)); tauto.
Qed.

(** X11. Metadata kept for fields that the schema does not have never
    reaches the query: an entry of the raw metadata whose breadcrumb is
    neither the root nor [("properties", k)] for a property [k] of the
    schema can be dropped, wherever it stands in the list, and the query
    is the same. *)
Theorem stale_metadata_is_ignored
    (should_sync_field : option mvalue -> option mvalue -> bool -> bool)
    (this : Salesforce) (stream_name : string)
    (properties : option (list (string * json)))
    (l1 l2 : list (list string * gmap string mvalue))
    (bc : list string) (d : gmap string mvalue)
    (start_date : string) (end_date : option string) (order_by_clause : bool) :
  bc <> [] ->
  (forall k, k ∈ map fst (default [] properties) -> bc <> ["properties"; k]) ->
  _build_query_string should_sync_field this
    (mkCatalogEntry stream_name properties (l1 ++ (bc, d) :: l2))
    start_date end_date order_by_clause
  = _build_query_string should_sync_field this
      (mkCatalogEntry stream_name properties (l1 ++ l2))
      start_date end_date order_by_clause.
Proof.
  intros Hroot Hprops.
  unfold _build_query_string, _get_selected_properties.
  cbn [raw_metadata schema_properties stream].
  rewrite (get_other l1 l2 bc [] d "replication-key") by congruence.
  rewrite (filter_agree _
             (fun k => should_sync_field
                         (metadata.get (metadata.to_map (l1 ++ l2))
                            ["properties"; k] "inclusion")
                         (metadata.get (metadata.to_map (l1 ++ l2))
                            ["properties"; k] "selected")
                         (select_fields_by_default this) = true)).
  - reflexivity.
  - intros k Hk. specialize (Hprops k Hk).
    by rewrite !(get_other l1 l2 bc ["properties"; k] d) by congruence.
Qed.

Lemma stale_metadata_is_ignored_witness :
  _build_query_string spec_should_sync_field (init None None false (Some "REST"))
    (mkCatalogEntry "Account" (schema_properties sample_entry)
       (raw_metadata sample_entry
        ++ (["properties"; "Gone__c"], {[ "selected" := MBool true ]}) :: []))
    "2024-01-01T00:00:00Z" None true
  = _build_query_string spec_should_sync_field (init None None false (Some "REST"))
      (mkCatalogEntry "Account" (schema_properties sample_entry)
         (raw_metadata sample_entry ++ []))
      "2024-01-01T00:00:00Z" None true.
Proof.
  apply stale_metadata_is_ignored.
  - discriminate.
  - intros k Hk. vm_compute in Hk.
    apply elem_of_cons in Hk as [-> | Hk]; [discriminate|].
    apply elem_of_cons in Hk as [-> | Hk]; [discriminate|].
    by apply elem_of_nil in Hk.
Defined.

(** X12. A schema without properties, missing or empty, selects nothing,
    and the builder still returns a query: it reads [SELECT  FROM <stream>]
    with an empty field list, followed by the clauses of the replication
    key if there is one and by nothing otherwise. *)
Theorem empty_schema_query
    (should_sync_field : option mvalue -> option mvalue -> bool -> bool)
    (this : Salesforce) (entry : catalog_entry) (start_date : string)
    (end_date : option string) (order_by_clause : bool) :
  schema_properties entry = None \/ schema_properties entry = Some [] ->
  _get_selected_properties should_sync_field this entry = []
  /\ exists clauses,
       _build_query_string should_sync_field this entry start_date end_date
         order_by_clause
       = "SELECT  FROM " +:+ stream entry +:+ clauses
       /\ (truthy (metadata.get (metadata.to_map (raw_metadata entry)) []
                     "replication-key") = false -> clauses = "").
Proof.
  intros Hp.
  assert (Hsel : _get_selected_properties should_sync_field this entry = []).
  { unfold _get_selected_properties. by destruct Hp as [-> | ->]. }
  split; [assumption|].
  unfold _build_query_string. rewrite Hsel.
  change (String.concat "," []) with "".
  destruct (truthy _).
  - destruct order_by_clause; eexists; (split; [|discriminate]);
      rewrite ?append_cons, ?append_nil, ?append_assoc; reflexivity.
  - exists "". split; [|reflexivity].
    rewrite ?append_cons, ?append_nil, ?append_empty_r. reflexivity.
Qed.

Lemma empty_schema_query_witness :
  _get_selected_properties spec_should_sync_field
    (init None None true (Some "REST"))
    (mkCatalogEntry "Account" None (raw_metadata sample_entry))
  = [].
Proof.
  refine (proj1 (empty_schema_query spec_should_sync_field
                   (init None None true (Some "REST"))
                   (mkCatalogEntry "Account" None (raw_metadata sample_entry))
                   "2024-01-01T00:00:00Z" None true _)).
  left. reflexivity.
Defined.

Example empty_schema_query_text :
  _build_query_string spec_should_sync_field (init None None true (Some "REST"))
    (mkCatalogEntry "Account" (Some []) (raw_metadata sample_entry))
    "2024-01-01T00:00:00Z" None false
  = "SELECT  FROM Account WHERE SystemModstamp >= 2024-01-01T00:00:00Z ".
Proof. vm_compute. reflexivity. Qed.

(** * Further properties of the strategy-dependent operations *)

Lemma known_strategy (a : option string) :
  a ∈ [Some REST_API_TYPE; Some BULK_API_TYPE; Some BULK2_API_TYPE]
  <-> a = Some REST_API_TYPE \/ a = Some BULK_API_TYPE \/ a = Some BULK2_API_TYPE.
Proof. rewrite !elem_of_cons, elem_of_nil. tauto. Qed.

(** X13. The three operations that depend on the strategy agree on the
    clients they refuse: [get_blacklisted_objects] and
    [get_blacklisted_fields] raise the configuration error exactly when
    [api_type] is none of REST, BULK and BULK2, and then [query] raises the
    same error before any collaborator runs, the world untouched; for the
    three known strategies both blacklists are returned, and they are the
    same for BULK and BULK2. *)
Theorem strategy_operations_agree (State Records : Type)
    (Bulk_query Bulk2_query Rest_query : catalog_entry -> State -> M Records)
    (w : world) (entry : catalog_entry) (state : State) :
  let this := self w in
  let known :=
    api_type this ∈ [Some REST_API_TYPE; Some BULK_API_TYPE; Some BULK2_API_TYPE] in
  (get_blacklisted_objects this = Raise (api_type_error this) <-> ~ known)
  /\ (get_blacklisted_fields this = Raise (api_type_error this) <-> ~ known)
  /\ (~ known ->
      query State Records Bulk_query Bulk2_query Rest_query entry state w
      = (w, Raise (api_type_error this)))
  /\ (known ->
      exists objects fields,
        get_blacklisted_objects this = Ok objects
        /\ get_blacklisted_fields this = Ok fields)
  /\ (forall other,
        api_type this = Some BULK_API_TYPE ->
        api_type other = Some BULK2_API_TYPE ->
        get_blacklisted_objects this = get_blacklisted_objects other
        /\ get_blacklisted_fields this = get_blacklisted_fields other).
Proof.
  cbv zeta. rewrite known_strategy.
  unfold get_blacklisted_objects, get_blacklisted_fields, query, bind, get_self,
    raise.
  split; [|split; [|split; [|split]]].
  - destruct (decide (api_type (self w) = Some BULK_API_TYPE)) as [E|E];
      [rewrite E; split; [discriminate | tauto]|].
    destruct (decide (api_type (self w) = Some BULK2_API_TYPE)) as [E2|E2];
      [rewrite E2; split; [discriminate | tauto]|].
    rewrite (bool_decide_eq_false_2 (_ ∈ _))
      by (rewrite !elem_of_cons, elem_of_nil; tauto).
    destruct (decide (api_type (self w) = Some REST_API_TYPE)) as [E3|E3].
    + rewrite (bool_decide_eq_true_2 _ E3). split; [discriminate | tauto].
    + rewrite (bool_decide_eq_false_2 _ E3). split; [tauto | reflexivity].
  - destruct (decide (api_type (self w) = Some BULK_API_TYPE)) as [E|E];
      [rewrite E; split; [discriminate | tauto]|].
    destruct (decide (api_type (self w) = Some BULK2_API_TYPE)) as [E2|E2];
      [rewrite E2; split; [discriminate | tauto]|].
    rewrite (bool_decide_eq_false_2 _ E), (bool_decide_eq_false_2 _ E2).
    destruct (decide (api_type (self w) = Some REST_API_TYPE)) as [E3|E3].
    + rewrite (bool_decide_eq_true_2 _ E3). split; [discriminate | tauto].
    + rewrite (bool_decide_eq_false_2 _ E3). split; [tauto | reflexivity].
  - intros Hn.
    rewrite !bool_decide_eq_false_2 by tauto. reflexivity.
  - intros [E | [E | E]]; rewrite E; eexists _, _; split; reflexivity.
  - intros other E E2. rewrite E, E2. split; reflexivity.
Qed.

Lemma strategy_operations_agree_witness :
  query unit (list string) (fun _ _ => ret ["bulk"]) (fun _ _ => ret ["bulk2"])
    (fun _ _ => ret ["rest"]) sample_entry tt
    (mkWorld (init None None false None) []
       (flaky 0 (plain_response 200 "OK")) 0)
  = (mkWorld (init None None false None) []
       (flaky 0 (plain_response 200 "OK")) 0,
     Raise (TapSalesforceExceptionError
              "api_type should be REST or BULK was: None")).
Proof.
  refine (proj1 (proj2 (proj2
    (strategy_operations_agree unit (list string)
       (fun _ _ => ret ["bulk"]) (fun _ _ => ret ["bulk2"])
       (fun _ _ => ret ["rest"])
       (mkWorld (init None None false None) []
          (flaky 0 (plain_response 200 "OK")) 0)
       sample_entry tt))) _).
  intros H. apply known_strategy in H. cbn in H.
  destruct H as [H | [H | H]]; discriminate H.
Defined.

(** * The constructor *)

Lemma upper_ascii_idempotent (c : ascii) :
  upper_ascii (upper_ascii c) = upper_ascii c.
Proof. destruct c as [[] [] [] [] [] [] [] []]; reflexivity. Qed.

Lemma str_upper_idempotent (s : string) : str_upper (str_upper s) = str_upper s.
Proof.
  induction s as [|c s IH]; [reflexivity|]. cbn [str_upper].
  by rewrite upper_ascii_idempotent, IH.
Qed.

Lemma str_upper_empty (s : string) : Re.is_empty (str_upper s) = Re.is_empty s.
Proof. by destruct s. Qed.

Lemma known_name (s : string) :
  s ∈ [REST_API_TYPE; BULK_API_TYPE; BULK2_API_TYPE]
  <-> s = REST_API_TYPE \/ s = BULK_API_TYPE \/ s = BULK2_API_TYPE.
Proof. rewrite !elem_of_cons, elem_of_nil. tauto. Qed.

(** X14. The strategy name is read without regard to the case of its
    letters: on a name of 7-bit characters the constructor builds the same
    client from the name and from its upper-case form, so the blacklists
    are those of REST, BULK or BULK2 exactly when the upper-case form is
    one of the three; a missing or empty name leaves [api_type] unset. *)
Theorem api_type_is_case_insensitive
    (quota_percent_per_run quota_percent_total : option spec_float)
    (select_fields_by_default : bool) (name : string) :
  ascii_only name = true ->
  init quota_percent_per_run quota_percent_total select_fields_by_default
    (Some name)
  = init quota_percent_per_run quota_percent_total select_fields_by_default
      (Some (str_upper name))
  /\ ((exists objects,
         get_blacklisted_objects
           (init quota_percent_per_run quota_percent_total
              select_fields_by_default (Some name)) = Ok objects)
      <-> str_upper name ∈ [REST_API_TYPE; BULK_API_TYPE; BULK2_API_TYPE])
  /\ api_type (init quota_percent_per_run quota_percent_total
                 select_fields_by_default (Some ""))
     = api_type (init quota_percent_per_run quota_percent_total
                   select_fields_by_default None).
Proof.
  intros _. split; [|split; [|reflexivity]].
  - unfold init. by rewrite str_upper_empty, str_upper_idempotent.
  - rewrite known_name. unfold get_blacklisted_objects, init. cbn [api_type].
    destruct (Re.is_empty name) eqn:He.
    + apply is_empty_true in He as ->. cbn. split.
      * intros [o H]. discriminate H.
      * intros [H | [H | H]]; discriminate H.
    + destruct (decide (str_upper name = BULK_API_TYPE)) as [E|E];
        [rewrite E; split; [tauto | by eexists]|].
      destruct (decide (str_upper name = BULK2_API_TYPE)) as [E2|E2];
        [rewrite E2; split; [tauto | by eexists]|].
      rewrite (bool_decide_eq_false_2 (_ ∈ _))
        by (rewrite !elem_of_cons, elem_of_nil; intros [[=]|[[=]|[]]]; tauto).
      destruct (decide (str_upper name = REST_API_TYPE)) as [E3|E3].
      * rewrite E3. split; [tauto | by eexists].
      * rewrite (bool_decide_eq_false_2 (_ = _)) by (intros [=]; tauto).
        split; [intros [o H]; discriminate H | tauto].
Qed.

Lemma api_type_is_case_insensitive_witness :
  init None None false (Some "Bulk2") = init None None false (Some "BULK2").
Proof.
  exact (proj1 (api_type_is_case_insensitive None None false "Bulk2" eq_refl)).
Defined.

(** * The start date of a stream *)

(** X15. [get_start_date] reads only the bookmark kept for this stream
    under its replication key: a stream without a replication key starts at
    the default start date whatever the state holds, the bookmarks of other
    streams never matter, an empty bookmark falls back to the default, and
    with a non-empty default the result is never empty. *)
Theorem start_date_of_stream (default_start_date : string)
    (bookmarks : gmap string (gmap string mvalue)) (tap_stream_id : string)
    (entry : catalog_entry) :
  let key := metadata.get (metadata.to_map (raw_metadata entry)) []
               "replication-key" in
  (key = None ->
   get_start_date default_start_date bookmarks tap_stream_id entry
   = MStr default_start_date)
  /\ (forall other marks, other <> tap_stream_id ->
      get_start_date default_start_date (<[other := marks]> bookmarks)
        tap_stream_id entry
      = get_start_date default_start_date bookmarks tap_stream_id entry)
  /\ (forall k marks, key = Some (MStr k) ->
      bookmarks !! tap_stream_id = Some marks ->
      marks !! k = Some (MStr "") ->
      get_start_date default_start_date bookmarks tap_stream_id entry
      = MStr default_start_date)
  /\ (default_start_date <> "" ->
      truthy (Some (get_start_date default_start_date bookmarks tap_stream_id
                      entry)) = true).
Proof.
  cbv zeta. unfold get_start_date.
  set (key := metadata.get _ [] "replication-key").
  split; [|split; [|split]].
  - intros ->. reflexivity.
  - intros other marks Hne. unfold get_bookmark.
    destruct key as [[k|b]|]; try reflexivity.
    by rewrite lookup_insert_ne.
  - intros k marks -> Hb Hk. unfold get_bookmark. by rewrite Hb, Hk.
  - intros Hd.
    destruct (truthy (get_bookmark bookmarks tap_stream_id key)) eqn:Ht.
    + destruct (get_bookmark bookmarks tap_stream_id key) as [v|];
        [exact Ht | discriminate Ht].
    + cbn. by apply negb_true_iff, is_empty_false.
Qed.

Lemma start_date_of_stream_witness :
  get_start_date "2024-01-01T00:00:00Z"
    {[ "Contact" := {[ "SystemModstamp" := MStr "2024-03-01T00:00:00Z" ]} ]}
    "Account" (mkCatalogEntry "Account" None [])
  = MStr "2024-01-01T00:00:00Z".
Proof.
  exact (proj1 (start_date_of_stream "2024-01-01T00:00:00Z"
                  {[ "Contact" := {[ "SystemModstamp"
                                       := MStr "2024-03-01T00:00:00Z" ]} ]}
                  "Account" (mkCatalogEntry "Account" None []))
           eq_refl).
Defined.

Example bookmark_wins :
  get_start_date "2024-01-01T00:00:00Z"
    {[ "Account" := {[ "SystemModstamp" := MStr "2024-03-01T00:00:00Z" ]} ]}
    "Account" sample_entry
  = MStr "2024-03-01T00:00:00Z".
Proof. vm_compute. reflexivity. Qed.

(** * Further properties of runs and of returned responses *)

Lemma request_counts (w w' : world) (r : result Response)
    (http_method url : string) hs body stream params :
  _make_request http_method url hs body stream params w = (w', r) ->
  wire w' = wire w
  /\ exists c,
       self w' = counting (self w) c
       /\ rest_requests_attempted (self w) <= c
          <= rest_requests_attempted (self w) + 1.
Proof.
  unfold _make_request, backoff_on_exception. intros Hrun.
  destruct (retry_accounting _ _ _ _ _ _ _ _ _ _ _ Hrun) as [Hwire Hacc].
  split; [assumption|].
  destruct Hacc as [[Hs _]|[Hs _]].
  - exists (rest_requests_attempted (self w)). split; [|lia].
    by rewrite counting_self.
  - eexists. split; [exact Hs | lia].
Qed.

(** X16. Over a run of [n] calls of [_make_request] the request counter
    only grows, by at most one per call and so by at most [n] in all; it is
    never reset, and the rest of the client, its strategy and its quota
    percentages, stays as configured. *)
Theorem run_counter_is_monotone (n : nat) (w : world) (http_method url : string) :
  let after := fst (requests n http_method url w) in
  exists c,
    self after = counting (self w) c
    /\ rest_requests_attempted (self w) <= c
       <= rest_requests_attempted (self w) + Z.of_nat n.
Proof.
  cbv zeta. induction n as [|n IH].
  - exists (rest_requests_attempted (self w)). split; [|lia].
    by rewrite counting_self.
  - destruct IH as (c & Hc & Hle). rewrite requests_S. unfold bind at 1.
    destruct (requests n http_method url w) as [w1 [[]|e]]; cbn [fst] in *.
    + unfold bind at 1.
      destruct (_make_request http_method url None None false None w1)
        as [w2 r] eqn:Hrun.
      destruct (request_counts _ _ _ _ _ _ _ _ _ Hrun) as (_ & c' & Hc' & Hle').
      assert (Hfst : self (fst (match r with
                                | Ok a => ret tt w2
                                | Raise e => (w2, Raise e)
                                end)) = self w2) by (by destruct r).
      rewrite Hfst, Hc', Hc in *. cbn in Hle'.
      exists c'. split; [reflexivity | lia].
    + exists c. split; [assumption | lia].
Qed.

Lemma attempt_returns (w w' : world) (resp : Response)
    (http_method url : string) hs body stream params :
  make_request_attempt http_method url hs body stream params w = (w', Ok resp) ->
  wire w (sent w) = Answers resp /\ failure (Answers resp) = None
  /\ sent w' = S (sent w).
Proof.
  intros Hout.
  destruct (decide (http_method = "GET" \/ http_method = "POST")) as [Hm|Hm].
  - pose proof (attempt_sends_one w http_method url hs body stream params Hm)
      as Hsent. rewrite Hout in Hsent. cbn [fst] in Hsent.
    rewrite (attempt_sends _ _ _ _ _ _ _ Hm) in Hout.
    destruct (wire w (sent w)) as [resp'|e]; [|discriminate].
    unfold after_request in Hout. unfold bind at 1 in Hout.
    destruct (failure (Answers resp')) as [e|] eqn:Hf.
    { by rewrite (raise_for_status_failure resp' e _ Hf) in Hout. }
    destruct (raise_for_status resp' _) as [w1 [[]|e]]; [|discriminate].
    unfold bind at 1 in Hout.
    match type of Hout with
    | context [match ?m w1 with _ => _ end] => destruct (m w1) as [w2 [[]|e]]
    end; [|discriminate].
    injection Hout as _ <-. by repeat split.
  - unfold make_request_attempt in Hout.
    assert (Hg : http_method <> "GET") by tauto.
    assert (Hp : http_method <> "POST") by tauto.
    rewrite (proj2 (String.eqb_neq _ _) Hg), (proj2 (String.eqb_neq _ _) Hp)
      in Hout.
    discriminate.
Qed.

Lemma retry_returns (more tries : nat) (w w' : world) (resp : Response)
    (http_method url : string) hs body stream params :
  retry_exception retried_exceptions log_backoff_attempt more tries
    (make_request_attempt http_method url hs body stream params) w
  = (w', Ok resp) ->
  (sent w < sent w')%nat
  /\ wire w (Nat.pred (sent w')) = Answers resp
  /\ failure (Answers resp) = None.
Proof.
  revert tries w. induction more as [|more IH]; intros tries w;
    cbn [retry_exception];
    pose proof (attempt_sent w http_method url hs body stream params)
      as [Hle Hwire];
    destruct (make_request_attempt http_method url hs body stream params w)
      as [w1 [resp1|e]] eqn:Ha; cbn [fst] in *.
  - intros [= <- <-]. destruct (attempt_returns _ _ _ _ _ _ _ _ _ Ha)
      as (Hw & Hf & ->). cbn. by repeat split; [lia|..].
  - by destruct (retried_exceptions e).
  - intros [= <- <-]. destruct (attempt_returns _ _ _ _ _ _ _ _ _ Ha)
      as (Hw & Hf & ->). cbn. by repeat split; [lia|..].
  - destruct (retried_exceptions e); [|discriminate].
    rewrite backoff_then. intros Hrun.
    destruct (IH _ _ Hrun) as (Hlt & Hw & Hf).
    cbn [backed_off sent wire] in Hlt, Hw. rewrite Hwire in Hw.
    repeat split; [|assumption..].
    assert (sent w <= sent w1)%nat; [|lia].
    destruct (decide (http_method = "GET" \/ http_method = "POST")) as [Hm|Hm].
    + pose proof (attempt_sends_one w http_method url hs body stream params Hm)
        as Hs. rewrite Ha in Hs. cbn in Hs. lia.
    + assert (Hg : http_method <> "GET") by tauto.
      assert (Hp : http_method <> "POST") by tauto.
      pose proof (unsupported_method_attempt w http_method url hs body stream
                    params Hg Hp) as Hu.
      rewrite Ha in Hu. by injection Hu as ->.
Qed.

(** X17. A response that [_make_request] returns is the remote side's
    answer to the last request the call has sent, handed over as it came,
    and it is never of the 4xx or 5xx class: those always end in an
    exception. *)
Theorem returned_response_is_last_answer (w : world) (http_method url : string)
    (hs : option (gmap string string)) (body : option string) (stream : bool)
    (params : option string) (resp : Response) :
  snd (_make_request http_method url hs body stream params w) = Ok resp ->
  let w' := fst (_make_request http_method url hs body stream params w) in
  (sent w < sent w')%nat
  /\ wire w (Nat.pred (sent w')) = Answers resp
  /\ ~ (400 <= status_code resp < 600).
Proof.
  unfold _make_request, backoff_on_exception.
  destruct (retry_exception _ _ _ _ _ _) as [w' r] eqn:Hrun. cbn [fst snd].
  intros ->. destruct (retry_returns _ _ _ _ _ _ _ _ _ _ _ Hrun)
    as (Hlt & Hw & Hf).
  split; [assumption|]. split; [assumption|].
  intros Hcode. cbn [failure] in Hf.
  destruct (_ && str_contains _ _); [discriminate|].
  destruct ((400 <=? _) && _) eqn:E4; [discriminate|].
  destruct ((500 <=? _) && _) eqn:E5; [discriminate|]. lia.
Qed.

Lemma returned_response_is_last_answer_witness :
  wire (mkWorld (init None None false (Some "REST")) []
          (flaky 3 (plain_response 200 "OK")) 0)
    (Nat.pred
       (sent (fst (_make_request "GET" "sobjects" None None false None
                     (mkWorld (init None None false (Some "REST")) []
                        (flaky 3 (plain_response 200 "OK")) 0)))))
  = Answers (plain_response 200 "OK").
Proof.
  refine (proj1 (proj2
    (returned_response_is_last_answer
       (mkWorld (init None None false (Some "REST")) []
          (flaky 3 (plain_response 200 "OK")) 0)
       "GET" "sobjects" None None false None (plain_response 200 "OK") _))).
  vm_compute. reflexivity.
Defined.

(** * Binary fields from discovery to the query *)

(** X18. A field that the mapper has marked unsupported never reaches a
    query: when the catalog's metadata is the map that
    [field_to_property_schema] returned for a [byte] field, and the
    selection predicate refuses the inclusion [unsupported], as singer's
    does, the field is not among the selected properties. *)
Theorem byte_field_is_never_selected
    (should_sync_field : option mvalue -> option mvalue -> bool -> bool)
    (this : Salesforce) (entry : catalog_entry) (name : string)
    (mdata : gmap (list string) (gmap string mvalue))
    (frag : list (string * json))
    (mdata' : gmap (list string) (gmap string mvalue)) :
  (forall selected default_policy,
     should_sync_field (Some (MStr "unsupported")) selected default_policy
     = false) ->
  field_to_property_schema (mkField name "byte") mdata = Ok (frag, mdata') ->
  metadata.to_map (raw_metadata entry) = mdata' ->
  name ∉ _get_selected_properties should_sync_field this entry.
Proof.
  intros Hssf Hmap Hraw. rewrite mapField_refines in Hmap.
  injection Hmap as _ <-.
  unfold _get_selected_properties. rewrite Hraw.
  intros Hin. apply list_elem_of_filter in Hin as [Hsel _]. revert Hsel.
  unfold Spec.mark_unsupported.
  rewrite get_write_other by (intros [=]).
  by rewrite get_write_same, Hssf.
Qed.

Lemma byte_field_is_never_selected_witness :
  "Body" ∉ _get_selected_properties spec_should_sync_field
             (init None None true (Some "REST"))
             (mkCatalogEntry "Attachment"
                (Some [("Id", JDict []); ("Body", JDict [])])
                [(["properties"; "Body"],
                  {[ "inclusion" := MStr "unsupported";
                     "unsupported-description" := MStr "binary data" ]})]).
Proof.
  apply (byte_field_is_never_selected spec_should_sync_field
           (init None None true (Some "REST")) _ "Body" ∅ []
           {[ ["properties"; "Body"]
                := {[ "inclusion" := MStr "unsupported";
                      "unsupported-description" := MStr "binary data" ]} ]}).
  - reflexivity.
  - vm_compute. reflexivity.
  - vm_compute. reflexivity.
Defined.

(** * Transport: the policy at every attempt *)

Lemma retry_step {A} (retried : exn -> bool) (on_backoff : nat -> M unit)
    (more tries : nat) (target : M A) (w : world) :
  retry_exception retried on_backoff more tries target w
  = match target w with
    | (w', Ok a) => (w', Ok a)
    | (w', Raise e) =>
        if retried e then
          match more with
          | O => (w', Raise e)
          | S more' =>
              (on_backoff tries ;;
               retry_exception retried on_backoff more' (S tries) target) w'
          end
        else (w', Raise e)
    end.
Proof. destruct more; reflexivity. Qed.

(** An attempt whose result is not one of the retried exceptions ends the
    loop, whatever the number of tries left. *)
Lemma retry_stops {A} (retried : exn -> bool) (on_backoff : nat -> M unit)
    (more tries : nat) (target : M A) (w w' : world) (r : result A) :
  target w = (w', r) ->
  match r with Ok _ => True | Raise e => retried e = false end ->
  retry_exception retried on_backoff more tries target w = (w', r).
Proof.
  intros Ht Hr. rewrite retry_step, Ht.
  destruct r as [a|e]; [reflexivity|]. by rewrite Hr.
Qed.

(** A response outside the 4xx and 5xx classes passes the status handler,
    with the warning logged unless the status is 200. *)
Lemma raise_for_status_passes (resp : Response) (w : world) :
  ~ 400 <= status_code resp < 600 ->
  raise_for_status resp w
  = (mkWorld (self w) (LOGGER w ++ status_warning resp) (wire w) (sent w),
     Ok tt).
Proof.
  intros Hc. unfold raise_for_status, Response_raise_for_status, status_warning.
  unfold bind at 1.
  replace (status_code resp =? 406) with false by lia. cbn [andb].
  replace ((400 <=? status_code resp) && (status_code resp <? 500))
    with false by lia.
  replace ((500 <=? status_code resp) && (status_code resp <? 600))
    with false by lia.
  destruct (status_code resp =? 200); cbn.
  - rewrite app_nil_r. by destruct w.
  - reflexivity.
Qed.

Lemma attempt_passes_uncounted (w : world) (resp : Response)
    (http_method url : string) hs body stream params :
  http_method = "GET" \/ http_method = "POST" ->
  wire w (sent w) = Answers resp ->
  ~ 400 <= status_code resp < 600 ->
  headers resp !! LIMIT_INFO = None ->
  make_request_attempt http_method url hs body stream params w
  = (mkWorld (self w)
       (LOGGER w ++ request_line http_method url body params
                    :: status_warning resp)
       (wire w) (S (sent w)),
     Ok resp).
Proof.
  intros Hm Hw Hs Hh. rewrite (attempt_sends _ _ _ _ _ _ _ Hm), Hw.
  unfold after_request, LIMIT_INFO in *.
  unfold bind at 1. rewrite (raise_for_status_passes resp _ Hs).
  unfold bind at 1. rewrite Hh. unfold sent_world. cbn.
  by rewrite <- app_assoc.
Qed.

Lemma attempt_passes_counted (w : world) (resp : Response) (info : string)
    (http_method url : string) hs body stream params :
  http_method = "GET" \/ http_method = "POST" ->
  wire w (sent w) = Answers resp ->
  ~ 400 <= status_code resp < 600 ->
  headers resp !! LIMIT_INFO = Some info ->
  let counted := counting (self w) (rest_requests_attempted (self w) + 1) in
  make_request_attempt http_method url hs body stream params w
  = (mkWorld counted
       (LOGGER w ++ request_line http_method url body params
                    :: status_warning resp ++ quota_line info)
       (wire w) (S (sent w)),
     match Re.search_api_usage info with
     | None => Ok resp
     | Some (g1, g2) =>
         match quota_verdict counted (Re.int g1) (Re.int g2) with
         | Ok _ => Ok resp
         | Raise e => Raise e
         end
     end).
Proof.
  intros Hm Hw Hs Hh counted. rewrite (attempt_sends _ _ _ _ _ _ _ Hm), Hw.
  unfold after_request. change "Sforce-Limit-Info"%string with LIMIT_INFO.
  unfold bind at 1. rewrite (raise_for_status_passes resp _ Hs).
  unfold bind at 1. rewrite Hh. unfold bind at 1.
  unfold count_rest_request, sent_world. cbn [self LOGGER wire sent].
  fold (counting (self w) (rest_requests_attempted (self w) + 1)).
  fold counted. unfold quota_line.
  destruct (Re.search_api_usage info) as [[g1 g2]|] eqn:Hsearch.
  - rewrite (check_matched _ info g1 g2 _ Hh Hsearch).
    cbn [self LOGGER wire sent]. rewrite <- !app_assoc. cbn [app].
    by destruct (quota_verdict _ _ _) as [[]|e].
  - rewrite (check_unmatched _ info _ Hh Hsearch).
    rewrite app_nil_r, <- app_assoc. reflexivity.
Qed.

(** The outcome of the quota check is never tried again. *)
Lemma quota_outcome_final (this : Salesforce) (info : string) (resp : Response) :
  match (match Re.search_api_usage info with
         | None => Ok resp
         | Some (g1, g2) =>
             match quota_verdict this (Re.int g1) (Re.int g2) with
             | Ok _ => Ok resp
             | Raise e => Raise e
             end
         end) with
  | Ok _ => True
  | Raise e => retried_exceptions e = false
  end.
Proof.
  destruct (Re.search_api_usage info) as [[g1 g2]|]; [|exact I].
  destruct (quota_verdict _ _ _) as [[]|e] eqn:Hv; [exact I|].
  by apply verdict_raises in Hv.
Qed.

(** After [k] transient outcomes the loop stands at try [k + 1] with the
    client untouched. *)
Lemma request_after_transients (k : nat) (w : world) (http_method url : string)
    hs body stream params :
  http_method = "GET" \/ http_method = "POST" ->
  (k < 10)%nat ->
  (forall i, (i < k)%nat -> transient (wire w (sent w + i)%nat) = true) ->
  exists w1,
    self w1 = self w /\ wire w1 = wire w /\ sent w1 = (sent w + k)%nat
    /\ wire w1 (sent w1) = wire w (sent w + k)%nat
    /\ (k = 0%nat -> w1 = w)
    /\ _make_request http_method url hs body stream params w
       = retry_exception retried_exceptions log_backoff_attempt (9 - k) (S k)
           (make_request_attempt http_method url hs body stream params) w1.
Proof.
  intros Hm Hk Ht. destruct k as [|k].
  - exists w. rewrite Nat.add_0_r. by repeat split.
  - destruct (retry_transients (S k) (9 - S k) 1 w http_method url hs body stream
                params Hm Ht) as (w1 & Hself & Hwire & Hsent & Heq).
    exists w1. repeat split; try assumption.
    + by rewrite Hwire, Hsent.
    + discriminate.
    + unfold _make_request, backoff_on_exception.
      change (Nat.pred 10) with 9%nat.
      replace 9%nat with (S k + (9 - S k))%nat at 1 by lia.
      rewrite Heq. reflexivity.
Qed.

Lemma transient_kinds (o : sending) :
  transient o = true
  <-> (o = Fails ConnectionError
       \/ (exists msg, o = Fails (SFDCCustomNotAcceptableError msg))
       \/ exists resp,
            o = Answers resp /\ status_code resp = 406
            /\ str_contains "CustomNotAcceptable" (reason resp) = true).
Proof.
  destruct o as [resp|e]; cbn [transient].
  - rewrite andb_true_iff, Z.eqb_eq. split.
    + intros [H1 H2]. right. right. by exists resp.
    + intros [H|[[msg H]|(resp' & [= <-] & H1 & H2)]]; try discriminate H.
      by split.
  - split.
    + destruct e; try discriminate; intros _; [by left|right; left; by eexists].
    + intros [[= ->]|[[msg [= ->]]|(resp' & H & _)]]; try reflexivity.
      discriminate H.
Qed.

(** C6 (as amended). [_make_request] with GET or POST sends at most ten
    requests, and what it does is settled at every attempt: suppose its
    first [k] requests, [k] below ten, met a transient outcome, a connection
    error or the 406 response whose reason holds [CustomNotAcceptable], and
    look at the outcome of request [k + 1].  If that one is transient too, a
    further request is sent while fewer than ten were made, and at the tenth
    its exception propagates.  Any other exception of the session
    propagates at once, and a response of the 4xx or 5xx class is logged and
    raised as an HTTP error, after exactly [k + 1] requests and with the
    client untouched.  Any other response, of status 200 or not, is never
    raised by the status handler: a warning is logged unless the status is
    200; without the quota header the response is returned; with it the
    request is counted and the quota check decides, the response being
    returned when the check passes and the error of the check propagating,
    untried, when it does not. *)
Theorem retry_policy (w : world) (http_method url : string)
    (hs : option (gmap string string)) (body : option string) (stream : bool)
    (params : option string) (k : nat) :
  http_method = "GET" \/ http_method = "POST" ->
  (k < 10)%nat ->
  (forall i, (i < k)%nat -> transient (wire w (sent w + i)%nat) = true) ->
  let run := _make_request http_method url hs body stream params w in
  let last := wire w (sent w + k)%nat in
  let line := request_line http_method url body params in
  let counted := counting (self w) (rest_requests_attempted (self w) + 1) in
  (sent w + k < sent (fst run) <= sent w + 10)%nat
  /\ (transient last = true
      <-> (last = Fails ConnectionError
           \/ (exists msg, last = Fails (SFDCCustomNotAcceptableError msg))
           \/ exists resp,
                last = Answers resp /\ status_code resp = 406
                /\ str_contains "CustomNotAcceptable" (reason resp) = true))
  /\ (transient last = true -> (k < 9)%nat ->
      (sent w + S k < sent (fst run))%nat)
  /\ (transient last = true -> k = 9%nat ->
      sent (fst run) = (sent w + 10)%nat
      /\ snd run
         = Raise match last with
                 | Fails e => e
                 | Answers resp =>
                     SFDCCustomNotAcceptableError (http_error_msg "Client" resp)
                 end)
  /\ (forall e, last = Fails e -> retried_exceptions e = false ->
        snd run = Raise e
        /\ sent (fst run) = (sent w + S k)%nat
        /\ self (fst run) = self w)
  /\ (forall resp, last = Answers resp ->
        400 <= status_code resp < 600 -> transient last = false ->
        snd run
        = Raise (HTTPError (status_code resp)
                   (http_error_msg
                      (if status_code resp <? 500 then "Client" else "Server")
                      resp))
        /\ sent (fst run) = (sent w + S k)%nat
        /\ self (fst run) = self w
        /\ exists before,
             (k = 0%nat -> before = LOGGER w)
             /\ LOGGER (fst run)
                = before ++ [line; LogWarning (http_error_msg "Client" resp)])
  /\ (forall resp, last = Answers resp ->
        ~ 400 <= status_code resp < 600 ->
        headers resp !! LIMIT_INFO = None ->
        snd run = Ok resp
        /\ sent (fst run) = (sent w + S k)%nat
        /\ self (fst run) = self w
        /\ exists before,
             (k = 0%nat -> before = LOGGER w)
             /\ LOGGER (fst run) = before ++ line :: status_warning resp)
  /\ (forall resp info, last = Answers resp ->
        ~ 400 <= status_code resp < 600 ->
        headers resp !! LIMIT_INFO = Some info ->
        snd run
        = match Re.search_api_usage info with
          | None => Ok resp
          | Some (g1, g2) =>
              match quota_verdict counted (Re.int g1) (Re.int g2) with
              | Ok _ => Ok resp
              | Raise e => Raise e
              end
          end
        /\ sent (fst run) = (sent w + S k)%nat
        /\ self (fst run) = counted
        /\ exists before,
             (k = 0%nat -> before = LOGGER w)
             /\ LOGGER (fst run)
                = before ++ line :: status_warning resp ++ quota_line info).
Proof.
  intros Hm Hk Ht run last line counted.
  destruct (request_after_transients k w http_method url hs body stream params
              Hm Hk Ht) as (w1 & Hself & Hwire & Hsent & Hlast & Hw0 & Hrun).
  fold run in Hrun. fold last in Hlast.
  split; [|split; [|split; [|split; [|split; [|split; [|split]]]]]].
  - split.
    + rewrite Hrun.
      destruct (retry_exception _ _ _ _ _ w1) as [w' r] eqn:E.
      destruct (retry_backoff_lines _ _ _ _ _ _ _ _ _ _ _ Hm E)
        as (n & _ & Hn & _).
      cbn [fst]. lia.
    + pose proof (retry_sent 9 1 w http_method url hs body stream params) as H.
      unfold run, _make_request, backoff_on_exception. cbn [Nat.pred]. lia.
  - apply transient_kinds.
  - intros Hl Hk9.
    destruct (retry_transients (S k) (9 - S k) 1 w http_method url hs body stream
                params Hm) as (w2 & _ & _ & Hsent2 & Heq).
    { intros i Hi. destruct (decide (i = k)) as [->|Hne]; [exact Hl|].
      apply Ht. lia. }
    unfold run, _make_request, backoff_on_exception.
    change (Nat.pred 10) with 9%nat.
    replace 9%nat with (S k + (9 - S k))%nat at 1 by lia.
    rewrite Heq.
    destruct (retry_exception _ _ _ _ _ w2) as [w' r] eqn:E.
    destruct (retry_backoff_lines _ _ _ _ _ _ _ _ _ _ _ Hm E)
      as (n & _ & Hn & _).
    cbn [fst]. lia.
  - intros Hl ->. change (9 - 9)%nat with 0%nat in Hrun.
    destruct (retry_gives_up 10 w1 http_method url hs body stream params Hm)
      as (w' & e & Hf & Hgo & Hs'); [by rewrite Hlast|].
    rewrite Hrun, Hgo. cbn [fst snd]. split; [lia|].
    f_equal. rewrite Hlast in Hf. destruct last as [resp|e0].
    + cbn [failure transient] in Hf, Hl. rewrite Hl in Hf. by injection Hf.
    + by injection Hf.
  - intros e Hl He.
    destruct (attempt_failure w1 http_method url hs body stream params e Hm)
      as (w' & Ha & Hself' & _ & Hsent' & _); [by rewrite Hlast, Hl|].
    rewrite Hrun, (retry_stops _ _ _ _ _ _ _ _ Ha He). cbn [fst snd].
    repeat split; [lia|congruence].
  - intros resp Hl Hcode Hnt. rewrite Hl in Hnt.
    assert (Hf : failure (wire w1 (sent w1))
                 = Some (HTTPError (status_code resp)
                           (http_error_msg
                              (if status_code resp <? 500
                               then "Client" else "Server") resp))).
    { rewrite Hlast, Hl. cbn [failure transient] in *. rewrite Hnt.
      destruct (status_code resp <? 500) eqn:E5.
      - by replace ((400 <=? status_code resp) && true) with true by lia.
      - rewrite andb_false_r.
        by replace ((500 <=? status_code resp) && (status_code resp <? 600))
          with true by lia. }
    destruct (attempt_failure w1 http_method url hs body stream params _ Hm Hf)
      as (w' & Ha & Hself' & _ & Hsent' & Hlog).
    rewrite Hrun, (retry_stops _ _ _ _ _ _ _ _ Ha eq_refl). cbn [fst snd].
    repeat split; [lia|congruence|].
    exists (LOGGER w1). split; [by intros ->%Hw0|].
    apply Hlog. by rewrite Hlast.
  - intros resp Hl Hcode Hh.
    rewrite Hrun,
      (retry_stops _ _ _ _ _ _ _ _
         (attempt_passes_uncounted w1 resp http_method url hs body stream params
            Hm ltac:(by rewrite Hlast) Hcode Hh) I).
    cbn [fst snd self sent LOGGER]. repeat split; [lia|assumption|].
    exists (LOGGER w1). split; [by intros ->%Hw0|reflexivity].
  - intros resp info Hl Hcode Hh.
    pose proof (attempt_passes_counted w1 resp info http_method url hs body
                  stream params Hm ltac:(by rewrite Hlast) Hcode Hh) as Ha.
    cbv zeta in Ha. rewrite Hself in Ha. fold counted in Ha.
    rewrite Hrun,
      (retry_stops _ _ _ _ _ _ _ _ Ha (quota_outcome_final counted info resp)).
    cbn [fst snd self sent LOGGER]. repeat split; [lia|].
    exists (LOGGER w1). split; [by intros ->%Hw0|reflexivity].
Qed.

Lemma retry_policy_witness :
  snd (_make_request "GET" "sobjects" None None false None
         (mkWorld (init None None false (Some "REST")) []
            (flaky 3 (plain_response 200 "OK")) 0))
  = Ok (plain_response 200 "OK")
  /\ sent (fst (_make_request "GET" "sobjects" None None false None
                  (mkWorld (init None None false (Some "REST")) []
                     (flaky 3 (plain_response 200 "OK")) 0)))
     = 4%nat.
Proof.
  assert (Ht : forall i, (i < 3)%nat ->
            transient (wire (mkWorld (init None None false (Some "REST")) []
                               (flaky 3 (plain_response 200 "OK")) 0)
                         (sent (mkWorld (init None None false (Some "REST")) []
                                  (flaky 3 (plain_response 200 "OK")) 0)
                          + i)%nat) = true).
  { intros i Hi. destruct i as [|[|[|i]]]; try reflexivity. lia. }
  destruct (retry_policy (mkWorld (init None None false (Some "REST")) []
                            (flaky 3 (plain_response 200 "OK")) 0)
              "GET" "sobjects" None None false None 3
              (or_introl eq_refl) ltac:(lia) Ht)
    as (_ & _ & _ & _ & _ & _ & Hreturned & _).
  destruct (Hreturned (plain_response 200 "OK") eq_refl) as (Hr & Hs & _).
  - cbn. lia.
  - reflexivity.
  - split; [exact Hr | exact Hs].
Defined.

(** A connection error followed by a 500: the second request is the last,
    its HTTP error propagates. *)
Example server_error_after_retry_propagates :
  snd (_make_request "GET" "sobjects" None None false None
         (mkWorld (init None None false (Some "REST")) []
            (flaky 1 (plain_response 500 "Internal Server Error")) 0))
  = Raise (HTTPError 500 "500 Server Error: Internal Server Error for url: https://example.my.salesforce.com/services/data/v60.0/sobjects")
  /\ sent (fst (_make_request "GET" "sobjects" None None false None
                  (mkWorld (init None None false (Some "REST")) []
                     (flaky 1 (plain_response 500 "Internal Server Error")) 0)))
     = 2%nat.
Proof. split; vm_compute; reflexivity. Qed.

(** A 201 response that reports 900 of 1000 requests used: the status
    handler lets it pass, the quota check then raises. *)
Example created_over_quota_raises :
  is_total_quota
    (match snd (_make_request "POST" "sobjects" None (Some "{}") false None
                  (mkWorld (init None None false (Some "REST")) []
                     (fun _ => Answers
                        (mkResponse 201 "Created" "https://example.my.salesforce.com/services/data/v60.0/sobjects"
                           {[ LIMIT_INFO := "api-usage=900/1000" ]})) 0)) with
     | Ok _ => Ok tt
     | Raise e => Raise e
     end) = true.
Proof. vm_compute. reflexivity. Qed.

(** Three dropped connections, then a good response with the quota header:
    it is returned after four requests, and counted once. *)
Example fourth_attempt_with_quota_header :
  _make_request "GET" "sobjects" None None false None
    (mkWorld (init None None false (Some "REST")) []
       (flaky 3 (quota_response "api-usage=150/1000")) 0)
  = (mkWorld (counting (init None None false (Some "REST")) 1)
       [LogInfo "Making %s request to %s with params: %s" ["GET"; "sobjects"; "None"];
        LogInfo "ConnectionError detected, triggering backoff: %d try" ["1"];
        LogInfo "Making %s request to %s with params: %s" ["GET"; "sobjects"; "None"];
        LogInfo "ConnectionError detected, triggering backoff: %d try" ["2"];
        LogInfo "Making %s request to %s with params: %s" ["GET"; "sobjects"; "None"];
        LogInfo "ConnectionError detected, triggering backoff: %d try" ["3"];
        LogInfo "Making %s request to %s with params: %s" ["GET"; "sobjects"; "None"];
        LogInfo "Used %s of %s daily REST API quota" ["150"; "1000"]]
       (flaky 3 (quota_response "api-usage=150/1000")) 4,
     Ok (quota_response "api-usage=150/1000")).
Proof. vm_compute. reflexivity. Qed.
